(** * Timetable generator (src/app/generator.py, src/main.py,
      src/nep_2020_generator.py)

    Shallow embedding of the exact-mode [TimetableGenerator], of the
    heuristic [generate_nep_compliant_schedule] with the helpers of
    src/main.py, and of the class [NEP2020TimetableGenerator].  Identifiers are [nat]s;
    the Supabase tables are lists of records held in an explicit store,
    and every [.execute()] call goes through [execute], which consults the
    store's fault oracle and may raise.  The CP-SAT solver is a parameter:
    a function from a time limit and a model to a solver status. *)

From Stdlib Require Import List String Ascii Bool Arith ZArith Lia Permutation Sorted.
Import ListNotations.
Open Scope string_scope.
Open Scope list_scope.

(** ** Records of the database tables *)

Record course := mkCourse {
  c_id : nat;
  c_program_id : nat;
  c_theory_hours : nat;
  c_practical_hours : nat;
  c_tutorial_hours : nat
}.

(** [availability] is the JSON object keyed by [str(day)]; a value
    [(day, a)] is the entry of that day, [a] its optional ['available']
    field. *)
Record faculty := mkFaculty {
  f_id : nat;
  f_availability : list (nat * option bool)
}.

Record room := mkRoom {
  r_id : nat;
  r_capacity : nat;
  r_room_type : string;
  r_is_available : bool
}.

Record time_slot := mkSlot {
  s_id : nat;
  s_day_of_week : nat;
  s_start_time : string;
  s_slot_type : string
}.

Record constraint := mkConstraint {
  k_is_hard_constraint : bool
}.

Record faculty_assignment := mkAssignment {
  a_course_id : nat;
  a_faculty_id : nat;
  a_semester : string;
  a_academic_year : string
}.

Record enrollment := mkEnrollment {
  e_course_id : nat
}.

(** A row of [timetable_entries], as written by [save_to_database]. *)
Record entry_row := mkRow {
  row_course_id : nat;
  row_faculty_id : nat;
  row_room_id : nat;
  row_time_slot_id : nat;
  row_semester : string;
  row_academic_year : string
}.

(** The store: the tables, plus the fault oracle [st_fail] that decides
    whether the [n]-th [.execute()] call raises, and the call counter. *)
Record store := mkStore {
  st_courses : list course;
  st_faculty : list faculty;
  st_rooms : list room;
  st_time_slots : list time_slot;
  st_constraints : list constraint;
  st_faculty_assignments : list faculty_assignment;
  st_enrollments : list enrollment;
  st_timetable_entries : list entry_row;
  st_fail : nat -> bool;
  st_calls : nat
}.

Definition set_entries (s : store) (rows : list entry_row) : store :=
  mkStore (st_courses s) (st_faculty s) (st_rooms s) (st_time_slots s)
    (st_constraints s) (st_faculty_assignments s) (st_enrollments s)
    rows (st_fail s) (st_calls s).

Definition bump (s : store) : store :=
  mkStore (st_courses s) (st_faculty s) (st_rooms s) (st_time_slots s)
    (st_constraints s) (st_faculty_assignments s) (st_enrollments s)
    (st_timetable_entries s) (st_fail s) (S (st_calls s)).

(** ** State and exception monad *)

Inductive outcome (A : Type) : Type :=
| Ok : A -> outcome A
| Raise : string -> outcome A.
Arguments Ok {A} _.
Arguments Raise {A} _.

(** [[x for x in l if p(x)]] and the first [x] of [l] with [p(x)], where
    the test [p] may raise: the first exception ends the loop. *)
Fixpoint ofilter {A} (p : A -> outcome bool) (l : list A) : outcome (list A) :=
  match l with
  | [] => Ok []
  | x :: l' =>
      match p x with
      | Raise e => Raise e
      | Ok b => match ofilter p l' with
                | Raise e => Raise e
                | Ok r => Ok (if b then x :: r else r)
                end
      end
  end.

Fixpoint ofind {A} (p : A -> outcome bool) (l : list A) : outcome (option A) :=
  match l with
  | [] => Ok None
  | x :: l' =>
      match p x with
      | Raise e => Raise e
      | Ok true => Ok (Some x)
      | Ok false => ofind p l'
      end
  end.

Fixpoint omapM {A B} (f : A -> outcome B) (l : list A) : outcome (list B) :=
  match l with
  | [] => Ok []
  | x :: l' =>
      match f x with
      | Raise e => Raise e
      | Ok y => match omapM f l' with
                | Raise e => Raise e
                | Ok ys => Ok (y :: ys)
                end
      end
  end.

Definition M (A : Type) : Type := store -> outcome A * store.

Definition ret {A} (a : A) : M A := fun s => (Ok a, s).

Definition bind {A B} (m : M A) (k : A -> M B) : M B :=
  fun s => match m s with
           | (Ok a, s') => k a s'
           | (Raise e, s') => (Raise e, s')
           end.

Notation "x <- m ;; k" := (bind m (fun x => k))
  (at level 61, m at next level, right associativity).
Notation "m ;;; k" := (bind m (fun _ => k))
  (at level 61, right associativity).

(** [try: m except Exception as e: h(str(e))] *)
Definition try_except {A} (m : M A) (h : string -> M A) : M A :=
  fun s => match m s with
           | (Ok a, s') => (Ok a, s')
           | (Raise e, s') => h e s'
           end.

(** One [.execute()] call: it raises when the fault oracle says so,
    otherwise it runs the query [q] on the store. *)
Definition db_error : string := "database error".

Definition execute {A} (q : store -> A * store) : M A :=
  fun s => if st_fail s (st_calls s) then (Raise db_error, bump s)
           else let (a, s') := q (bump s) in (Ok a, s').

Definition select {A} (f : store -> A) : M A := execute (fun s => (f s, s)).

Fixpoint mapM_ {A} (f : A -> M unit) (l : list A) : M unit :=
  match l with
  | [] => ret tt
  | x :: l' => f x ;;; mapM_ f l'
  end.

(** ** Python dicts with insertion order *)

(** [d[k] = v]: an existing key keeps its position. *)
Fixpoint dict_set {K V} (eqk : K -> K -> bool) (k : K) (v : V)
    (d : list (K * V)) : list (K * V) :=
  match d with
  | [] => [(k, v)]
  | (k', v') :: d' => if eqk k' k then (k', v) :: d' else (k', v') :: dict_set eqk k v d'
  end.

Fixpoint dict_get {K V} (eqk : K -> K -> bool) (k : K) (d : list (K * V)) : option V :=
  match d with
  | [] => None
  | (k', v') :: d' => if eqk k' k then Some v' else dict_get eqk k d'
  end.

(** [if k not in d: d[k] = []; d[k].append(x)] *)
Definition dict_append {K V} (eqk : K -> K -> bool) (k : K) (x : V)
    (d : list (K * list V)) : list (K * list V) :=
  match dict_get eqk k d with
  | None => dict_set eqk k [x] d
  | Some xs => dict_set eqk k (xs ++ [x]) d
  end.

(** The dict-of-lists grouping loop [for x in l: d[key(x)].append(val(x))]. *)
Definition group_by {A K V} (eqk : K -> K -> bool) (key : A -> K) (val : A -> V)
    (l : list A) : list (K * list V) :=
  fold_left (fun d x => dict_append eqk (key x) (val x) d) l [].

Definition pair_eqb (p q : nat * nat) : bool :=
  Nat.eqb (fst p) (fst q) && Nat.eqb (snd p) (snd q).

(** ** The CP-SAT model *)

Inductive lin_constraint :=
| LinEq : list nat -> nat -> lin_constraint   (** [model.Add(sum(vs) == k)] *)
| LinLe : list nat -> nat -> lin_constraint.  (** [model.Add(sum(vs) <= k)] *)

Record cp_model := mkModel {
  m_nvars : nat;
  m_constraints : list lin_constraint
}.

Definition empty_model : cp_model := mkModel 0 [].

(** [model.NewBoolVar(name)] returns a fresh variable index. *)
Definition new_bool_var (m : cp_model) : nat * cp_model :=
  (m_nvars m, mkModel (S (m_nvars m)) (m_constraints m)).

Definition model_add (m : cp_model) (c : lin_constraint) : cp_model :=
  mkModel (m_nvars m) (m_constraints m ++ [c]).

Definition sum_vars (vals : nat -> bool) (vs : list nat) : nat :=
  fold_right (fun v acc => (if vals v then 1 else 0) + acc) 0 vs.

Definition holds (vals : nat -> bool) (c : lin_constraint) : bool :=
  match c with
  | LinEq vs k => Nat.eqb (sum_vars vals vs) k
  | LinLe vs k => Nat.leb (sum_vars vals vs) k
  end.

Definition satisfies (vals : nat -> bool) (m : cp_model) : Prop :=
  forall c, In c (m_constraints m) -> holds vals c = true.

Inductive cp_status :=
| OPTIMAL : (nat -> bool) -> cp_status
| FEASIBLE : (nat -> bool) -> cp_status
| INFEASIBLE : cp_status
| UNKNOWN : cp_status          (** time limit reached without a proof *)
| MODEL_INVALID : cp_status.

(** A solver takes [max_time_in_seconds] and the model. *)
Definition cp_solver := nat -> cp_model -> cp_status.

(** What CP-SAT guarantees: a reported assignment satisfies the model. *)
Definition solver_sound (solver : cp_solver) : Prop :=
  forall t m vals,
    solver t m = OPTIMAL vals \/ solver t m = FEASIBLE vals -> satisfies vals m.

(** ** TimetableGenerator.load_data *)

Record problem := mkProblem {
  p_courses : list course;
  p_faculty : list faculty;
  p_rooms : list room;
  p_time_slots : list time_slot;
  p_constraints : list constraint;
  p_assignments : list (nat * list nat)   (** course_id -> faculty ids *)
}.

Fixpoint load_courses (program_ids : list nat) : M (list course) :=
  match program_ids with
  | [] => ret []
  | pid :: rest =>
      cs <- select (fun s => filter (fun c => Nat.eqb (c_program_id c) pid) (st_courses s)) ;;
      more <- load_courses rest ;;
      ret (cs ++ more)
  end.

Definition build_assignments (rows : list faculty_assignment) : list (nat * list nat) :=
  group_by Nat.eqb a_course_id a_faculty_id rows.

Definition load_data (semester academic_year : string) (program_ids : list nat) : M problem :=
  try_except
    (courses <- load_courses program_ids ;;
     fac <- select st_faculty ;;
     rooms <- select (fun s => filter r_is_available (st_rooms s)) ;;
     slots <- select st_time_slots ;;
     cons <- select st_constraints ;;
     asg <- select (fun s => filter (fun a => String.eqb (a_semester a) semester
                                             && String.eqb (a_academic_year a) academic_year)
                                    (st_faculty_assignments s)) ;;
     ret (mkProblem courses fac rooms slots cons (build_assignments asg)))
    (fun e => fun s => (Raise (String.append "Error loading data: " e), s)).

(** ** create_variables and _is_room_suitable *)

Definition total_hours (c : course) : nat :=
  c_theory_hours c + c_practical_hours c + c_tutorial_hours c.

(** [len(enrollments.data) if enrollments.data else 30] *)
Definition student_count_of (rows : list enrollment) : nat :=
  match rows with
  | [] => 30
  | _ => List.length rows
  end.

Definition enrollments_of (cid : nat) (s : store) : list enrollment :=
  filter (fun e => Nat.eqb (e_course_id e) cid) (st_enrollments s).

Definition room_type_ok (rm : room) (slot : time_slot) : bool :=
  if String.eqb (s_slot_type slot) "Practical" && negb (String.eqb (r_room_type rm) "Lab")
  then false
  else if String.eqb (s_slot_type slot) "Theory" && String.eqb (r_room_type rm) "Lab"
  then false
  else true.

Definition is_room_suitable (c : course) (rm : room) (slot : time_slot) : M bool :=
  enr <- select (enrollments_of (c_id c)) ;;
  let student_count := student_count_of enr in
  ret (if Nat.ltb (r_capacity rm) student_count then false
       else room_type_ok rm slot).

(** The value stored under a variable name in [self.schedule]. *)
Record sched_data := mkSched {
  sd_var : nat;
  sd_course_id : nat;
  sd_slot_id : nat;
  sd_room_id : nat;
  sd_faculty_id : nat;
  sd_course : course;
  sd_slot : time_slot;
  sd_room : room
}.

(** The name [f"c{course_id}_s{slot_id}_r{room_id}_f{faculty_id}"]; on
    integer ids the formatting is injective, so the name is the tuple. *)
Definition var_name : Type := (nat * nat * nat * nat)%type.

Definition var_name_eqb (a b : var_name) : bool :=
  match a, b with
  | (c1, s1, r1, f1), (c2, s2, r2, f2) =>
      Nat.eqb c1 c2 && Nat.eqb s1 s2 && Nat.eqb r1 r2 && Nat.eqb f1 f2
  end.

Definition schedule := list (var_name * sched_data).

Definition faculty_of (p : problem) (cid : nat) : list nat :=
  match dict_get Nat.eqb cid (p_assignments p) with
  | Some fs => fs
  | None => []
  end.

Definition add_var (c : course) (slot : time_slot) (rm : room)
    (acc : schedule * cp_model) (fid : nat) : schedule * cp_model :=
  let (sch, m) := acc in
  let (v, m') := new_bool_var m in
  (dict_set var_name_eqb (c_id c, s_id slot, r_id rm, fid)
     (mkSched v (c_id c) (s_id slot) (r_id rm) fid c slot rm) sch, m').

Definition room_step (p : problem) (c : course) (slot : time_slot)
    (acc : schedule * cp_model) (rm : room) : M (schedule * cp_model) :=
  ok <- is_room_suitable c rm slot ;;
  if negb ok then ret acc
  else ret (fold_left (add_var c slot rm) (faculty_of p (c_id c)) acc).

Fixpoint foldM {A B} (f : B -> A -> M B) (l : list A) (b : B) : M B :=
  match l with
  | [] => ret b
  | x :: l' => b' <- f b x ;; foldM f l' b'
  end.

Definition course_step (p : problem) (acc : schedule * cp_model) (c : course)
    : M (schedule * cp_model) :=
  if Nat.eqb (total_hours c) 0 then ret acc
  else foldM (fun acc slot => foldM (room_step p c slot) (p_rooms p) acc)
             (p_time_slots p) acc.

Definition create_variables (p : problem) (m : cp_model) : M (schedule * cp_model) :=
  foldM (course_step p) (p_courses p) ([], m).

(** ** add_constraints *)

(** 1. [_add_course_hours_constraint]: [course_hours[cid]] holds the list
    of variables and the last computed [total_hours // 15]. *)
Definition course_hours_step (d : list (nat * (list nat * nat))) (x : sched_data)
    : list (nat * (list nat * nat)) :=
  let vs := match dict_get Nat.eqb (sd_course_id x) d with
            | Some (vs, _) => vs
            | None => []
            end in
  dict_set Nat.eqb (sd_course_id x) (vs ++ [sd_var x], total_hours (sd_course x) / 15) d.

Definition course_hours (sched : schedule) : list (nat * (list nat * nat)) :=
  fold_left course_hours_step (map snd sched) [].

Definition add_course_hours_constraint (sched : schedule) (m : cp_model) : cp_model :=
  fold_left (fun m '(_, (vs, req)) => if Nat.ltb 0 req then model_add m (LinEq vs req) else m)
    (course_hours sched) m.

(** 2. [_add_faculty_conflict_constraint]; the key [f"{faculty_id}_{slot_id}"]
    is injective on integer ids, so it is the pair. *)
Definition faculty_slots (sched : schedule) : list ((nat * nat) * list nat) :=
  group_by pair_eqb (fun x => (sd_faculty_id x, sd_slot_id x)) sd_var (map snd sched).

Definition add_at_most_one (groups : list ((nat * nat) * list nat)) (m : cp_model) : cp_model :=
  fold_left (fun m '(_, vs) => if Nat.ltb 1 (List.length vs) then model_add m (LinLe vs 1) else m)
    groups m.

Definition add_faculty_conflict_constraint (sched : schedule) (m : cp_model) : cp_model :=
  add_at_most_one (faculty_slots sched) m.

(** 3. [_add_room_conflict_constraint], key [f"{room_id}_{slot_id}"]. *)
Definition room_slots (sched : schedule) : list ((nat * nat) * list nat) :=
  group_by pair_eqb (fun x => (sd_room_id x, sd_slot_id x)) sd_var (map snd sched).

Definition add_room_conflict_constraint (sched : schedule) (m : cp_model) : cp_model :=
  add_at_most_one (room_slots sched) m.

(** 4. [_add_faculty_availability_constraint] *)
Definition availability_step (p : problem) (m : cp_model) (x : sched_data) : cp_model :=
  match find (fun f => Nat.eqb (f_id f) (sd_faculty_id x)) (p_faculty p) with
  | Some fd =>
      match f_availability fd with
      | [] => m
      | avail =>
          match dict_get Nat.eqb (s_day_of_week (sd_slot x)) avail with
          | Some a => if negb (match a with Some b => b | None => true end)
                      then model_add m (LinEq [sd_var x] 0) else m
          | None => m
          end
      end
  | None => m
  end.

Definition add_faculty_availability_constraint (p : problem) (sched : schedule)
    (m : cp_model) : cp_model :=
  fold_left (availability_step p) (map snd sched) m.

(** 5. [_add_custom_constraints]: [_apply_hard_constraint] is [pass]. *)
Definition apply_hard_constraint (k : constraint) (m : cp_model) : cp_model := m.

Definition add_custom_constraints (p : problem) (m : cp_model) : cp_model :=
  fold_left (fun m k => if k_is_hard_constraint k then apply_hard_constraint k m else m)
    (p_constraints p) m.

(** 6. [_add_distribution_constraint]: [course_days[cid][day]]. *)
Definition course_days (sched : schedule) : list (nat * list (nat * list nat)) :=
  map (fun '(cid, xs) => (cid, group_by Nat.eqb (fun x => s_day_of_week (sd_slot x)) sd_var xs))
    (group_by Nat.eqb sd_course_id (fun x => x) (map snd sched)).

Definition add_distribution_constraint (sched : schedule) (m : cp_model) : cp_model :=
  fold_left (fun m '(_, days) =>
      fold_left (fun m '(_, vs) =>
          if Nat.ltb 2 (List.length vs) then model_add m (LinLe vs 2) else m) days m)
    (course_days sched) m.

(** 7. [_add_consecutive_hours_constraint]: [slots.sort(key=lambda x: x[0])]
    is a stable sort on the start time. *)
Fixpoint insert_by_start (x : string * nat) (l : list (string * nat)) : list (string * nat) :=
  match l with
  | [] => [x]
  | y :: l' => if String.leb (fst x) (fst y) then x :: l else y :: insert_by_start x l'
  end.

Fixpoint sort_by_start (l : list (string * nat)) : list (string * nat) :=
  match l with
  | [] => []
  | x :: l' => insert_by_start x (sort_by_start l')
  end.

(** [[slots[i][1], slots[i+1][1], slots[i+2][1]] for i in range(len(slots) - 2)] *)
Fixpoint windows3 (l : list nat) : list (list nat) :=
  match l with
  | a :: ((b :: c :: _) as t) => [a; b; c] :: windows3 t
  | _ => []
  end.

Definition course_day_slots (sched : schedule) : list ((nat * nat) * list (string * nat)) :=
  group_by pair_eqb (fun x => (sd_course_id x, s_day_of_week (sd_slot x)))
    (fun x => (s_start_time (sd_slot x), sd_var x)) (map snd sched).

Definition add_consecutive_hours_constraint (sched : schedule) (m : cp_model) : cp_model :=
  fold_left (fun m '(_, slots) =>
      fold_left (fun m w => model_add m (LinLe w 2)) (windows3 (map snd (sort_by_start slots))) m)
    (course_day_slots sched) m.

Definition add_constraints (p : problem) (sched : schedule) (m : cp_model) : cp_model :=
  let m := add_course_hours_constraint sched m in
  let m := add_faculty_conflict_constraint sched m in
  let m := add_room_conflict_constraint sched m in
  let m := add_faculty_availability_constraint p sched m in
  let m := add_custom_constraints p m in
  let m := add_distribution_constraint sched m in
  add_consecutive_hours_constraint sched m.

(** ** solve, _extract_solution, save_to_database, generate *)

Record solution_entry := mkEntry {
  en_course_id : nat;
  en_faculty_id : nat;
  en_room_id : nat;
  en_time_slot_id : nat;
  en_semester : string;
  en_academic_year : string;
  en_course : course;
  en_slot : time_slot;
  en_room : room
}.

Definition entry_of (semester academic_year : string) (x : sched_data) : solution_entry :=
  mkEntry (sd_course_id x) (sd_faculty_id x) (sd_room_id x) (sd_slot_id x)
    semester academic_year (sd_course x) (sd_slot x) (sd_room x).

(** [if self.solver.Value(data['var']) == 1: solution.append(entry)] *)
Definition extract_solution (semester academic_year : string) (sched : schedule)
    (vals : nat -> bool) : list solution_entry :=
  map (fun kx => entry_of semester academic_year (snd kx))
    (filter (fun kx => vals (sd_var (snd kx))) sched).

Definition time_limit : nat := 60.

Definition solve (solver : cp_solver) (semester academic_year : string) (sched : schedule)
    (m : cp_model) : option (list solution_entry) :=
  match solver time_limit m with
  | OPTIMAL vals | FEASIBLE vals => Some (extract_solution semester academic_year sched vals)
  | _ => None
  end.

Definition row_of (e : solution_entry) : entry_row :=
  mkRow (en_course_id e) (en_faculty_id e) (en_room_id e) (en_time_slot_id e)
    (en_semester e) (en_academic_year e).

Definition row_has_key (semester academic_year : string) (r : entry_row) : bool :=
  String.eqb (row_semester r) semester && String.eqb (row_academic_year r) academic_year.

Definition save_to_database (semester academic_year : string) (solution : list solution_entry)
    : M bool :=
  try_except
    (execute (fun s => (tt, set_entries s
                 (filter (fun r => negb (row_has_key semester academic_year r))
                    (st_timetable_entries s)))) ;;;
     mapM_ (fun e => execute (fun s => (tt, set_entries s (st_timetable_entries s ++ [row_of e]))))
       solution ;;;
     ret true)
    (fun _ => ret false).

Record gen_result := mkResult {
  g_success : bool;
  g_solution : option (list solution_entry);
  g_message : string
}.

Definition no_solution_result : gen_result :=
  mkResult false None "Could not find a feasible solution".

Definition generate (solver : cp_solver) (semester academic_year : string)
    (program_ids : list nat) (respect_constraints : bool) : M gen_result :=
  try_except
    (p <- load_data semester academic_year program_ids ;;
     sm <- create_variables p empty_model ;;
     let sched := fst sm in
     let m := if respect_constraints then add_constraints p sched (snd sm) else snd sm in
     match solve solver semester academic_year sched m with
     | Some ((_ :: _) as solution) =>
         save_to_database semester academic_year solution ;;;
         ret (mkResult true (Some solution) "Timetable generated successfully")
     | _ => ret no_solution_result
     end)
    (fun e => ret (mkResult false None (String.append "Error generating timetable: " e))).

(** ** An exhaustive solver, sound by construction (used on concrete inputs) *)

Fixpoint all_assignments (n : nat) : list (list bool) :=
  match n with
  | 0 => [[]]
  | S n' => flat_map (fun l => [false :: l; true :: l]) (all_assignments n')
  end.

Definition vals_of (l : list bool) : nat -> bool := fun i => nth i l false.

Definition brute_solver : cp_solver := fun _ m =>
  match find (fun l => forallb (holds (vals_of l)) (m_constraints m)) (all_assignments (m_nvars m)) with
  | Some l => OPTIMAL (vals_of l)
  | None => INFEASIBLE
  end.

(** ** The heuristic draft generator (src/main.py) *)

(** Subject, teacher and classroom rows are Python dicts; a field is
    [None] when the key is missing and [get] is [dict.get] with a default.
    A row always carries its [id], so a row is a non-empty, truthy dict.
    Text is taken to be ASCII. *)
Definition get {A} (o : option A) (d : A) : A :=
  match o with Some a => a | None => d end.

Record subject := mkSubject {
  sj_name : option string;
  sj_code : option string;
  sj_nep_category : option string;
  sj_credits : option Z;
  sj_is_skill_based : option bool
}.

(** A nullable column of a row read with [row.get(key, default)]: the key
    may be missing ([Absent]: the default is read), hold SQL NULL ([Null]:
    [None] is read) or a value. Rows of [select('*')] carry every column. *)
Inductive nullable (A : Type) : Type :=
| Absent : nullable A
| Null : nullable A
| Present : A -> nullable A.
Arguments Absent {A}.
Arguments Null {A}.
Arguments Present {A} _.

(** [row.get(key, d)]; [None] is Python's [None]. *)
Definition get_nullable {A} (f : nullable A) (d : A) : option A :=
  match f with
  | Absent => Some d
  | Null => None
  | Present a => Some a
  end.

(** The teachers table: [name] is NOT NULL, [specialization] nullable. *)
Record teacher := mkTeacher {
  t_name : option string;
  t_specialization : nullable string
}.

Record classroom := mkClassroom {
  cr_name : option string;
  cr_department : option string;
  cr_type : option string
}.

(** [str.lower], [str.upper], [a in b] on strings and [str.split()]. *)
Definition lower_ascii (c : ascii) : ascii :=
  let n := nat_of_ascii c in
  if Nat.leb 65 n && Nat.leb n 90 then ascii_of_nat (n + 32) else c.

Definition upper_ascii (c : ascii) : ascii :=
  let n := nat_of_ascii c in
  if Nat.leb 97 n && Nat.leb n 122 then ascii_of_nat (n - 32) else c.

Fixpoint lower (s : string) : string :=
  match s with
  | EmptyString => EmptyString
  | String c s' => String (lower_ascii c) (lower s')
  end.

Fixpoint upper (s : string) : string :=
  match s with
  | EmptyString => EmptyString
  | String c s' => String (upper_ascii c) (upper s')
  end.

Fixpoint contains (needle hay : string) : bool :=
  String.prefix needle hay ||
  match hay with
  | EmptyString => false
  | String _ hay' => contains needle hay'
  end.

(** [v.lower()] and [needle in v] on a value [v] that may be [None]. *)
Definition none_lower_error : string :=
  "AttributeError: 'NoneType' object has no attribute 'lower'".

Definition none_in_error : string :=
  "TypeError: argument of type 'NoneType' is not iterable".

Definition py_lower (v : option string) : outcome string :=
  match v with
  | Some s => Ok (lower s)
  | None => Raise none_lower_error
  end.

Definition py_in (needle : string) (v : option string) : outcome bool :=
  match v with
  | Some s => Ok (contains needle s)
  | None => Raise none_in_error
  end.

(** Python's whitespace below 128: \t \n \v \f \r, \x1c to \x1f and space. *)
Definition is_space (c : ascii) : bool :=
  let n := nat_of_ascii c in (Nat.leb 9 n && Nat.leb n 13) || (Nat.leb 28 n && Nat.leb n 32).

Fixpoint split_go (s cur : string) : list string :=
  match s with
  | EmptyString => if String.eqb cur "" then [] else [cur]
  | String c s' =>
      if is_space c then (if String.eqb cur "" then split_go s' "" else cur :: split_go s' "")
      else split_go s' (String.append cur (String c EmptyString))
  end.

Definition str_split (s : string) : list string := split_go s "".

(** The module [random]: a source of draws [rng_draw 0, rng_draw 1, ...]
    threaded through an error monad. *)
Record rng := mkRng { rng_draw : nat -> nat; rng_pos : nat }.

Definition R (A : Type) : Type := rng -> outcome A * rng.

Definition rret {A} (a : A) : R A := fun g => (Ok a, g).

Definition rraise {A} (e : string) : R A := fun g => (Raise e, g).

(** A computation that draws nothing. *)
Definition rlift {A} (o : outcome A) : R A := fun g => (o, g).

Definition rbind {A B} (m : R A) (k : A -> R B) : R B :=
  fun g => match m g with
           | (Ok a, g') => k a g'
           | (Raise e, g') => (Raise e, g')
           end.

Notation "x <@ m ;; k" := (rbind m (fun x => k))
  (at level 61, m at next level, right associativity).

Definition next_draw : R nat :=
  fun g => (Ok (rng_draw g (rng_pos g)), mkRng (rng_draw g) (S (rng_pos g))).

(** [_randbelow(n)]: some value below [n]; CPython's rejection loop over
    [getrandbits] is summarised by the next draw taken modulo [n]. *)
Definition randbelow (n : nat) : R nat := k <@ next_draw ;; rret (k mod n).

(** [random()] is [k / 2^53] for a 53-bit [k]; it is represented by [k]. *)
Definition random_float : R Z := k <@ next_draw ;; rret (Z.of_nat k mod 2 ^ 53)%Z.

(** The double nearest to 0.7, times [2^53]: [random() < 0.7] iff
    [k < fl07]. *)
Definition fl07 : Z := 6305039478318694%Z.

(** [randint(a, b) = randrange(a, b + 1) = a + _randbelow(b + 1 - a)]. *)
Definition randint (a b : nat) : R nat := k <@ randbelow (b + 1 - a) ;; rret (a + k).

Definition choice {A} (l : list A) : R A :=
  match l with
  | [] => rraise "IndexError: Cannot choose from an empty sequence"
  | _ => i <@ randbelow (List.length l) ;;
         match nth_error l i with
         | Some x => rret x
         | None => rraise "IndexError: list index out of range"
         end
  end.

Fixpoint list_set {A} (l : list A) (i : nat) (v : A) : list A :=
  match l, i with
  | [], _ => []
  | _ :: l', 0 => v :: l'
  | x :: l', S i' => x :: list_set l' i' v
  end.

(** [x[i], x[j] = x[j], x[i]] *)
Definition swap {A} (l : list A) (i j : nat) : R (list A) :=
  match nth_error l i, nth_error l j with
  | Some a, Some b => rret (list_set (list_set l i b) j a)
  | _, _ => rraise "IndexError: list index out of range"
  end.

Fixpoint rfoldM {A B} (f : B -> A -> R B) (l : list A) (b : B) : R B :=
  match l with
  | [] => rret b
  | x :: l' => b' <@ f b x ;; rfoldM f l' b'
  end.

Fixpoint rmapM {A B} (f : A -> R B) (l : list A) : R (list B) :=
  match l with
  | [] => rret []
  | x :: l' => y <@ f x ;; ys <@ rmapM f l' ;; rret (y :: ys)
  end.

(** [shuffle(x)]: [for i in reversed(range(1, len(x))): j = _randbelow(i + 1);
    x[i], x[j] = x[j], x[i]]. *)
Definition shuffle {A} (x : list A) : R (list A) :=
  rfoldM (fun x i => j <@ randbelow (i + 1) ;; swap x i j) (rev (seq 1 (List.length x - 1))) x.

(** [sample(population, k)] by its pool method, the branch CPython takes
    when [n <= setsize]; for the 7 periods sampled here with [k <= 6],
    [setsize] is 21 or 85. *)
Definition sample {A} (population : list A) (k : nat) : R (list A) :=
  let n := List.length population in
  if Nat.ltb n k then rraise "ValueError: Sample larger than population or is negative" else
  res <@ rfoldM (fun rp i =>
           j <@ randbelow (n - i) ;;
           match nth_error (snd rp) j, nth_error (snd rp) (n - i - 1) with
           | Some pj, Some last => rret (fst rp ++ [pj], list_set (snd rp) j last)
           | _, _ => rraise "IndexError: list index out of range"
           end)
         (seq 0 k) ([], population) ;;
  rret (fst res).

(** A stable insertion sort, as [sorted] and [list.sort] are stable. *)
Fixpoint insert_by {A} (le : A -> A -> bool) (x : A) (l : list A) : list A :=
  match l with
  | [] => [x]
  | y :: l' => if le x y then x :: l else y :: insert_by le x l'
  end.

Fixpoint sort_by {A} (le : A -> A -> bool) (l : list A) : list A :=
  match l with
  | [] => []
  | x :: l' => insert_by le x (sort_by le l')
  end.

Definition period : Type := string * string.

Definition period_eqb (a b : period) : bool :=
  String.eqb (fst a) (fst b) && String.eqb (snd a) (snd b).

(** Tuple order on two strings. *)
Definition period_leb (a b : period) : bool :=
  match String.compare (fst a) (fst b) with
  | Lt => true
  | Gt => false
  | Eq => String.leb (snd a) (snd b)
  end.

(** [list.remove(x)]: drop the first element equal to [x]. *)
Fixpoint remove_period (x : period) (l : list period) : option (list period) :=
  match l with
  | [] => None
  | y :: l' => if period_eqb x y then Some l' else
               match remove_period x l' with Some r => Some (y :: r) | None => None end
  end.

Definition nep_priority : list string :=
  ["MAJOR"; "AEC"; "SEC"; "MDC"; "MINOR"; "VAC"; "PROJECT"].

Fixpoint index_of (x : string) (l : list string) : option nat :=
  match l with
  | [] => None
  | y :: l' => if String.eqb y x then Some 0 else option_map S (index_of x l')
  end.

(** The first component of the sort key. *)
Definition priority_of (s : subject) : R nat :=
  let cat := get (sj_nep_category s) "MAJOR" in
  if existsb (String.eqb cat) nep_priority then
    match index_of cat nep_priority with
    | Some i => rret i
    | None => rraise "ValueError: is not in list"
    end
  else rret (List.length nep_priority).

Definition key_leb (a b : (nat * Z) * subject) : bool :=
  let '((i1, k1), _) := a in
  let '((i2, k2), _) := b in
  Nat.ltb i1 i2 || (Nat.eqb i1 i2 && Z.leb k1 k2).

Definition days : list string := ["Monday"; "Tuesday"; "Wednesday"; "Thursday"; "Friday"].

Definition time_periods : list period :=
  [("09:00", "10:00"); ("10:00", "11:00"); ("11:00", "12:00"); ("12:00", "13:00");
   ("14:00", "15:00"); ("15:00", "16:00"); ("16:00", "17:00")].

Definition lunch : period := ("12:00", "13:00").

(** [for _ in range(max(1, credits)): subject_pool.append(subject.copy())] *)
Definition subject_pool (sorted_subjects : list subject) : list subject :=
  flat_map (fun s => repeat s (Z.to_nat (Z.max 1 (get (sj_credits s) 1%Z)))) sorted_subjects.

(** The test of the comprehension [suitable_teachers]; its first operand
    calls [.lower()] on the specialization, which raises on NULL. *)
Definition teacher_suitable (subject_code : string) (sj : subject) (t : teacher) : outcome bool :=
  match py_lower (get_nullable (t_specialization t) "") with
  | Raise e => Raise e
  | Ok spec =>
      Ok (contains (lower (String.substring 0 2 subject_code)) spec ||
          existsb (fun word => contains word spec) (str_split (lower (get (sj_name sj) ""))))
  end.

Definition type_is (c : classroom) (ty : string) : bool :=
  match cr_type c with Some t => String.eqb t ty | None => false end.

Definition assign_classroom_by_type (sj : subject) (classrooms : list classroom)
    : option classroom :=
  let subject_name := lower (get (sj_name sj) "") in
  let subject_code := get (sj_code sj) "" in
  let is_lab := get (sj_is_skill_based sj) false || contains "lab" subject_name in
  let subject_dept :=
    if Nat.leb 2 (String.length subject_code) then upper (String.substring 0 2 subject_code) else "" in
  let lab_room :=
    if is_lab then
      match find (fun c => String.eqb (get (cr_department c) "") subject_dept ||
                           (contains "LAB" (get (cr_type c) "") &&
                            contains subject_dept (get (cr_name c) ""))) classrooms with
      | Some c => Some c
      | None => find (fun c => contains "LAB" (get (cr_type c) "")) classrooms
      end
    else None in
  match lab_room with
  | Some c => Some c
  | None =>
  match (if contains "workshop" subject_name || contains "manufacturing" subject_name
         then find (fun c => type_is c "WORKSHOP") classrooms else None) with
  | Some c => Some c
  | None =>
  match (if contains "cad" subject_name || contains "design" subject_name
         then find (fun c => type_is c "CAD_LAB") classrooms else None) with
  | Some c => Some c
  | None =>
  match find (fun c => existsb (String.eqb (get (cr_type c) ""))
                         ["LECTURE"; "SEMINAR"; "TUTORIAL"]) classrooms with
  | Some c => Some c
  | None => hd_error classrooms
  end end end end.

Record draft_entry := mkDraft {
  d_time : string;
  d_subject_name : string;
  d_subject_code : string;
  d_nep_category : string;
  d_credits : Z;
  d_teacher : string;
  d_classroom : string;
  d_is_skill_based : bool;
  d_is_lab : bool
}.

(** One period of a day; [usage] is [daily_subject_usage[day]]. *)
Definition period_step (subject_pool : list subject) (teachers : list teacher)
    (classrooms : list classroom) (acc : list draft_entry * list (string * nat))
    (pr : period) : R (list draft_entry * list (string * nat)) :=
  let '(entries, usage) := acc in
  let '(start_time, end_time) := pr in
  match subject_pool with
  | [] => rret acc
  | _ =>
    let available0 :=
      filter (fun s => Nat.ltb (get (dict_get String.eqb (get (sj_code s) "") usage) 0) 2)
        subject_pool in
    let available := match available0 with [] => subject_pool | _ => available0 end in
    sj <@ choice available ;;
    let subject_code := get (sj_code sj) "" in
    let usage := dict_set String.eqb subject_code
                   (get (dict_get String.eqb subject_code usage) 0 + 1) usage in
    suitable0 <@ rlift (ofilter (teacher_suitable subject_code sj) teachers) ;;
    let suitable := match suitable0 with [] => teachers | _ => suitable0 end in
    assigned_teacher <@
      (match suitable with
       | [] => rret None
       | _ => t <@ choice suitable ;; rret (Some t)
       end) ;;
    assigned_classroom <@
      (match assign_classroom_by_type sj classrooms with
       | Some c => rret (Some c)
       | None => match classrooms with
                 | [] => rret None
                 | _ => c <@ choice classrooms ;; rret (Some c)
                 end
       end) ;;
    let entry := mkDraft
      (String.append start_time (String.append "-" end_time))
      (get (sj_name sj) "Unknown")
      (get (sj_code sj) "")
      (get (sj_nep_category sj) "MAJOR")
      (get (sj_credits sj) 0%Z)
      (match assigned_teacher with Some t => get (t_name t) "TBA" | None => "TBA" end)
      (match assigned_classroom with Some c => get (cr_name c) "TBA" | None => "TBA" end)
      (get (sj_is_skill_based sj) false)
      (contains "lab" (lower (get (sj_name sj) ""))) in
    rret (entries ++ [entry], usage)
  end.

(** One day; [daily_subject_usage[day]] starts empty and only this day's
    iteration touches it. *)
Definition day_step (subject_pool : list subject) (teachers : list teacher)
    (classrooms : list classroom) (schedule : list (string * list draft_entry))
    (day : string) : R (list (string * list draft_entry)) :=
  num_periods <@ randint 4 6 ;;
  selected0 <@ sample time_periods num_periods ;;
  let selected1 := sort_by period_leb selected0 in
  selected <@
    (if existsb (period_eqb lunch) selected1 then
       k <@ random_float ;;
       if Z.ltb k fl07 then
         match remove_period lunch selected1 with
         | Some l => rret l
         | None => rraise "ValueError: list.remove(x): x not in list"
         end
       else rret selected1
     else rret selected1) ;;
  res <@ rfoldM (period_step subject_pool teachers classrooms) selected ([], []) ;;
  rret (schedule ++ [(day, fst res)]).

(** [generate_nep_compliant_schedule]; [time_slots] is not read. *)
Definition generate_nep_compliant_schedule (subjects : list subject) (teachers : list teacher)
    (classrooms : list classroom) (time_slots : list time_slot)
    : R (list (string * list draft_entry)) :=
  keyed <@ rmapM (fun s => i <@ priority_of s ;; k <@ random_float ;; rret ((i, k), s))
             subjects ;;
  let sorted_subjects := map snd (sort_by key_leb keyed) in
  subject_pool <@ shuffle (subject_pool sorted_subjects) ;;
  rfoldM (day_step subject_pool teachers classrooms) days [].

(** [m] runs without raising, whatever the draws, and its value meets [P]. *)
Definition rsafe {A} (P : A -> Prop) (m : R A) : Prop :=
  forall g, exists a g', m g = (Ok a, g') /\ P a.

(** ** Teacher matching and NEP compliance (src/main.py) *)

(** A teacher row as [assign_teacher_by_expertise] reads it; [department]
    and [specialization] are nullable columns. *)
Record staff := mkStaff {
  st_name : option string;
  st_department : nullable string;
  st_specialization : nullable string
}.

(** [subject_dept] as [assign_teacher_by_expertise] computes it from the
    subject code. *)
Definition expertise_dept (subject_code : string) : string :=
  let subject_dept :=
    if Nat.leb 2 (String.length subject_code) then upper (String.substring 0 2 subject_code) else "" in
  if existsb (String.eqb subject_dept) ["EV"; "PS"; "EC"; "MG"; "EN"] then
    get (dict_get String.eqb subject_dept
           [("EV", "ENV"); ("PS", "PSY"); ("EC", "ECO"); ("MG", "MGT"); ("EN", "ENT")]) subject_dept
  else subject_dept.

(** The [if ... elif ...] chain of the specialization loop. *)
Definition expertise_match (subject_name specialization : string) : bool :=
  if (contains "computer" subject_name || contains "software" subject_name ||
      contains "programming" subject_name) && contains "computer" specialization then true
  else if (contains "electronics" subject_name || contains "circuit" subject_name ||
           contains "digital" subject_name) && contains "electronics" specialization then true
  else if (contains "mechanical" subject_name || contains "thermo" subject_name ||
           contains "fluid" subject_name) && contains "mechanical" specialization then true
  else if (contains "civil" subject_name || contains "structural" subject_name ||
           contains "concrete" subject_name) && contains "civil" specialization then true
  else if (contains "electrical" subject_name || contains "power" subject_name) &&
          contains "electrical" specialization then true
  else if (contains "chemical" subject_name || contains "process" subject_name) &&
          contains "chemical" specialization then true
  else if contains "environmental" subject_name && contains "environmental" specialization then true
  else if contains "management" subject_name && contains "management" specialization then true
  else if contains "economics" subject_name && contains "economics" specialization then true
  else false.

(** [teacher_dept == subject_dept] is [False] when the department is NULL;
    [teacher.get('specialization', '').lower()] raises on NULL. *)
Definition assign_teacher_by_expertise (sj : subject) (teachers : list staff)
    : outcome (option staff) :=
  let subject_name := lower (get (sj_name sj) "") in
  let subject_dept := expertise_dept (get (sj_code sj) "") in
  match find (fun t => match get_nullable (st_department t) "" with
                       | Some teacher_dept => String.eqb teacher_dept subject_dept
                       | None => false
                       end) teachers with
  | Some t => Ok (Some t)
  | None =>
  match ofind (fun t => match py_lower (get_nullable (st_specialization t) "") with
                        | Raise e => Raise e
                        | Ok specialization => Ok (expertise_match subject_name specialization)
                        end) teachers with
  | Raise e => Raise e
  | Ok (Some t) => Ok (Some t)
  | Ok None => Ok (hd_error teachers)
  end end.

(** The messages of [calculate_nep_compliance], as the UTF-8 bytes of the
    source's literals. *)
Definition msg_add_credits : string := "‚ö†Ô∏è Add more courses - minimum 18 credits required".
Definition msg_reduce_credits : string := "‚ö†Ô∏è Consider reducing course load - maximum 22 credits recommended".
Definition msg_credits_ok : string := "‚úÖ Credit load is optimal (18-22 credits)".
Definition msg_add_mdc : string := "üìö Add Multidisciplinary Courses (MDC)".
Definition msg_mdc_ok : string := "‚úÖ Multidisciplinary learning component present".
Definition msg_add_sec : string := "üõ†Ô∏è Include Skill Enhancement Courses (SEC)".
Definition msg_sec_ok : string := "‚úÖ Skill-based learning component present".

Record compliance := mkCompliance {
  cm_total_credits : Z;
  cm_is_compliant : bool;
  cm_has_multidisciplinary : bool;
  cm_has_skill_component : bool;
  cm_distribution : list (string * Z);
  cm_recommendations : list string
}.

(** One iteration of the loop over the subjects. *)
Definition compliance_step (acc : list (string * Z) * Z) (subject : subject)
    : list (string * Z) * Z :=
  let '(credit_distribution, total_credits) := acc in
  let category := get (sj_nep_category subject) "MAJOR" in
  let credits := get (sj_credits subject) 0%Z in
  (dict_set String.eqb category
     (get (dict_get String.eqb category credit_distribution) 0%Z + credits)%Z credit_distribution,
   (total_credits + credits)%Z).

Definition calculate_nep_compliance (subjects : list subject) : compliance :=
  let '(credit_distribution, total_credits) := fold_left compliance_step subjects ([], 0%Z) in
  let is_compliant := Z.leb 18 total_credits && Z.leb total_credits 22 in
  let has_multidisciplinary :=
    Z.ltb 0 (get (dict_get String.eqb "MDC" credit_distribution) 0%Z) in
  let has_skill_component := existsb (fun s => get (sj_is_skill_based s) false) subjects in
  mkCompliance total_credits is_compliant has_multidisciplinary has_skill_component
    credit_distribution
    [if Z.ltb total_credits 18 then msg_add_credits
     else if Z.ltb 22 total_credits then msg_reduce_credits
     else msg_credits_ok;
     if negb has_multidisciplinary then msg_add_mdc else msg_mdc_ok;
     if negb has_skill_component then msg_add_sec else msg_sec_ok].

(** ** The class [NEP2020TimetableGenerator] (src/nep_2020_generator.py) *)

(** Rows as its methods read them; a missing key is [None]. *)
Record nep_course := mkNepCourse {
  nc_name : option string;
  nc_code : option string;
  nc_credits : option Z;
  nc_nep_category : option string;
  nc_is_skill_based : option bool;
  nc_is_research_component : option bool
}.

(** A teacher row: [department] and [specialization] are nullable. *)
Record nep_teacher := mkNepTeacher {
  nt_department : nullable string;
  nt_specialization : nullable string
}.

Record nep_classroom := mkNepClassroom {
  nr_room_type : option string
}.

Record nep_slot := mkNepSlot {
  ns_day_of_week : nat;
  ns_start_time : string;
  ns_end_time : string
}.

Definition calculate_credit_distribution (subjects : list nep_course) : list (string * Z) :=
  fold_left (fun distribution subject =>
      let category := get (nc_nep_category subject) "MAJOR" in
      dict_set String.eqb category
        (get (dict_get String.eqb category distribution) 0%Z + get (nc_credits subject) 0%Z)%Z
        distribution)
    subjects [].

(** The dict built by [_check_nep_compliance]; the key
    [has_research_component] is present only from semester 7 on. *)
Record nep_check := mkNepCheck {
  ck_total_credits : Z;
  ck_recommended_credits_per_semester : Z;
  ck_is_compliant : bool;
  ck_has_multidisciplinary : bool;
  ck_has_skill_component : bool;
  ck_semester : Z;
  ck_has_research_component : option bool
}.

Definition check_nep_compliance (subjects : list nep_course) (semester : Z) : nep_check :=
  let total_credits := fold_left (fun t s => (t + get (nc_credits s) 0)%Z) subjects 0%Z in
  mkNepCheck total_credits 20
    (Z.leb 18 total_credits && Z.leb total_credits 22)
    (existsb (fun s => match nc_nep_category s with
                       | Some c => String.eqb c "MDC"
                       | None => false
                       end) subjects)
    (existsb (fun s => get (nc_is_skill_based s) false) subjects)
    semester
    (if Z.leb 7 semester
     then Some (existsb (fun s => get (nc_is_research_component s) false) subjects)
     else None).

Record curriculum := mkCurriculum {
  cu_semester : Z;
  cu_courses : list nep_course;
  cu_credit_distribution : list (string * Z);
  cu_nep_compliance : nep_check
}.

(** [get_nep_compliant_curriculum]; [rows] is [subjects.data], the rows the
    query returns for the program and semester. *)
Definition get_nep_compliant_curriculum (rows : list nep_course) (semester : Z) : curriculum :=
  mkCurriculum semester rows (calculate_credit_distribution rows)
    (check_nep_compliance rows semester).

Definition get_recommendations (compliance : nep_check) (credit_dist : list (string * Z))
    : list string :=
  (if Z.ltb (ck_total_credits compliance) 18
   then ["Add more courses to meet minimum 18 credits per semester"] else []) ++
  (if Z.ltb 22 (ck_total_credits compliance)
   then ["Consider reducing course load to stay within 22 credits"] else []) ++
  (if negb (ck_has_multidisciplinary compliance)
   then ["Add multidisciplinary courses (MDC) for holistic education"] else []) ++
  (if negb (ck_has_skill_component compliance)
   then ["Include skill enhancement courses (SEC) for employability"] else []) ++
  (if Z.ltb (get (dict_get String.eqb "MAJOR" credit_dist) 0%Z) 8
   then ["Increase major discipline courses for depth"] else []).

Record nep_report := mkNepReport {
  rp_overall_compliance : bool;
  rp_total_credits : Z;
  rp_target_range : string;
  rp_distribution : list (string * Z);
  rp_multidisciplinary_courses : bool;
  rp_skill_based_learning : bool;
  rp_research_component : bool;
  rp_recommendations : list string
}.

Definition generate_compliance_report (cu : curriculum) : nep_report :=
  let compliance := cu_nep_compliance cu in
  let credit_dist := cu_credit_distribution cu in
  mkNepReport (ck_is_compliant compliance) (ck_total_credits compliance) "18-22 per semester"
    credit_dist (ck_has_multidisciplinary compliance) (ck_has_skill_component compliance)
    (get (ck_has_research_component compliance) false)
    (get_recommendations compliance credit_dist).

(** The test of [_assign_teacher], its [or] evaluated left to right:
    [.lower()] raises on a NULL department, [in] on a NULL specialization. *)
Definition assign_teacher_test (course : nep_course) (teacher : nep_teacher) : outcome bool :=
  match py_lower (get_nullable (nt_department teacher) "") with
  | Raise e => Raise e
  | Ok dept =>
      if contains dept (lower (get (nc_name course) "")) then Ok true
      else py_in (String.substring 0 3 (get (nc_code course) ""))
             (get_nullable (nt_specialization teacher) "")
  end.

Definition assign_teacher (course : nep_course) (teachers : list nep_teacher)
    : outcome (option nep_teacher) :=
  match ofind (assign_teacher_test course) teachers with
  | Raise e => Raise e
  | Ok (Some t) => Ok (Some t)
  | Ok None => Ok (hd_error teachers)
  end.

Definition room_type_is (classroom : nep_classroom) (ty : string) : bool :=
  match nr_room_type classroom with Some t => String.eqb t ty | None => false end.

Definition assign_classroom (course : nep_course) (classrooms : list nep_classroom)
    : option nep_classroom :=
  let course_name := lower (get (nc_name course) "") in
  match (if contains "lab" course_name || contains "practical" course_name
         then find (fun c => room_type_is c "lab") classrooms else None) with
  | Some c => Some c
  | None =>
  match find (fun c => room_type_is c "lecture") classrooms with
  | Some c => Some c
  | None => hd_error classrooms
  end end.

Record nep_entry := mkNepEntry {
  ne_time_slot : string;
  ne_course : nep_course;
  ne_teacher : option nep_teacher;
  ne_classroom : option nep_classroom;
  ne_nep_category : string;
  ne_is_skill_based : bool
}.

Definition priority_order : list string :=
  ["MAJOR"; "AEC"; "SEC"; "MDC"; "MINOR"; "VAC"; "PROJECT"].

(** The keys of [sorted(courses, key=...)], computed in order: [list.index]
    raises [ValueError] for a category outside [priority_order]. *)
Fixpoint course_keys (courses : list nep_course) : outcome (list (nat * nep_course)) :=
  match courses with
  | [] => Ok []
  | x :: courses' =>
      match index_of (get (nc_nep_category x) "MAJOR") priority_order with
      | None => Raise "ValueError: is not in list"
      | Some i => match course_keys courses' with
                  | Ok l => Ok ((i, x) :: l)
                  | Raise e => Raise e
                  end
      end
  end.

(** [f"{slot['start_time']}-{slot['end_time']}"] *)
Definition entry_time (slot : nep_slot) : string :=
  String.append (ns_start_time slot) (String.append "-" (ns_end_time slot)).

(** [for i, slot in enumerate(daily_slots[:6])], from index [i]; the
    [None] branch of the lookup is not reached, as [i < len(sorted_courses)]. *)
Fixpoint balanced_entries (sorted_courses : list nep_course) (teachers : list nep_teacher)
    (classrooms : list nep_classroom) (i : nat) (slots : list nep_slot)
    : outcome (list nep_entry) :=
  match slots with
  | [] => Ok []
  | slot :: slots' =>
      match (if Nat.ltb i (List.length sorted_courses) then
               match nth_error sorted_courses (i mod List.length sorted_courses) with
               | Some course =>
                   match assign_teacher course teachers with
                   | Raise e => Raise e
                   | Ok assigned_teacher =>
                       Ok [mkNepEntry (entry_time slot)
                             course assigned_teacher (assign_classroom course classrooms)
                             (get (nc_nep_category course) "MAJOR")
                             (get (nc_is_skill_based course) false)]
                   end
               | None => Ok []
               end
             else Ok []) with
      | Raise e => Raise e
      | Ok es =>
          match balanced_entries sorted_courses teachers classrooms (S i) slots' with
          | Raise e => Raise e
          | Ok rest => Ok (es ++ rest)
          end
      end
  end.

Definition create_balanced_schedule (courses : list nep_course) (teachers : list nep_teacher)
    (classrooms : list nep_classroom) (time_slots : list nep_slot) (semester : Z)
    : outcome (list (string * list nep_entry)) :=
  match course_keys courses with
  | Raise e => Raise e
  | Ok keyed =>
      let sorted_courses := map snd (sort_by (fun a b => Nat.leb (fst a) (fst b)) keyed) in
      omapM (fun day =>
               match balanced_entries sorted_courses teachers classrooms 0
                       (firstn 6 (filter (fun slot => Nat.eqb (ns_day_of_week slot) day) time_slots)) with
               | Raise e => Raise e
               | Ok es => Ok (nth day days "", es)
               end)
            (seq 0 5)
  end.



(** ** Concrete instances *)

(** Two courses of one program, each needing one session a week
    ([15 // 15 = 1]), one faculty member linked to both, one room, two
    theory slots; a stale entry of the same key is already stored. *)
Definition db_A : store := mkStore
  [mkCourse 1 7 15 0 0; mkCourse 2 7 10 5 0]
  [mkFaculty 5 []]
  [mkRoom 9 40 "Classroom" true]
  [mkSlot 11 0 "09:00:00" "Theory"; mkSlot 12 0 "10:00:00" "Theory"]
  []
  [mkAssignment 1 5 "S1" "2025"; mkAssignment 2 5 "S1" "2025"]
  []
  [mkRow 99 5 9 11 "S1" "2025"]
  (fun _ => false) 0.

(** A Practical slot and a Lab; a Theory slot and a general room. *)
Definition db_B : store := mkStore
  [mkCourse 3 8 15 15 0]
  [mkFaculty 6 []]
  [mkRoom 20 35 "Lab" true; mkRoom 21 35 "Classroom" true; mkRoom 22 10 "Classroom" true]
  [mkSlot 31 1 "09:00:00" "Practical"; mkSlot 32 2 "09:00:00" "Theory"]
  []
  [mkAssignment 3 6 "S1" "2025"]
  []
  []
  (fun _ => false) 0.

(** A course with no hours next to a one-session course. *)
Definition db_C : store := mkStore
  [mkCourse 4 9 0 0 0; mkCourse 5 9 15 0 0]
  [mkFaculty 7 []]
  [mkRoom 23 60 "Classroom" true]
  [mkSlot 41 0 "09:00:00" "Theory"]
  []
  [mkAssignment 4 7 "S1" "2025"; mkAssignment 5 7 "S1" "2025"]
  []
  []
  (fun _ => false) 0.

(** Two one-session courses; only course 1 has a faculty link. *)
Definition db_D : store := mkStore
  [mkCourse 1 7 15 0 0; mkCourse 2 7 15 0 0]
  [mkFaculty 5 []]
  [mkRoom 9 40 "Classroom" true]
  [mkSlot 11 0 "09:00:00" "Theory"; mkSlot 12 0 "10:00:00" "Theory"]
  []
  [mkAssignment 1 5 "S1" "2025"]
  []
  []
  (fun _ => false) 0.

(** One course of 45 hours (3 sessions a week), three Theory slots on
    day 0 listed out of start-time order and one on day 1. *)
Definition db_E : store := mkStore
  [mkCourse 6 10 45 0 0]
  [mkFaculty 5 []]
  [mkRoom 9 40 "Classroom" true]
  [mkSlot 51 0 "11:00:00" "Theory"; mkSlot 52 0 "09:00:00" "Theory";
   mkSlot 53 0 "10:00:00" "Theory"; mkSlot 54 1 "09:00:00" "Theory"]
  []
  [mkAssignment 6 5 "S1" "2025"]
  []
  []
  (fun _ => false) 0.

(** A linked course of 30 hours whose only room is below the default
    head count of 30: prefiltering leaves no candidate at all. *)
Definition db_F : store := mkStore
  [mkCourse 8 11 30 0 0]
  [mkFaculty 5 []]
  [mkRoom 24 20 "Classroom" true]
  [mkSlot 61 0 "09:00:00" "Theory"]
  []
  [mkAssignment 8 5 "S1" "2025"]
  []
  [mkRow 98 5 24 61 "S1" "2025"]
  (fun _ => false) 0.

(** [db_A] where the database call numbered 11 fails: on [db_A] calls 0 to
    9 are the reads of [load_data] and [create_variables], call 10 is the
    delete of [save_to_database] and call 11 its first insert. *)
Definition db_G : store := mkStore
  (st_courses db_A) (st_faculty db_A) (st_rooms db_A) (st_time_slots db_A)
  (st_constraints db_A) (st_faculty_assignments db_A) (st_enrollments db_A)
  (st_timetable_entries db_A) (fun k => Nat.eqb k 11) (st_calls db_A).

(** A solver whose time budget always runs out before it decides the model. *)
Definition timeout_solver : cp_solver := fun _ _ => UNKNOWN.

(** A solver that proves every model infeasible. *)
Definition infeasible_solver : cp_solver := fun _ _ => INFEASIBLE.

(** Two subjects, two classrooms and a fixed stream of draws for the
    heuristic generator. *)
Definition sample_subjects : list subject :=
  [mkSubject (Some "Data Structures Lab") (Some "CS201") (Some "MAJOR") (Some 2%Z) (Some true);
   mkSubject (Some "Environmental Science") (Some "EVS101") (Some "VAC") None None].

Definition sample_classrooms : list classroom :=
  [mkClassroom (Some "R1") (Some "CS") (Some "LECTURE"); mkClassroom (Some "L1") None (Some "CS LAB")].

Definition sample_rng : rng := mkRng (fun k => k * 97 + 13) 0.

(** One one-session course whose faculty member is unavailable on day 0;
    one Theory slot on day 0 and one on day 1. *)
Definition db_H : store := mkStore
  [mkCourse 1 7 15 0 0]
  [mkFaculty 5 [(0, Some false); (1, Some true)]]
  [mkRoom 9 40 "Classroom" true]
  [mkSlot 11 0 "09:00:00" "Theory"; mkSlot 12 1 "09:00:00" "Theory"]
  []
  [mkAssignment 1 5 "S1" "2025"]
  []
  []
  (fun _ => false) 0.

(** [db_A] where the first database call fails. *)
Definition db_I : store := mkStore
  (st_courses db_A) (st_faculty db_A) (st_rooms db_A) (st_time_slots db_A)
  (st_constraints db_A) (st_faculty_assignments db_A) (st_enrollments db_A)
  (st_timetable_entries db_A) (fun k => Nat.eqb k 0) (st_calls db_A).

(** [create_nep_compliant_sample()['sample_courses']]. *)
Definition nep_sample_courses : list nep_course :=
  [mkNepCourse (Some "Data Structures and Algorithms") (Some "CS201") (Some 4%Z) (Some "MAJOR") (Some true) None;
   mkNepCourse (Some "Environmental Science") (Some "EVS101") (Some 2%Z) (Some "VAC") (Some false) None;
   mkNepCourse (Some "Communication Skills") (Some "ENG101") (Some 3%Z) (Some "AEC") (Some true) None;
   mkNepCourse (Some "Digital Marketing") (Some "MKT201") (Some 3%Z) (Some "SEC") (Some true) None;
   mkNepCourse (Some "Psychology of Learning") (Some "PSY101") (Some 3%Z) (Some "MDC") (Some false) None;
   mkNepCourse (Some "Research Methodology") (Some "RES401") (Some 4%Z) (Some "PROJECT") None (Some true)].

(** Two teachers, a lecture room and a lab, and three slots (two on day 0,
    one on day 1) for the sample courses. *)
Definition nep_sample_teachers : list nep_teacher :=
  [mkNepTeacher (Present "CS") (Present "Computer Science");
   mkNepTeacher (Present "MKT") (Present "Marketing")].

Definition nep_sample_classrooms : list nep_classroom :=
  [mkNepClassroom (Some "lecture"); mkNepClassroom (Some "lab")].

Definition nep_sample_slots : list nep_slot :=
  [mkNepSlot 0 "09:00" "10:00"; mkNepSlot 0 "10:00" "11:00"; mkNepSlot 1 "09:00" "10:00"].

(** One subject and one teacher for the heuristic generator, and a source
    whose draws are all 0. *)
Definition heuristic_sample_subjects : list subject :=
  [mkSubject (Some "Data Structures") (Some "CS201") (Some "MAJOR") (Some 4%Z) (Some false)].

Definition heuristic_sample_teachers : list teacher :=
  [mkTeacher (Some "Dr. A") (Present "Computer Science")].

Definition heuristic_sample_rng : rng := mkRng (fun _ => 0) 0.

(** ** Lemmas on dicts and grouping *)

Section Dicts.
Context {K V : Type} (eqk : K -> K -> bool).
Hypothesis eqk_spec : forall a b, eqk a b = true <-> a = b.

Lemma eqk_refl : forall a, eqk a a = true.
Proof. intro a. apply eqk_spec. reflexivity. Qed.

Lemma dict_get_set : forall {W} (d : list (K * W)) k k' v,
  dict_get eqk k (dict_set eqk k' v d) = if eqk k' k then Some v else dict_get eqk k d.
Proof.
  intros W d. induction d as [|[k0 v0] d IH]; intros k k' v; simpl.
  - destruct (eqk k' k); reflexivity.
  - destruct (eqk k0 k') eqn:E0; simpl.
    + apply eqk_spec in E0; subst k0.
      destruct (eqk k' k); reflexivity.
    + destruct (eqk k0 k) eqn:E1.
      * apply eqk_spec in E1; subst k0.
        destruct (eqk k' k) eqn:E2; [|reflexivity].
        apply eqk_spec in E2; subst k'. rewrite eqk_refl in E0. discriminate.
      * apply IH.
Qed.

Lemma dict_get_in : forall {W} (d : list (K * W)) k v,
  dict_get eqk k d = Some v -> In (k, v) d.
Proof.
  intros W d. induction d as [|[k0 v0] d IH]; intros k v H; simpl in *; [discriminate|].
  destruct (eqk k0 k) eqn:E.
  - apply eqk_spec in E; subst. inversion H; subst. left; reflexivity.
  - right. apply IH, H.
Qed.

Lemma in_dict_set : forall {W} (d : list (K * W)) k v k0 v0,
  In (k0, v0) (dict_set eqk k v d) -> In (k0, v0) d \/ v0 = v.
Proof.
  intros W d. induction d as [|[k1 v1] d IH]; intros k v k0 v0 H; simpl in *.
  - destruct H as [H|[]]. inversion H; subst. right; reflexivity.
  - destruct (eqk k1 k).
    + destruct H as [H|H]; [inversion H; subst; right; reflexivity | left; right; exact H].
    + destruct H as [H|H]; [left; left; exact H|].
      destruct (IH _ _ _ _ H); [left; right; assumption | right; assumption].
Qed.

Definition opt_app (o : option (list V)) (xs : list V) : option (list V) :=
  match o, xs with
  | None, [] => None
  | None, _ => Some xs
  | Some ys, _ => Some (ys ++ xs)
  end.

Lemma dict_get_append : forall d k k' (x : V),
  dict_get eqk k (dict_append eqk k' x d) =
    if eqk k' k then opt_app (dict_get eqk k d) [x] else dict_get eqk k d.
Proof.
  intros d k k' x. unfold dict_append.
  destruct (dict_get eqk k' d) eqn:E; simpl; rewrite dict_get_set;
    destruct (eqk k' k) eqn:Ek; try reflexivity;
    apply eqk_spec in Ek; subst; rewrite E; reflexivity.
Qed.

Lemma dict_get_group_fold : forall {A} (key : A -> K) (val : A -> V) l d k,
  dict_get eqk k (fold_left (fun d x => dict_append eqk (key x) (val x) d) l d) =
    opt_app (dict_get eqk k d) (map val (filter (fun x => eqk (key x) k) l)).
Proof.
  intros A key val l. induction l as [|x l IH]; intros d k; simpl.
  - destruct (dict_get eqk k d) as [ys|]; simpl; [rewrite app_nil_r|]; reflexivity.
  - rewrite IH, dict_get_append.
    destruct (eqk (key x) k); simpl; [|reflexivity].
    destruct (dict_get eqk k d) as [ys|]; simpl.
    + rewrite <- app_assoc. reflexivity.
    + destruct (map val (filter (fun x0 => eqk (key x0) k) l)); reflexivity.
Qed.

(** Every key of the grouping owns the values of exactly its elements. *)
Lemma group_by_in : forall {A} (key : A -> K) (val : A -> V) l k,
  (exists x, In x l /\ key x = k) ->
  In (k, map val (filter (fun x => eqk (key x) k) l)) (group_by eqk key val l).
Proof.
  intros A key val l k [x [Hx Hk]]. apply dict_get_in. unfold group_by.
  rewrite dict_get_group_fold. simpl.
  destruct (filter (fun x0 => eqk (key x0) k) l) eqn:E; [|reflexivity].
  assert (In x (filter (fun x0 => eqk (key x0) k) l)) as Hin.
  { apply filter_In. split; [exact Hx|]. apply eqk_spec. exact Hk. }
  rewrite E in Hin. destruct Hin.
Qed.
End Dicts.

Lemma nat_eqb_spec' : forall a b : nat, Nat.eqb a b = true <-> a = b.
Proof. intros. apply Nat.eqb_eq. Qed.

Lemma pair_eqb_spec : forall a b : nat * nat, pair_eqb a b = true <-> a = b.
Proof.
  intros [a1 a2] [b1 b2]. unfold pair_eqb. simpl.
  rewrite andb_true_iff, !Nat.eqb_eq. split; [intros [-> ->]; reflexivity|].
  intro H; inversion H; split; reflexivity.
Qed.

(** ** Lemmas on the constraint folds *)

Lemma fold_constraints : forall {G} (f : cp_model -> G -> cp_model) (cs : G -> list lin_constraint),
  (forall m g, m_constraints (f m g) = m_constraints m ++ cs g) ->
  forall gs m, m_constraints (fold_left f gs m) = m_constraints m ++ flat_map cs gs.
Proof.
  intros G f cs Hf gs. induction gs as [|g gs IH]; intro m; simpl.
  - rewrite app_nil_r. reflexivity.
  - rewrite IH, Hf, app_assoc. reflexivity.
Qed.

Ltac step_constraints :=
  intros; repeat match goal with p : _ * _ |- _ => destruct p end;
  repeat (match goal with |- context [if ?b then _ else _] => destruct b end);
  simpl; rewrite ?app_nil_r; reflexivity.

(** A step that only appends constraints adds the same list to every model. *)
Definition appends {G} (f : cp_model -> G -> cp_model) : Prop :=
  forall m g, m_constraints (f m g) = m_constraints m ++ m_constraints (f empty_model g).

Lemma fold_appends : forall {G} (f : cp_model -> G -> cp_model) gs m,
  appends f ->
  m_constraints (fold_left f gs m) = m_constraints m ++ m_constraints (fold_left f gs empty_model).
Proof.
  intros G f gs m Hf.
  rewrite (fold_constraints f (fun g => m_constraints (f empty_model g)) Hf gs m).
  rewrite (fold_constraints f (fun g => m_constraints (f empty_model g)) Hf gs empty_model).
  reflexivity.
Qed.

Lemma model_add_constraints : forall m c,
  m_constraints (model_add m c) = m_constraints m ++ [c].
Proof. reflexivity. Qed.

Ltac solve_appends :=
  unfold appends; intros;
  repeat match goal with p : _ * _ |- _ => destruct p end;
  repeat (match goal with |- context [match ?b with _ => _ end] => destruct b end);
  simpl; rewrite ?app_nil_r; reflexivity.

Lemma add_course_hours_appends : forall sched m,
  m_constraints (add_course_hours_constraint sched m) =
  m_constraints m ++ m_constraints (add_course_hours_constraint sched empty_model).
Proof. intros. apply fold_appends. solve_appends. Qed.

Lemma add_at_most_one_appends : forall gs m,
  m_constraints (add_at_most_one gs m) =
  m_constraints m ++ m_constraints (add_at_most_one gs empty_model).
Proof. intros. apply fold_appends. solve_appends. Qed.

Lemma add_availability_appends : forall p sched m,
  m_constraints (add_faculty_availability_constraint p sched m) =
  m_constraints m ++ m_constraints (add_faculty_availability_constraint p sched empty_model).
Proof.
  intros. apply fold_appends. unfold appends, availability_step. intros m0 x.
  destruct (find _ _) as [fd|]; [|simpl; rewrite app_nil_r; reflexivity].
  destruct (f_availability fd) as [|a avail]; [simpl; rewrite app_nil_r; reflexivity|].
  destruct (dict_get _ _ _) as [o|]; [|simpl; rewrite app_nil_r; reflexivity].
  destruct (negb _); simpl; rewrite ?app_nil_r; reflexivity.
Qed.

Lemma add_custom_constraints_id : forall p m, add_custom_constraints p m = m.
Proof.
  intros p m. unfold add_custom_constraints. generalize m.
  induction (p_constraints p) as [|k ks IH]; intro m0; simpl; [reflexivity|].
  destruct (k_is_hard_constraint k); apply IH.
Qed.

Lemma add_distribution_appends : forall sched m,
  m_constraints (add_distribution_constraint sched m) =
  m_constraints m ++ m_constraints (add_distribution_constraint sched empty_model).
Proof.
  intros. apply fold_appends. unfold appends. intros m0 [cid days].
  rewrite (fold_appends _ days m0) by solve_appends.
  rewrite (fold_appends _ days empty_model) by solve_appends. reflexivity.
Qed.

Lemma add_consecutive_appends : forall sched m,
  m_constraints (add_consecutive_hours_constraint sched m) =
  m_constraints m ++ m_constraints (add_consecutive_hours_constraint sched empty_model).
Proof.
  intros. apply fold_appends. unfold appends. intros m0 [key slots].
  rewrite (fold_appends _ _ m0) by solve_appends.
  rewrite (fold_appends _ _ empty_model) by solve_appends. reflexivity.
Qed.

(** The constraints of the full model, stage by stage. *)
Lemma add_constraints_constraints : forall p sched m,
  m_constraints (add_constraints p sched m) =
  m_constraints m
  ++ m_constraints (add_course_hours_constraint sched empty_model)
  ++ m_constraints (add_faculty_conflict_constraint sched empty_model)
  ++ m_constraints (add_room_conflict_constraint sched empty_model)
  ++ m_constraints (add_faculty_availability_constraint p sched empty_model)
  ++ m_constraints (add_distribution_constraint sched empty_model)
  ++ m_constraints (add_consecutive_hours_constraint sched empty_model).
Proof.
  intros p sched m. unfold add_constraints.
  rewrite add_consecutive_appends, add_distribution_appends, add_custom_constraints_id,
    add_availability_appends.
  unfold add_room_conflict_constraint, add_faculty_conflict_constraint.
  rewrite (add_at_most_one_appends (room_slots sched)),
    (add_at_most_one_appends (faculty_slots sched)), add_course_hours_appends.
  rewrite <- !app_assoc. reflexivity.
Qed.

(** Membership of a group's constraint in the stage that adds it. *)
Lemma in_fold_flat : forall {G} (f : cp_model -> G -> cp_model) gs g c,
  appends f -> In g gs -> In c (m_constraints (f empty_model g)) ->
  In c (m_constraints (fold_left f gs empty_model)).
Proof.
  intros G f gs g c Hf. revert g. induction gs as [|g0 gs IH]; intros g Hg Hc; [destruct Hg|].
  simpl. rewrite fold_appends by exact Hf. apply in_app_iff.
  destruct Hg as [<-|Hg]; [left; exact Hc | right; exact (IH g Hg Hc)].
Qed.

(** ** Monadic invariants *)

Lemma var_name_eqb_spec : forall a b : var_name, var_name_eqb a b = true <-> a = b.
Proof.
  intros [[[c1 s1] r1] f1] [[[c2 s2] r2] f2]. unfold var_name_eqb.
  rewrite !andb_true_iff, !Nat.eqb_eq. split.
  - intros [[[-> ->] ->] ->]. reflexivity.
  - intro H. inversion H. repeat split.
Qed.

(** Everything of the store but the call counter. *)
Definition tables (s : store) :=
  (st_courses s, st_faculty s, st_rooms s, st_time_slots s, st_constraints s,
   st_faculty_assignments s, st_enrollments s, st_timetable_entries s).

Lemma foldM_inv : forall {A B} (I : B -> store -> Prop) (f : B -> A -> M B) l,
  (forall x b s b' s', In x l -> I b s -> f b x s = (Ok b', s') -> I b' s') ->
  forall b s b' s', I b s -> foldM f l b s = (Ok b', s') -> I b' s'.
Proof.
  intros A B I f l Hf. induction l as [|x l IH]; intros b s b' s' Hb Hrun; simpl in Hrun.
  - inversion Hrun; subst; exact Hb.
  - unfold bind in Hrun. destruct (f b x s) as [[b1|e] s1] eqn:E; [|discriminate].
    eapply IH; [intros; eapply Hf; [right|..]; eassumption | | exact Hrun].
    eapply Hf; [left; reflexivity| exact Hb | exact E].
Qed.

Lemma select_spec : forall {A} (f : store -> A) s o s',
  select f s = (o, s') -> tables s' = tables s /\ (forall a, o = Ok a -> a = f (bump s)).
Proof.
  intros A f s o s' H. unfold select, execute in H.
  destruct (st_fail s (st_calls s)); inversion H; subst; split; try reflexivity;
    intros a Ha; inversion Ha; reflexivity.
Qed.

Lemma is_room_suitable_spec : forall c rm slot s ok s',
  is_room_suitable c rm slot s = (Ok ok, s') ->
  tables s' = tables s /\
  (ok = true -> student_count_of (enrollments_of (c_id c) s) <= r_capacity rm /\
                room_type_ok rm slot = true).
Proof.
  intros c rm slot s ok s' H. unfold is_room_suitable, bind in H.
  destruct (select (enrollments_of (c_id c)) s) as [[enr|e] s1] eqn:E; [|discriminate].
  apply select_spec in E as [Ht Ha]. specialize (Ha enr eq_refl).
  unfold ret in H. inversion H; subst. split; [exact Ht|].
  intro Hok. destruct (Nat.ltb (r_capacity rm) _) eqn:Hlt; [discriminate|].
  apply Nat.ltb_ge in Hlt. split; [|exact Hok].
  unfold enrollments_of in *. exact Hlt.
Qed.

(** What [create_variables] guarantees of every variable it creates. *)
Definition var_ok (p : problem) (s0 : store) (x : sched_data) : Prop :=
  In (sd_course x) (p_courses p) /\
  sd_course_id x = c_id (sd_course x) /\
  total_hours (sd_course x) <> 0 /\
  sd_slot_id x = s_id (sd_slot x) /\
  sd_room_id x = r_id (sd_room x) /\
  student_count_of (enrollments_of (c_id (sd_course x)) s0) <= r_capacity (sd_room x) /\
  room_type_ok (sd_room x) (sd_slot x) = true.

Definition sched_ok (p : problem) (s0 : store) (sched : schedule) : Prop :=
  forall k x, In (k, x) sched -> var_ok p s0 x.

Lemma add_var_ok : forall p s0 c slot rm fids acc,
  sched_ok p s0 (fst acc) ->
  (forall fid, var_ok p s0 (mkSched 0 (c_id c) (s_id slot) (r_id rm) fid c slot rm)) ->
  sched_ok p s0 (fst (fold_left (add_var c slot rm) fids acc)).
Proof.
  intros p s0 c slot rm fids. induction fids as [|fid fids IH]; intros [sch m] Hacc Hnew;
    [exact Hacc|]. cbn [fold_left].
  apply IH; [|exact Hnew]. unfold add_var. simpl. intros k x Hin.
  apply (in_dict_set var_name_eqb) in Hin.
  destruct Hin as [Hin| ->]; [exact (Hacc k x Hin)|].
  specialize (Hnew fid). unfold var_ok in *. simpl in *. exact Hnew.
Qed.

Lemma enrollments_of_tables : forall cid s s',
  tables s = tables s' -> enrollments_of cid s = enrollments_of cid s'.
Proof.
  intros cid s s' H. unfold tables in H. inversion H. unfold enrollments_of.
  congruence.
Qed.

Lemma room_step_ok : forall p s0 c slot rooms acc s acc' s',
  In c (p_courses p) -> total_hours c <> 0 ->
  tables s = tables s0 -> sched_ok p s0 (fst acc) ->
  foldM (room_step p c slot) rooms acc s = (Ok acc', s') ->
  tables s' = tables s0 /\ sched_ok p s0 (fst acc').
Proof.
  intros p s0 c slot rooms acc s acc' s' Hc Ht Hs Hacc Hrun.
  apply (foldM_inv (fun acc s => tables s = tables s0 /\ sched_ok p s0 (fst acc))
           (room_step p c slot) rooms) with (b := acc) (s := s); [|split; assumption|exact Hrun].
  clear acc s acc' s' Hs Hacc Hrun.
  intros rm acc s acc' s' _ [Hs Hacc] Hrun. unfold room_step, bind in Hrun.
  destruct (is_room_suitable c rm slot s) as [[ok|e] s1] eqn:E; [|discriminate].
  apply is_room_suitable_spec in E as [Hs1 Hok].
  destruct ok; simpl in Hrun; unfold ret in Hrun; inversion Hrun; subst acc' s';
    split; try congruence; [|exact Hacc].
  apply add_var_ok; [exact Hacc|]. intro fid.
  destruct (Hok eq_refl) as [Hcap Hty].
  unfold var_ok; simpl. repeat split; try assumption.
  rewrite (enrollments_of_tables _ s0 s) by congruence. exact Hcap.
Qed.

Lemma create_variables_ok : forall p s0 m0 s sched m s',
  tables s = tables s0 ->
  create_variables p m0 s = (Ok (sched, m), s') ->
  tables s' = tables s0 /\ sched_ok p s0 sched.
Proof.
  intros p s0 m0 s sched m s' Hs Hrun. unfold create_variables in Hrun.
  refine (foldM_inv (fun acc s => tables s = tables s0 /\ sched_ok p s0 (fst acc))
            (course_step p) (p_courses p) _ ([], m0) s (sched, m) s' _ Hrun);
    [|split; [exact Hs| intros k x []]].
  clear s sched m s' Hs Hrun.
  intros c acc s acc' s' Hc [Hs Hacc] Hrun. unfold course_step in Hrun.
  destruct (Nat.eqb (total_hours c) 0) eqn:Ht.
  - unfold ret in Hrun. inversion Hrun; subst. split; assumption.
  - apply Nat.eqb_neq in Ht.
    refine (foldM_inv (fun acc s => tables s = tables s0 /\ sched_ok p s0 (fst acc))
              _ (p_time_slots p) _ acc s acc' s' _ Hrun); [|split; assumption].
    clear acc s acc' s' Hs Hacc Hrun.
    intros slot acc s acc' s' _ [Hs Hacc] Hrun.
    exact (room_step_ok p s0 c slot (p_rooms p) acc s acc' s' Hc Ht Hs Hacc Hrun).
Qed.

Lemma load_courses_ok : forall pids s cs s',
  load_courses pids s = (Ok cs, s') ->
  tables s' = tables s /\ (forall c, In c cs -> In c (st_courses s)).
Proof.
  induction pids as [|pid pids IH]; intros s cs s' H; simpl in H.
  - inversion H; subst. split; [reflexivity| intros c []].
  - unfold bind in H.
    destruct (select _ s) as [[cs1|e] s1] eqn:E1; [|discriminate].
    apply select_spec in E1 as [Ht1 Ha1]. specialize (Ha1 cs1 eq_refl).
    destruct (load_courses pids s1) as [[cs2|e] s2] eqn:E2; [|discriminate].
    apply IH in E2 as [Ht2 Hin2]. unfold ret in H. inversion H; subst.
    split; [congruence|]. intros c Hc. apply in_app_iff in Hc as [Hc|Hc].
    + apply filter_In in Hc as [Hc _]. exact Hc.
    + apply Hin2 in Hc. unfold tables in Ht1. inversion Ht1. congruence.
Qed.

Ltac run_select H :=
  let E := fresh "E" in
  match type of H with
  | context [select ?f ?s] =>
      destruct (select f s) as [[?x|?e] ?s1] eqn:E; [|discriminate];
      apply select_spec in E as [? ?]
  end.

Lemma load_data_ok : forall sem yr pids s p s',
  load_data sem yr pids s = (Ok p, s') ->
  tables s' = tables s /\ (forall c, In c (p_courses p) -> In c (st_courses s)).
Proof.
  intros sem yr pids s p s' H. unfold load_data, try_except, bind in H.
  destruct (load_courses pids s) as [[cs|e] s1] eqn:E1;
    [|inversion H].
  apply load_courses_ok in E1 as [Ht1 Hin1].
  repeat (run_select H; cbn beta iota in H).
  unfold ret in H. inversion H; subst. split; [congruence|exact Hin1].
Qed.

Lemma save_total : forall sem yr sol s, exists b s', save_to_database sem yr sol s = (Ok b, s').
Proof.
  intros. unfold save_to_database, try_except.
  lazymatch goal with |- exists _ _, match ?t with _ => _ end = _ =>
    destruct t as [[b|e] s'] end; eexists; eexists; reflexivity.
Qed.

(** A returned solution comes from loaded data, the variables created on
    it and an assignment the solver reported for the model. *)
Lemma generate_solution_inv : forall solver sem yr pids respect s r s' sol,
  generate solver sem yr pids respect s = (Ok r, s') -> g_solution r = Some sol ->
  exists p s1 sched m s2 vals,
    load_data sem yr pids s = (Ok p, s1) /\
    (forall c, In c (p_courses p) -> In c (st_courses s)) /\
    create_variables p empty_model s1 = (Ok (sched, m), s2) /\
    sched_ok p s sched /\
    (solver time_limit (if respect then add_constraints p sched m else m) = OPTIMAL vals \/
     solver time_limit (if respect then add_constraints p sched m else m) = FEASIBLE vals) /\
    sol = extract_solution sem yr sched vals /\ sol <> [].
Proof.
  intros solver sem yr pids respect s r s' sol H Hsol.
  unfold generate, try_except, bind in H.
  destruct (load_data sem yr pids s) as [[p|e] s1] eqn:E1;
    [|inversion H; subst; discriminate].
  destruct (create_variables p empty_model s1) as [[[sched m]|e] s2] eqn:E2;
    [|inversion H; subst; discriminate].
  cbn [fst snd] in H.
  destruct (solve solver sem yr sched (if respect then add_constraints p sched m else m))
    as [[|x sol']|] eqn:Es;
    [inversion H; subst; discriminate| |inversion H; subst; discriminate].
  destruct (save_total sem yr (x :: sol') s2) as [b [s3 Hsave]].
  rewrite Hsave in H. unfold ret in H. inversion H; subst. simpl in Hsol.
  inversion Hsol; subst.
  apply load_data_ok in E1 as Hl. destruct Hl as [Ht1 Hin1].
  destruct (create_variables_ok p s empty_model s1 sched m s2 Ht1 E2) as [_ Hok].
  unfold solve in Es.
  exists p, s1, sched, m, s2.
  destruct (solver time_limit (if respect then add_constraints p sched m else m))
    as [vals|vals| | |] eqn:Ev; try discriminate;
    injection Es as Es; exists vals; rewrite Es;
    (refine (conj eq_refl (conj Hin1 (conj E2 (conj Hok (conj _ (conj eq_refl _))))));
     [first [left; reflexivity | right; reflexivity] | discriminate]).
Qed.

(** ** Counting entries of the extracted solution *)

Lemma count_extract : forall (Q : solution_entry -> bool) sem yr sched vals,
  List.length (filter Q (extract_solution sem yr sched vals)) =
  sum_vars vals (map sd_var (filter (fun x => Q (entry_of sem yr x)) (map snd sched))).
Proof.
  intros Q sem yr sched vals. unfold extract_solution.
  induction sched as [|[k x] sched IH]; simpl; [reflexivity|].
  destruct (vals (sd_var x)) eqn:Ev; simpl;
    destruct (Q (entry_of sem yr x)); simpl; rewrite ?Ev; simpl; rewrite ?IH; reflexivity.
Qed.

Lemma sum_vars_le_length : forall vals vs, sum_vars vals vs <= List.length vs.
Proof.
  intros vals vs. induction vs as [|v vs IH]; simpl; [lia|].
  destruct (vals v); lia.
Qed.

Lemma two_positions_count : forall {A} (Q : A -> bool) l i j a b,
  i <> j -> nth_error l i = Some a -> nth_error l j = Some b ->
  Q a = true -> Q b = true -> 2 <= List.length (filter Q l).
Proof.
  intros A Q l. induction l as [|y l IH]; intros i j a b Hij Hi Hj Ha Hb;
    [destruct i; discriminate|].
  destruct i as [|i], j as [|j]; simpl in *.
  - contradiction.
  - inversion Hi; subst. rewrite Ha. simpl.
    assert (In b (filter Q l)) as Hin.
    { apply filter_In. split; [eapply nth_error_In; exact Hj | exact Hb]. }
    destruct (filter Q l); [destruct Hin|simpl; lia].
  - inversion Hj; subst. rewrite Hb. simpl.
    assert (In a (filter Q l)) as Hin.
    { apply filter_In. split; [eapply nth_error_In; exact Hi | exact Ha]. }
    destruct (filter Q l); [destruct Hin|simpl; lia].
  - assert (i <> j) by lia. specialize (IH i j a b H Hi Hj Ha Hb).
    destruct (Q y); simpl; lia.
Qed.

(** ** Consequences of a satisfied model *)

Lemma satisfies_stage : forall vals p sched m c,
  satisfies vals (add_constraints p sched m) ->
  In c (m_constraints (add_course_hours_constraint sched empty_model)
        ++ m_constraints (add_faculty_conflict_constraint sched empty_model)
        ++ m_constraints (add_room_conflict_constraint sched empty_model)
        ++ m_constraints (add_faculty_availability_constraint p sched empty_model)
        ++ m_constraints (add_distribution_constraint sched empty_model)
        ++ m_constraints (add_consecutive_hours_constraint sched empty_model)) ->
  holds vals c = true.
Proof.
  intros vals p sched m c Hsat Hin. apply Hsat.
  rewrite add_constraints_constraints. apply in_app_iff. right. exact Hin.
Qed.

Lemma at_most_one_bound : forall vals gs k vs,
  In (k, vs) gs ->
  (forall c, In c (m_constraints (add_at_most_one gs empty_model)) -> holds vals c = true) ->
  sum_vars vals vs <= 1.
Proof.
  intros vals gs k vs Hin Hh.
  destruct (Nat.ltb 1 (List.length vs)) eqn:Hl.
  - assert (holds vals (LinLe vs 1) = true) as H.
    { apply Hh. unfold add_at_most_one.
      apply (in_fold_flat _ gs (k, vs)); [solve_appends | exact Hin |].
      simpl. rewrite Hl. simpl. left; reflexivity. }
    simpl in H. apply Nat.leb_le in H. exact H.
  - apply Nat.ltb_ge in Hl. pose proof (sum_vars_le_length vals vs). lia.
Qed.

(** The number of true variables of a group of the pair-keyed grouping. *)
Lemma pair_group_bound : forall vals (key : sched_data -> nat * nat) items k gs,
  gs = group_by pair_eqb key sd_var items ->
  (forall c, In c (m_constraints (add_at_most_one gs empty_model)) -> holds vals c = true) ->
  sum_vars vals (map sd_var (filter (fun x => pair_eqb (key x) k) items)) <= 1.
Proof.
  intros vals key items k gs Hgs Hh.
  destruct (filter (fun x => pair_eqb (key x) k) items) as [|x xs] eqn:Ef; [simpl; lia|].
  rewrite <- Ef. apply (at_most_one_bound vals gs k); [|exact Hh].
  subst gs. apply (group_by_in pair_eqb pair_eqb_spec).
  exists x. assert (In x (filter (fun x => pair_eqb (key x) k) items)) as Hx
    by (rewrite Ef; left; reflexivity).
  apply filter_In in Hx as [Hx Hk]. split; [exact Hx|]. apply pair_eqb_spec, Hk.
Qed.

Lemma brute_solver_sound : solver_sound brute_solver.
Proof.
  intros t m vals Hv. unfold brute_solver in Hv.
  destruct (find _ _) as [l|] eqn:E;
    [|destruct Hv as [Hv|Hv]; discriminate].
  apply find_some in E as [_ Hl].
  assert (vals = vals_of l) as ->
    by (destruct Hv as [Hv|Hv]; inversion Hv; reflexivity).
  intros c Hc. rewrite forallb_forall in Hl. apply Hl, Hc.
Qed.

Lemma in_extract : forall sem yr sched vals e,
  In e (extract_solution sem yr sched vals) ->
  exists k x, In (k, x) sched /\ e = entry_of sem yr x.
Proof.
  intros sem yr sched vals e H. unfold extract_solution in H.
  apply in_map_iff in H as [[k x] [He Hin]]. apply filter_In in Hin as [Hin _].
  exists k, x. split; [exact Hin | symmetry; exact He].
Qed.

Lemma room_type_ok_spec : forall rm slot,
  room_type_ok rm slot = true ->
  (s_slot_type slot = "Practical" -> r_room_type rm = "Lab") /\
  (s_slot_type slot = "Theory" -> r_room_type rm <> "Lab").
Proof.
  intros rm slot H. unfold room_type_ok in H. split; intro Hs; rewrite Hs in H.
  - destruct (String.eqb_spec (r_room_type rm) "Lab") as [E|E]; [exact E|].
    simpl in H. discriminate.
  - intro E. rewrite E in H. simpl in H. discriminate.
Qed.

(** Every entry of a returned solution is a variable [create_variables]
    made, on data loaded from the store. *)
Lemma generate_entries_ok : forall solver sem yr pids respect s r s' sol,
  generate solver sem yr pids respect s = (Ok r, s') -> g_solution r = Some sol ->
  forall e, In e sol ->
    In (en_course e) (st_courses s) /\
    en_course_id e = c_id (en_course e) /\
    total_hours (en_course e) <> 0 /\
    en_time_slot_id e = s_id (en_slot e) /\
    en_room_id e = r_id (en_room e) /\
    student_count_of (enrollments_of (c_id (en_course e)) s) <= r_capacity (en_room e) /\
    room_type_ok (en_room e) (en_slot e) = true.
Proof.
  intros solver sem yr pids respect s r s' sol Hgen Hsol e He.
  destruct (generate_solution_inv _ _ _ _ _ _ _ _ _ Hgen Hsol)
    as (p & s1 & sched & m & s2 & vals & _ & Hcs & _ & Hok & _ & Hsol' & _).
  subst sol. apply in_extract in He as (k & x & Hin & ->).
  destruct (Hok k x Hin) as (Hc & Hid & Ht & Hsl & Hr & Hcap & Hty).
  unfold entry_of; simpl. repeat split; auto.
Qed.

Lemma course_hours_fold : forall cid c l d,
  (forall x, In x l -> sd_course_id x = cid -> sd_course x = c) ->
  dict_get Nat.eqb cid (fold_left course_hours_step l d) =
  match filter (fun x => Nat.eqb (sd_course_id x) cid) l with
  | [] => dict_get Nat.eqb cid d
  | xs => Some ((match dict_get Nat.eqb cid d with Some (vs, _) => vs | None => [] end)
                 ++ map sd_var xs, total_hours c / 15)
  end.
Proof.
  intros cid c l. induction l as [|x l IH]; intros d Hl; simpl; [reflexivity|].
  rewrite IH by (intros; apply Hl; [right|]; assumption).
  unfold course_hours_step. rewrite (dict_get_set Nat.eqb nat_eqb_spec').
  destruct (Nat.eqb (sd_course_id x) cid) eqn:Ex.
  - apply Nat.eqb_eq in Ex. rewrite (Hl x (or_introl eq_refl) Ex).
    destruct (filter (fun x0 => Nat.eqb (sd_course_id x0) cid) l) as [|y ys]; simpl.
    + rewrite Ex. destruct (dict_get Nat.eqb cid d) as [[vs r]|]; reflexivity.
    + rewrite Ex, <- app_assoc. reflexivity.
  - destruct (filter (fun x0 => Nat.eqb (sd_course_id x0) cid) l); reflexivity.
Qed.

Lemma filter_filter : forall {A} (p q : A -> bool) l,
  filter p (filter q l) = filter (fun x => q x && p x) l.
Proof.
  intros A p q l. induction l as [|x l IH]; simpl; [reflexivity|].
  destruct (q x); simpl; [destruct (p x); simpl|]; rewrite IH; reflexivity.
Qed.

(** Per (course, day), at most two variables of a satisfied model are true. *)
Lemma distribution_bound : forall vals p sched m cid d,
  satisfies vals (add_constraints p sched m) ->
  sum_vars vals (map sd_var (filter (fun x => Nat.eqb (sd_course_id x) cid &&
                                              Nat.eqb (s_day_of_week (sd_slot x)) d)
                               (map snd sched))) <= 2.
Proof.
  intros vals p sched m cid d Hsat.
  set (items := map snd sched).
  set (Q := fun x => Nat.eqb (sd_course_id x) cid && Nat.eqb (s_day_of_week (sd_slot x)) d).
  destruct (filter Q items) as [|x0 xs] eqn:Ef; [simpl; lia|]. rewrite <- Ef.
  assert (In x0 (filter Q items)) as Hx0 by (rewrite Ef; left; reflexivity).
  apply filter_In in Hx0 as [Hx0 HQ]. unfold Q in HQ.
  apply andb_true_iff in HQ as [Hc Hd]. apply Nat.eqb_eq in Hc, Hd.
  set (xs_c := map (fun x => x) (filter (fun x => Nat.eqb (sd_course_id x) cid) items)).
  assert (In (cid, xs_c) (group_by Nat.eqb sd_course_id (fun x => x) items)) as Hg1.
  { apply (group_by_in Nat.eqb nat_eqb_spec'). exists x0. split; assumption. }
  assert (In (cid, group_by Nat.eqb (fun x => s_day_of_week (sd_slot x)) sd_var xs_c)
             (course_days sched)) as Hg2.
  { unfold course_days. apply in_map_iff. exists (cid, xs_c). split; [reflexivity|exact Hg1]. }
  set (vs := map sd_var (filter (fun x => Nat.eqb (s_day_of_week (sd_slot x)) d) xs_c)).
  assert (In (d, vs) (group_by Nat.eqb (fun x => s_day_of_week (sd_slot x)) sd_var xs_c)) as Hg3.
  { apply (group_by_in Nat.eqb nat_eqb_spec'). exists x0. split; [|exact Hd].
    unfold xs_c. rewrite map_id. apply filter_In. split; [exact Hx0|apply Nat.eqb_eq, Hc]. }
  assert (vs = map sd_var (filter Q items)) as Hvs.
  { unfold vs, xs_c. rewrite map_id, filter_filter. reflexivity. }
  rewrite <- Hvs.
  destruct (Nat.ltb 2 (List.length vs)) eqn:Hl.
  - assert (holds vals (LinLe vs 2) = true) as H.
    { apply (satisfies_stage vals p sched m _ Hsat).
      do 4 (apply in_app_iff; right). apply in_app_iff; left.
      unfold add_distribution_constraint.
      eapply in_fold_flat; [unfold appends; intros m0 [k days];
        rewrite (fold_appends _ days m0) by solve_appends;
        rewrite (fold_appends _ days empty_model) by solve_appends; reflexivity
        | exact Hg2 |].
      cbn beta iota. eapply in_fold_flat; [solve_appends | exact Hg3 |].
      cbn beta iota. rewrite Hl. left; reflexivity. }
    simpl in H. apply Nat.leb_le in H. exact H.
  - apply Nat.ltb_ge in Hl. pose proof (sum_vars_le_length vals vs). lia.
Qed.

Lemma three_positions_count : forall {A} (Q : A -> bool) l i j k a b c,
  i <> j -> i <> k -> j <> k ->
  nth_error l i = Some a -> nth_error l j = Some b -> nth_error l k = Some c ->
  Q a = true -> Q b = true -> Q c = true -> 3 <= List.length (filter Q l).
Proof.
  intros A Q l. induction l as [|y l IH]; intros i j k a b c Hij Hik Hjk Hi Hj Hk Ha Hb Hc;
    [destruct i; discriminate|].
  destruct i as [|i]; [|destruct j as [|j]; [|destruct k as [|k]]]; simpl in *.
  - inversion Hi; subst. rewrite Ha. simpl.
    destruct j as [|j]; [contradiction|]. destruct k as [|k]; [contradiction|].
    pose proof (two_positions_count Q l j k b c ltac:(lia) Hj Hk Hb Hc). lia.
  - inversion Hj; subst. rewrite Hb. simpl.
    destruct k as [|k]; [contradiction|].
    pose proof (two_positions_count Q l i k a c ltac:(lia) Hi Hk Ha Hc). lia.
  - inversion Hk; subst. rewrite Hc. simpl.
    pose proof (two_positions_count Q l i j a b ltac:(lia) Hi Hj Ha Hb). lia.
  - pose proof (IH i j k a b c ltac:(lia) ltac:(lia) ltac:(lia) Hi Hj Hk Ha Hb Hc).
    destruct (Q y); simpl; lia.
Qed.

(** ** The result of [generate] once the variables exist *)

Lemma generate_after_create : forall solver sem yr pids respect s p s1 sched m s2,
  load_data sem yr pids s = (Ok p, s1) ->
  create_variables p empty_model s1 = (Ok (sched, m), s2) ->
  generate solver sem yr pids respect s =
    match solve solver sem yr sched (if respect then add_constraints p sched m else m) with
    | Some ((_ :: _) as sol) =>
        (Ok (mkResult true (Some sol) "Timetable generated successfully"),
         snd (save_to_database sem yr sol s2))
    | _ => (Ok no_solution_result, s2)
    end.
Proof.
  intros solver sem yr pids respect s p s1 sched m s2 El Ec.
  unfold generate, try_except, bind. rewrite El, Ec. cbn [fst snd].
  destruct (solve solver sem yr sched (if respect then add_constraints p sched m else m))
    as [[|x l]|]; try reflexivity.
  destruct (save_total sem yr (x :: l) s2) as [b [s3 Hs]]. rewrite Hs. reflexivity.
Qed.

Lemma tables_entries : forall s s', tables s' = tables s ->
  st_timetable_entries s' = st_timetable_entries s.
Proof. intros s s' H. unfold tables in H. inversion H. reflexivity. Qed.

(** Loading and variable creation only read the database. *)
Lemma load_create_entries : forall sem yr pids s p s1 sched m s2,
  load_data sem yr pids s = (Ok p, s1) ->
  create_variables p empty_model s1 = (Ok (sched, m), s2) ->
  st_timetable_entries s2 = st_timetable_entries s.
Proof.
  intros sem yr pids s p s1 sched m s2 El Ec.
  destruct (load_data_ok _ _ _ _ _ _ El) as [T1 _].
  destruct (create_variables_ok p s empty_model s1 sched m s2 T1 Ec) as [T2 _].
  apply tables_entries, T2.
Qed.

(** ** Publishing on a database whose calls all succeed *)

Lemma execute_ok : forall {A} (q : store -> A * store) s,
  st_fail s (st_calls s) = false -> execute q s = (Ok (fst (q (bump s))), snd (q (bump s))).
Proof.
  intros A q s H. unfold execute. rewrite H. destruct (q (bump s)). reflexivity.
Qed.

Lemma mapM_insert : forall sol s,
  (forall k, st_fail s k = false) ->
  exists s',
    mapM_ (fun e => execute (fun s => (tt, set_entries s (st_timetable_entries s ++ [row_of e]))))
      sol s = (Ok tt, s') /\
    st_fail s' = st_fail s /\
    st_timetable_entries s' = st_timetable_entries s ++ map row_of sol.
Proof.
  induction sol as [|e sol IH]; intros s Hf; simpl.
  - exists s. rewrite app_nil_r. split; [reflexivity | split; reflexivity].
  - unfold bind at 1. rewrite execute_ok by apply Hf. cbn [fst snd].
    destruct (IH (set_entries (bump s) (st_timetable_entries (bump s) ++ [row_of e])))
      as [s' [E [F R]]]; [intro k; apply Hf|].
    rewrite E. exists s'. split; [reflexivity|]. split; [exact F|].
    rewrite R. simpl. rewrite <- app_assoc. reflexivity.
Qed.

Lemma save_no_fault : forall sem yr sol s,
  (forall k, st_fail s k = false) ->
  exists s',
    save_to_database sem yr sol s = (Ok true, s') /\
    st_fail s' = st_fail s /\
    st_timetable_entries s' =
      filter (fun r => negb (row_has_key sem yr r)) (st_timetable_entries s) ++ map row_of sol.
Proof.
  intros sem yr sol s Hf. unfold save_to_database, try_except, bind.
  rewrite execute_ok by apply Hf. cbn [fst snd].
  destruct (mapM_insert sol (set_entries (bump s)
              (filter (fun r => negb (row_has_key sem yr r)) (st_timetable_entries (bump s)))))
    as [s' [E [F R]]]; [intro k; apply Hf|].
  rewrite E. exists s'. split; [reflexivity|]. split; [exact F|]. exact R.
Qed.

Lemma filter_negb_nil : forall {A} (q : A -> bool) l,
  filter q (filter (fun x => negb (q x)) l) = [].
Proof.
  intros A q l. induction l as [|x l IH]; simpl; [reflexivity|].
  destruct (q x) eqn:E; simpl; [exact IH | rewrite E; exact IH].
Qed.

Lemma filter_all : forall {A} (q : A -> bool) l,
  (forall x, In x l -> q x = true) -> filter q l = l.
Proof.
  intros A q l. induction l as [|x l IH]; intro H; simpl; [reflexivity|].
  rewrite (H x (or_introl eq_refl)), IH; [reflexivity|].
  intros y Hy. apply H. right. exact Hy.
Qed.

Lemma extract_rows_keyed : forall sem yr sched vals r,
  In r (map row_of (extract_solution sem yr sched vals)) -> row_has_key sem yr r = true.
Proof.
  intros sem yr sched vals r H. apply in_map_iff in H as [e [<- He]].
  apply in_extract in He as [k [x [_ ->]]].
  unfold row_has_key. simpl. rewrite !String.eqb_refl. reflexivity.
Qed.

(** ** Publishing when a database call fails *)

Lemma execute_fail : forall {A} (q : store -> A * store) s,
  st_fail s (st_calls s) = true -> execute q s = (Raise db_error, bump s).
Proof. intros A q s H. unfold execute. rewrite H. reflexivity. Qed.

(** The insert loop stops with an exception at the first failing call. *)
Lemma mapM_insert_fail : forall sol s i,
  i < List.length sol -> st_fail s (st_calls s + i) = true ->
  exists e s',
    mapM_ (fun e => execute (fun s => (tt, set_entries s (st_timetable_entries s ++ [row_of e]))))
      sol s = (Raise e, s').
Proof.
  induction sol as [|x sol IH]; intros s i Hi Hf; simpl in Hi; [lia|].
  simpl. unfold bind at 1.
  destruct (st_fail s (st_calls s)) eqn:E0.
  - rewrite execute_fail by exact E0. eexists; eexists; reflexivity.
  - rewrite execute_ok by exact E0. cbn [fst snd].
    destruct i as [|i]; [rewrite Nat.add_0_r in Hf; congruence|].
    apply (IH _ i); [lia|]. simpl. rewrite Nat.add_succ_r in Hf. exact Hf.
Qed.

(** A failure of the delete (offset 0) or of any insert (offsets 1 to the
    number of entries) is caught and turned into [False]. *)
Lemma save_fail : forall sem yr sol s i,
  i <= List.length sol -> st_fail s (st_calls s + i) = true ->
  fst (save_to_database sem yr sol s) = Ok false.
Proof.
  intros sem yr sol s i Hi Hf. unfold save_to_database, try_except, bind.
  destruct (st_fail s (st_calls s)) eqn:E0.
  - rewrite execute_fail by exact E0. reflexivity.
  - rewrite execute_ok by exact E0. cbn [fst snd].
    destruct i as [|i]; [rewrite Nat.add_0_r in Hf; congruence|].
    destruct (mapM_insert_fail sol (set_entries (bump s)
                (filter (fun r => negb (row_has_key sem yr r)) (st_timetable_entries (bump s)))) i)
      as [e [s' E]]; [lia | simpl; rewrite Nat.add_succ_r in Hf; exact Hf |].
    rewrite E. reflexivity.
Qed.

(** ** The heuristic generator never raises *)

Lemma rsafe_ret : forall {A} (P : A -> Prop) a, P a -> rsafe P (rret a).
Proof. intros A P a H g. exists a, g. split; [reflexivity | exact H]. Qed.

Lemma rsafe_bind : forall {A B} (P : A -> Prop) (Q : B -> Prop) m k,
  rsafe P m -> (forall a, P a -> rsafe Q (k a)) -> rsafe Q (rbind m k).
Proof.
  intros A B P Q m k Hm Hk g. destruct (Hm g) as [a [g' [E Pa]]].
  unfold rbind. rewrite E. exact (Hk a Pa g').
Qed.

Lemma rsafe_weaken : forall {A} (P Q : A -> Prop) m,
  rsafe P m -> (forall a, P a -> Q a) -> rsafe Q m.
Proof.
  intros A P Q m Hm H g. destruct (Hm g) as [a [g' [E Pa]]].
  exists a, g'. split; [exact E | exact (H a Pa)].
Qed.

Lemma rsafe_lift : forall {A} (P : A -> Prop) a, P a -> rsafe P (rlift (Ok a)).
Proof. intros A P a H g. exists a, g. split; [reflexivity | exact H]. Qed.

Lemma ofilter_ok : forall {A} (p : A -> outcome bool) l,
  (forall x, In x l -> exists b, p x = Ok b) ->
  exists r, ofilter p l = Ok r /\ forall y, In y r -> In y l.
Proof.
  intros A p l. induction l as [|x l IH]; intro H; simpl; [exists []; split; [reflexivity | intros y []]|].
  destruct (H x (or_introl eq_refl)) as [b Hb]. rewrite Hb.
  destruct IH as [r [Er Hr]]; [intros y Hy; apply H; right; exact Hy|]. rewrite Er.
  exists (if b then x :: r else r). split; [reflexivity|].
  intros y Hy. destruct b; [destruct Hy as [<-|Hy]; [left; reflexivity|]|]; right; apply Hr, Hy.
Qed.

Lemma ofilter_raise : forall {A} (p : A -> outcome bool) l e0,
  (forall x e, In x l -> p x = Raise e -> e = e0) ->
  (exists x e, In x l /\ p x = Raise e) -> ofilter p l = Raise e0.
Proof.
  intros A p l e0 Hmsg. induction l as [|x l IH]; intros (y & e & Hy & He); [destruct Hy|]. simpl.
  destruct (p x) as [b|e'] eqn:Ex.
  - destruct Hy as [->|Hy]; [congruence|].
    rewrite IH; [reflexivity | intros z e'' Hz; apply Hmsg; right; exact Hz | exists y, e; split; assumption].
  - rewrite (Hmsg x e' (or_introl eq_refl) Ex). reflexivity.
Qed.

Lemma teacher_suitable_ok : forall code sj t,
  t_specialization t <> Null -> exists b, teacher_suitable code sj t = Ok b.
Proof.
  intros code sj [name [| |spec]] H; simpl in H; [| congruence |]; unfold teacher_suitable; simpl;
    eexists; reflexivity.
Qed.

Lemma randbelow_lt : forall n, 0 < n -> rsafe (fun j => j < n) (randbelow n).
Proof.
  intros n Hn g. unfold randbelow, rbind, next_draw, rret.
  eexists; eexists; split; [reflexivity|]. apply Nat.mod_upper_bound. lia.
Qed.

Lemma random_float_safe : rsafe (fun _ => True) random_float.
Proof. intro g. unfold random_float, rbind, next_draw, rret. eexists; eexists; split; reflexivity. Qed.

Lemma choice_in : forall {A} (l : list A), l <> [] -> rsafe (fun x => In x l) (choice l).
Proof.
  intros A [|y l] Hne; [congruence|]. unfold choice. cbn beta iota.
  apply (rsafe_bind (fun i => i < List.length (y :: l))); [apply randbelow_lt; simpl; lia|].
  intros i Hi. destruct (nth_error (y :: l) i) as [x|] eqn:E.
  - apply rsafe_ret. exact (nth_error_In _ _ E).
  - apply nth_error_None in E. lia.
Qed.

Lemma choice_fallback : forall {A} (l fallback : list A),
  fallback <> [] -> rsafe (fun _ => True) (choice (match l with [] => fallback | _ :: _ => l end)).
Proof.
  intros A l fallback Hf. eapply rsafe_weaken; [apply choice_in | trivial].
  destruct l; [exact Hf | discriminate].
Qed.

Lemma list_set_length : forall {A} (l : list A) i v, List.length (list_set l i v) = List.length l.
Proof.
  intros A l. induction l as [|x l IH]; intros [|i] v; simpl; try reflexivity. rewrite IH. reflexivity.
Qed.

Lemma swap_len : forall {A} (l : list A) i j,
  i < List.length l -> j < List.length l -> rsafe (fun l' => List.length l' = List.length l) (swap l i j).
Proof.
  intros A l i j Hi Hj. unfold swap.
  destruct (nth_error l i) as [a|] eqn:Ei; [|apply nth_error_None in Ei; lia].
  destruct (nth_error l j) as [b|] eqn:Ej; [|apply nth_error_None in Ej; lia].
  apply rsafe_ret. rewrite !list_set_length. reflexivity.
Qed.

Lemma rfoldM_inv : forall {A B} (I : B -> Prop) (f : B -> A -> R B) l b,
  (forall b x, In x l -> I b -> rsafe I (f b x)) -> I b -> rsafe I (rfoldM f l b).
Proof.
  intros A B I f l. induction l as [|x l IH]; intros b Hf Hb; simpl; [apply rsafe_ret; exact Hb|].
  apply (rsafe_bind I); [apply Hf; [left; reflexivity | exact Hb]|].
  intros b' Hb'. apply IH; [|exact Hb']. intros b0 y Hy. apply Hf. right. exact Hy.
Qed.

Lemma rmapM_safe : forall {A B} (f : A -> R B) l,
  (forall x, In x l -> rsafe (fun _ => True) (f x)) -> rsafe (fun _ => True) (rmapM f l).
Proof.
  intros A B f l. induction l as [|x l IH]; intro Hf; simpl; [apply rsafe_ret; trivial|].
  apply (rsafe_bind (fun _ => True)); [apply Hf; left; reflexivity|]. intros y _.
  apply (rsafe_bind (fun _ => True)); [apply IH; intros z Hz; apply Hf; right; exact Hz|].
  intros ys _. apply rsafe_ret. trivial.
Qed.

Lemma shuffle_safe : forall {A} (x : list A), rsafe (fun _ => True) (shuffle x).
Proof.
  intros A x. unfold shuffle.
  apply (rsafe_weaken (fun x' => List.length x' = List.length x)); [|trivial].
  apply rfoldM_inv; [|reflexivity].
  intros b i Hi Hb. apply in_rev, in_seq in Hi.
  apply (rsafe_bind (fun j => j < i + 1)); [apply randbelow_lt; lia|].
  intros j Hj. eapply rsafe_weaken; [apply swap_len; lia|]. intros a Ha. congruence.
Qed.

Lemma sample_safe : forall {A} (population : list A) k,
  k <= List.length population -> rsafe (fun _ => True) (sample population k).
Proof.
  intros A population k Hk. unfold sample.
  destruct (Nat.ltb (List.length population) k) eqn:E; [apply Nat.ltb_lt in E; lia|].
  apply (rsafe_bind (fun rp => List.length (snd rp) = List.length population));
    [|intros; apply rsafe_ret; trivial].
  apply rfoldM_inv; [|reflexivity].
  intros rp i Hi Hrp. apply in_seq in Hi.
  apply (rsafe_bind (fun j => j < List.length population - i)); [apply randbelow_lt; lia|].
  intros j Hj.
  destruct (nth_error (snd rp) j) as [pj|] eqn:E1; [|apply nth_error_None in E1; lia].
  destruct (nth_error (snd rp) (List.length population - i - 1)) as [last|] eqn:E2;
    [|apply nth_error_None in E2; lia].
  apply rsafe_ret. simpl. rewrite list_set_length. exact Hrp.
Qed.

Lemma randint_4_6 : rsafe (fun v => v <= 6) (randint 4 6).
Proof.
  unfold randint. apply (rsafe_bind (fun k => k < 3)); [apply randbelow_lt; lia|].
  intros k Hk. apply rsafe_ret. lia.
Qed.

Lemma remove_period_some : forall x l,
  existsb (period_eqb x) l = true -> exists l', remove_period x l = Some l'.
Proof.
  intros x l. induction l as [|y l IH]; simpl; [discriminate|].
  destruct (period_eqb x y); [eexists; reflexivity|]. simpl. intro H.
  destruct (IH H) as [l' E]. rewrite E. eexists. reflexivity.
Qed.

Lemma index_of_some : forall x l,
  existsb (String.eqb x) l = true -> exists i, index_of x l = Some i.
Proof.
  intros x l. induction l as [|y l IH]; simpl; [discriminate|].
  rewrite String.eqb_sym. destruct (String.eqb y x); [eexists; reflexivity|]. simpl. intro H.
  destruct (IH H) as [i E]. rewrite E. eexists. reflexivity.
Qed.

Lemma priority_safe : forall s, rsafe (fun _ => True) (priority_of s).
Proof.
  intro s. unfold priority_of.
  destruct (existsb (String.eqb (get (sj_nep_category s) "MAJOR")) nep_priority) eqn:E;
    [|apply rsafe_ret; trivial].
  destruct (index_of_some _ _ E) as [i Ei]. rewrite Ei. apply rsafe_ret. trivial.
Qed.

(** With no teachers every entry built gets the placeholder teacher. *)
Lemma period_step_tba : forall pool classrooms acc pr,
  (forall e, In e (fst acc) -> d_teacher e = "TBA") ->
  rsafe (fun acc' => forall e, In e (fst acc') -> d_teacher e = "TBA")
    (period_step pool [] classrooms acc pr).
Proof.
  intros pool classrooms [entries usage] [start_time end_time] Hacc.
  unfold period_step. cbn beta iota zeta.
  destruct pool as [|s0 pool']; [apply rsafe_ret; exact Hacc|].
  apply (rsafe_bind (fun _ => True)); [apply choice_fallback; discriminate|].
  intros sj _. cbn [filter].
  apply (rsafe_bind (fun t : option teacher => t = None)); [apply rsafe_ret; reflexivity|].
  intros t ->.
  apply (rsafe_bind (fun _ => True)).
  - destruct (assign_classroom_by_type sj classrooms); [apply rsafe_ret; trivial|].
    destruct classrooms as [|c cs]; [apply rsafe_ret; trivial|].
    apply (rsafe_bind (fun _ => True)); [|intros; apply rsafe_ret; trivial].
    eapply rsafe_weaken; [apply choice_in; discriminate | trivial].
  - intros c _. apply rsafe_ret. simpl. intros e He.
    apply in_app_or in He as [He|[<-|[]]]; [exact (Hacc e He) | reflexivity].
Qed.

Lemma day_step_tba : forall pool classrooms sched day,
  (forall d es e, In (d, es) sched -> In e es -> d_teacher e = "TBA") ->
  rsafe (fun sched' => forall d es e, In (d, es) sched' -> In e es -> d_teacher e = "TBA")
    (day_step pool [] classrooms sched day).
Proof.
  intros pool classrooms sched day Hs. unfold day_step.
  apply (rsafe_bind (fun v => v <= 6)); [exact randint_4_6|]. intros np Hnp.
  apply (rsafe_bind (fun _ => True)); [apply sample_safe; simpl; lia|]. intros sel0 _.
  apply (rsafe_bind (fun _ => True)).
  - destruct (existsb (period_eqb lunch) (sort_by period_leb sel0)) eqn:Ex;
      [|apply rsafe_ret; trivial].
    apply (rsafe_bind (fun _ => True)); [exact random_float_safe|]. intros k _.
    destruct (Z.ltb k fl07); [|apply rsafe_ret; trivial].
    destruct (remove_period_some _ _ Ex) as [l' E]. rewrite E. apply rsafe_ret. trivial.
  - intros sel _.
    apply (rsafe_bind (fun acc : list draft_entry * list (string * nat) =>
                         forall e, In e (fst acc) -> d_teacher e = "TBA")).
    + apply rfoldM_inv; [|intros e []]. intros acc pr _ Hacc. apply period_step_tba, Hacc.
    + intros res Hres. apply rsafe_ret. intros d es e Hin He.
      apply in_app_or in Hin as [Hin|[Heq|[]]]; [exact (Hs d es e Hin He)|].
      injection Heq as _ <-. exact (Hres e He).
Qed.

(** ** Lemmas on the further properties *)

Lemma in_dict_set_key : forall {K W} (eqk : K -> K -> bool),
  (forall a b, eqk a b = true <-> a = b) ->
  forall (d : list (K * W)) k v k0 v0,
  In (k0, v0) (dict_set eqk k v d) -> In (k0, v0) d \/ (k0 = k /\ v0 = v).
Proof.
  intros K W eqk Hs d. induction d as [|[k1 v1] d IH]; intros k v k0 v0 H; simpl in *.
  - destruct H as [H|[]]. inversion H; subst. right; split; reflexivity.
  - destruct (eqk k1 k) eqn:E.
    + apply Hs in E; subst k1.
      destruct H as [H|H]; [inversion H; subst; right; split; reflexivity | left; right; exact H].
    + destruct H as [H|H]; [left; left; exact H|].
      destruct (IH _ _ _ _ H) as [H'|H']; [left; right; exact H' | right; exact H'].
Qed.

Lemma dict_set_nodup : forall {K W} (eqk : K -> K -> bool),
  (forall a b, eqk a b = true <-> a = b) ->
  forall (d : list (K * W)) k v,
  NoDup (map fst d) -> NoDup (map fst (dict_set eqk k v d)).
Proof.
  intros K W eqk Hs d. induction d as [|[k1 v1] d IH]; intros k v Hd; simpl in *.
  - constructor; [intros []|constructor].
  - inversion Hd as [|? ? Hn Hd']; subst.
    destruct (eqk k1 k) eqn:E; simpl; constructor; try assumption.
    + intro Hin. apply in_map_iff in Hin as [[k0 v0] [Hk Hin]]. simpl in Hk; subst k0.
      apply (in_dict_set_key eqk Hs) in Hin as [Hin|[-> _]].
      * apply Hn. apply in_map_iff. exists (k1, v0). split; [reflexivity|exact Hin].
      * rewrite (proj2 (Hs k k) eq_refl) in E. discriminate.
    + apply IH, Hd'.
Qed.

Lemma nodup_map_filter : forall {A B} (f : A -> B) (q : A -> bool) l,
  NoDup (map f l) -> NoDup (map f (filter q l)).
Proof.
  intros A B f q l. induction l as [|x l IH]; intro H; simpl; [constructor|].
  inversion H as [|? ? Hn Hl]; subst.
  destruct (q x); simpl; [constructor|]; try (apply IH; exact Hl).
  intro Hin. apply Hn. apply in_map_iff in Hin as [y [Hy Hin]].
  apply filter_In in Hin as [Hin _]. rewrite <- Hy. apply in_map, Hin.
Qed.

(** What [create_variables] records of a variable beside [var_ok]: its
    name is its ids, and its room, slot and faculty come from the problem. *)
Definition var_src (p : problem) (k : var_name) (x : sched_data) : Prop :=
  k = (sd_course_id x, sd_slot_id x, sd_room_id x, sd_faculty_id x) /\
  In (sd_room x) (p_rooms p) /\
  In (sd_slot x) (p_time_slots p) /\
  In (sd_faculty_id x) (faculty_of p (sd_course_id x)).

Definition sched_src (p : problem) (sched : schedule) : Prop :=
  NoDup (map fst sched) /\ forall k x, In (k, x) sched -> var_src p k x.

Lemma add_var_src : forall p c slot rm fids acc,
  In rm (p_rooms p) -> In slot (p_time_slots p) ->
  (forall fid, In fid fids -> In fid (faculty_of p (c_id c))) ->
  sched_src p (fst acc) ->
  sched_src p (fst (fold_left (add_var c slot rm) fids acc)).
Proof.
  intros p c slot rm fids. induction fids as [|fid fids IH]; intros [sch m] Hr Hs Hf Hacc;
    [exact Hacc|]. cbn [fold_left].
  apply IH; [exact Hr|exact Hs|intros; apply Hf; right; assumption|].
  unfold add_var. simpl. destruct Hacc as [Hnd Hacc]. split.
  - apply (dict_set_nodup var_name_eqb var_name_eqb_spec), Hnd.
  - intros k x Hin.
    apply (in_dict_set_key var_name_eqb var_name_eqb_spec) in Hin.
    destruct Hin as [Hin|[-> ->]]; [exact (Hacc k x Hin)|].
    unfold var_src; simpl. repeat split; try assumption. apply Hf. left; reflexivity.
Qed.

Lemma create_variables_src : forall p m0 s sched m s',
  create_variables p m0 s = (Ok (sched, m), s') -> sched_src p sched.
Proof.
  intros p m0 s sched m s' Hrun. unfold create_variables in Hrun.
  refine (foldM_inv (fun acc _ => sched_src p (fst acc))
            (course_step p) (p_courses p) _ ([], m0) s (sched, m) s' _ Hrun);
    [|split; [constructor | intros k x []]].
  clear s sched m s' Hrun.
  intros c acc s acc' s' _ Hacc Hrun. unfold course_step in Hrun.
  destruct (Nat.eqb (total_hours c) 0).
  - unfold ret in Hrun. inversion Hrun; subst. exact Hacc.
  - refine (foldM_inv (fun acc _ => sched_src p (fst acc))
              _ (p_time_slots p) _ acc s acc' s' Hacc Hrun).
    clear acc s acc' s' Hacc Hrun.
    intros slot acc s acc' s' Hslot Hacc Hrun.
    refine (foldM_inv (fun acc _ => sched_src p (fst acc))
              _ (p_rooms p) _ acc s acc' s' Hacc Hrun).
    clear acc s acc' s' Hacc Hrun.
    intros rm acc s acc' s' Hrm Hacc Hrun. unfold room_step, bind in Hrun.
    destruct (is_room_suitable c rm slot s) as [[ok|e] s1]; [|discriminate].
    destruct ok; simpl in Hrun; unfold ret in Hrun; inversion Hrun; subst; [|exact Hacc].
    apply add_var_src; auto.
Qed.

Lemma load_courses_pids : forall pids s cs s',
  load_courses pids s = (Ok cs, s') -> forall c, In c cs -> In (c_program_id c) pids.
Proof.
  induction pids as [|pid pids IH]; intros s cs s' H c Hc; simpl in H.
  - inversion H; subst. destruct Hc.
  - unfold bind in H.
    destruct (select _ s) as [[cs1|e] s1] eqn:E1; [|discriminate].
    apply select_spec in E1 as [_ Ha1]. specialize (Ha1 cs1 eq_refl).
    destruct (load_courses pids s1) as [[cs2|e] s2] eqn:E2; [|discriminate].
    unfold ret in H. inversion H; subst.
    apply in_app_iff in Hc as [Hc|Hc].
    + apply filter_In in Hc as [_ Hc]. apply Nat.eqb_eq in Hc. left; symmetry; exact Hc.
    + right. exact (IH _ _ _ E2 c Hc).
Qed.

Definition asg_filter (semester academic_year : string) (a : faculty_assignment) : bool :=
  String.eqb (a_semester a) semester && String.eqb (a_academic_year a) academic_year.

(** The problem [load_data] assembles, field by field. *)
Lemma load_data_spec : forall sem yr pids s p s',
  load_data sem yr pids s = (Ok p, s') ->
  p_faculty p = st_faculty s /\
  p_rooms p = filter r_is_available (st_rooms s) /\
  p_time_slots p = st_time_slots s /\
  p_constraints p = st_constraints s /\
  p_assignments p = build_assignments (filter (asg_filter sem yr) (st_faculty_assignments s)) /\
  (forall c, In c (p_courses p) -> In c (st_courses s) /\ In (c_program_id c) pids).
Proof.
  intros sem yr pids s p s' H. unfold load_data, try_except, bind in H.
  destruct (load_courses pids s) as [[cs|e] s1] eqn:E1; [|inversion H].
  pose proof (load_courses_pids _ _ _ _ E1) as Hp.
  apply load_courses_ok in E1 as [T1 Hin1].
  destruct (select st_faculty s1) as [[fac|e] s2] eqn:E2; [|discriminate].
  apply select_spec in E2 as [T2 F2]. specialize (F2 _ eq_refl).
  destruct (select (fun s => filter r_is_available (st_rooms s)) s2) as [[rms|e] s3] eqn:E3;
    [|discriminate].
  apply select_spec in E3 as [T3 F3]. specialize (F3 _ eq_refl).
  destruct (select st_time_slots s3) as [[sl|e] s4] eqn:E4; [|discriminate].
  apply select_spec in E4 as [T4 F4]. specialize (F4 _ eq_refl).
  destruct (select st_constraints s4) as [[cn|e] s5] eqn:E5; [|discriminate].
  apply select_spec in E5 as [T5 F5]. specialize (F5 _ eq_refl).
  destruct (select _ s5) as [[asg|e] s6] eqn:E6; [|discriminate].
  apply select_spec in E6 as [T6 F6]. specialize (F6 _ eq_refl).
  unfold ret in H. injection H as <- _. subst fac rms sl cn asg. unfold bump. simpl.
  unfold tables in T1, T2, T3, T4, T5.
  inversion T1. inversion T2. inversion T3. inversion T4. inversion T5.
  repeat split; try congruence; [|apply Hp; assumption].
  match goal with Hc : In _ cs |- _ => apply Hin1 in Hc end. congruence.
Qed.

Lemma faculty_of_spec : forall sem yr rows p cid fid,
  p_assignments p = build_assignments (filter (asg_filter sem yr) rows) ->
  In fid (faculty_of p cid) ->
  exists a, In a rows /\ a_course_id a = cid /\ a_faculty_id a = fid /\
            a_semester a = sem /\ a_academic_year a = yr.
Proof.
  intros sem yr rows p cid fid Hp Hin. unfold faculty_of in Hin. rewrite Hp in Hin.
  unfold build_assignments, group_by in Hin.
  rewrite (dict_get_group_fold Nat.eqb nat_eqb_spec') in Hin. simpl in Hin.
  assert (In fid (map a_faculty_id (filter (fun x => Nat.eqb (a_course_id x) cid)
                                      (filter (asg_filter sem yr) rows)))) as H.
  { destruct (map a_faculty_id _) eqn:E; [destruct Hin | exact Hin]. }
  apply in_map_iff in H as [a [Ha H]]. apply filter_In in H as [H Hc].
  apply filter_In in H as [H Hk]. unfold asg_filter in Hk.
  apply andb_true_iff in Hk as [Hs Hy]. apply String.eqb_eq in Hs, Hy.
  apply Nat.eqb_eq in Hc. exists a. repeat split; assumption.
Qed.

Lemma in_extract_true : forall sem yr sched vals e,
  In e (extract_solution sem yr sched vals) ->
  exists k x, In (k, x) sched /\ vals (sd_var x) = true /\ e = entry_of sem yr x.
Proof.
  intros sem yr sched vals e H. unfold extract_solution in H.
  apply in_map_iff in H as [[k x] [He Hin]]. apply filter_In in Hin as [Hin Hv].
  exists k, x. repeat split; [exact Hin | exact Hv | symmetry; exact He].
Qed.

Lemma availability_step_appends : forall p, appends (availability_step p).
Proof.
  intros p m0 x. unfold availability_step.
  destruct (find _ _) as [fd|]; [|simpl; rewrite app_nil_r; reflexivity].
  destruct (f_availability fd) as [|a avail]; [simpl; rewrite app_nil_r; reflexivity|].
  destruct (dict_get _ _ _) as [o|]; [|simpl; rewrite app_nil_r; reflexivity].
  destruct (negb _); simpl; rewrite ?app_nil_r; reflexivity.
Qed.

Lemma extract_keys : forall sem yr sched vals,
  (forall k x, In (k, x) sched -> k = (sd_course_id x, sd_slot_id x, sd_room_id x, sd_faculty_id x)) ->
  map (fun e => (en_course_id e, en_time_slot_id e, en_room_id e, en_faculty_id e))
      (extract_solution sem yr sched vals) =
  map fst (filter (fun kx => vals (sd_var (snd kx))) sched).
Proof.
  intros sem yr sched vals H. unfold extract_solution. rewrite map_map.
  apply map_ext_in. intros [k x] Hin. apply filter_In in Hin as [Hin _].
  rewrite (H k x Hin). reflexivity.
Qed.

(** [m] only reads the database: whatever its outcome, the tables and the
    fault oracle are as before. *)
Definition reads {A} (m : M A) : Prop :=
  forall s o s', m s = (o, s') -> tables s' = tables s /\ st_fail s' = st_fail s.

Lemma reads_ret : forall {A} (a : A), reads (ret a).
Proof. intros A a s o s' H. inversion H; subst. split; reflexivity. Qed.

Lemma reads_bind : forall {A B} (m : M A) (k : A -> M B),
  reads m -> (forall a, reads (k a)) -> reads (bind m k).
Proof.
  intros A B m k Hm Hk s o s' H. unfold bind in H.
  destruct (m s) as [[a|e] s1] eqn:E; destruct (Hm _ _ _ E) as [T1 F1].
  - destruct (Hk a _ _ _ H) as [T2 F2]. split; congruence.
  - inversion H; subst. split; assumption.
Qed.

Lemma reads_select : forall {A} (f : store -> A), reads (select f).
Proof.
  intros A f s o s' H. unfold select, execute in H.
  destruct (st_fail s (st_calls s)); inversion H; subst; split; reflexivity.
Qed.

Lemma reads_foldM : forall {A B} (f : B -> A -> M B) l b,
  (forall b x, reads (f b x)) -> reads (foldM f l b).
Proof.
  intros A B f l. induction l as [|x l IH]; intros b Hf; simpl; [apply reads_ret|].
  apply reads_bind; [apply Hf | intro; apply IH, Hf].
Qed.

Lemma reads_try : forall {A} (m : M A) (h : string -> M A),
  reads m -> (forall e, reads (h e)) -> reads (try_except m h).
Proof.
  intros A m h Hm Hh s o s' H. unfold try_except in H.
  destruct (m s) as [[a|e] s1] eqn:E; destruct (Hm _ _ _ E) as [T1 F1].
  - inversion H; subst. split; assumption.
  - destruct (Hh e _ _ _ H) as [T2 F2]. split; congruence.
Qed.

Lemma load_courses_reads : forall pids, reads (load_courses pids).
Proof.
  induction pids as [|pid pids IH]; simpl; [apply reads_ret|].
  apply reads_bind; [apply reads_select|]. intro cs.
  apply reads_bind; [apply IH|]. intro; apply reads_ret.
Qed.

Lemma load_data_reads : forall sem yr pids, reads (load_data sem yr pids).
Proof.
  intros. unfold load_data. apply reads_try.
  - apply reads_bind; [apply load_courses_reads|]. intro.
    repeat (apply reads_bind; [apply reads_select|]; intro). apply reads_ret.
  - intros e s o s' H. inversion H; subst. split; reflexivity.
Qed.

Lemma create_variables_reads : forall p m, reads (create_variables p m).
Proof.
  intros p m. unfold create_variables. apply reads_foldM. intros acc c.
  unfold course_step. destruct (Nat.eqb _ _); [apply reads_ret|].
  apply reads_foldM. intros acc' slot. apply reads_foldM. intros acc'' rm.
  unfold room_step. apply reads_bind.
  - unfold is_room_suitable. apply reads_bind; [apply reads_select|]. intro; apply reads_ret.
  - intros ok. destruct (negb ok); apply reads_ret.
Qed.

Lemma select_raise : forall {A} (f : store -> A) s e s',
  select f s = (Raise e, s') -> e = db_error.
Proof.
  intros A f s e s' H. unfold select, execute in H.
  destruct (st_fail s (st_calls s)); inversion H; reflexivity.
Qed.

Lemma load_courses_raise : forall pids s e s',
  load_courses pids s = (Raise e, s') -> e = db_error.
Proof.
  induction pids as [|pid pids IH]; intros s e s' H; simpl in H; [discriminate|].
  unfold bind in H.
  destruct (select _ s) as [[cs|e0] s1] eqn:E; [|inversion H; subst; exact (select_raise _ _ _ _ E)].
  destruct (load_courses pids s1) as [[cs'|e0] s2] eqn:E2; [discriminate|].
  inversion H; subst. exact (IH _ _ _ E2).
Qed.

Lemma load_data_error : forall sem yr pids s e s',
  load_data sem yr pids s = (Raise e, s') -> e = String.append "Error loading data: " db_error.
Proof.
  intros sem yr pids s e s' H. unfold load_data, try_except, bind in H.
  destruct (load_courses pids s) as [[cs|e0] s1] eqn:E1;
    [|inversion H; subst; rewrite (load_courses_raise _ _ _ _ E1); reflexivity].
  repeat match type of H with
  | context [select ?f ?s0] =>
      let E := fresh "E" in
      destruct (select f s0) as [[?x|?e1] ?s2] eqn:E;
        [cbn beta iota in H | inversion H; subst; rewrite (select_raise _ _ _ _ E); reflexivity]
  end.
  discriminate.
Qed.

Lemma filter_idem : forall {A} (q : A -> bool) l, filter q (filter q l) = filter q l.
Proof.
  intros A q l. induction l as [|x l IH]; simpl; [reflexivity|].
  destruct (q x) eqn:E; simpl; [rewrite E, IH|exact IH]; reflexivity.
Qed.

Lemma filter_none : forall {A} (q : A -> bool) l,
  (forall x, In x l -> q x = false) -> filter q l = [].
Proof.
  intros A q l. induction l as [|x l IH]; intro H; simpl; [reflexivity|].
  rewrite (H x (or_introl eq_refl)). apply IH. intros y Hy. apply H. right. exact Hy.
Qed.

Lemma list_set_in : forall {A} (l : list A) i v x, In x (list_set l i v) -> In x l \/ x = v.
Proof.
  intros A l. induction l as [|y l IH]; intros [|i] v x H; simpl in *; [destruct H | destruct H | |].
  - destruct H as [<-|H]; [right; reflexivity | left; right; exact H].
  - destruct H as [<-|H]; [left; left; reflexivity|].
    destruct (IH i v x H) as [H'|H']; [left; right; exact H' | right; exact H'].
Qed.

(** [rfoldM] with an invariant and a size that every step increases by [delta]. *)
Lemma rfoldM_count : forall {A B} (I : B -> Prop) (size : B -> nat) (delta : nat)
    (f : B -> A -> R B) l b,
  (forall b x, In x l -> I b -> rsafe (fun b' => I b' /\ size b' = size b + delta) (f b x)) ->
  I b -> rsafe (fun b' => I b' /\ size b' = size b + delta * List.length l) (rfoldM f l b).
Proof.
  intros A B I size delta f l. induction l as [|x l IH]; intros b Hf Hb; simpl.
  - apply rsafe_ret. split; [exact Hb | lia].
  - apply (rsafe_bind (fun b' => I b' /\ size b' = size b + delta));
      [apply Hf; [left; reflexivity | exact Hb]|].
    intros b' [Hb' Hs]. eapply rsafe_weaken; [apply IH; [|exact Hb']|].
    + intros b0 y Hy. apply Hf. right. exact Hy.
    + intros b1 [H1 H2]. split; [exact H1 | lia].
Qed.

(** A fold whose every step appends one keyed item. *)
Lemma rfoldM_snoc : forall {A Y} (Q : Y -> Prop) (f : list (A * Y) -> A -> R (list (A * Y))) l b,
  (forall b x, In x l -> rsafe (fun b' => exists y, b' = b ++ [(x, y)] /\ Q y) (f b x)) ->
  (forall x y, In (x, y) b -> Q y) ->
  rsafe (fun b' => map fst b' = map fst b ++ l /\ forall x y, In (x, y) b' -> Q y) (rfoldM f l b).
Proof.
  intros A Y Q f l. induction l as [|x l IH]; intros b Hf Hb; simpl.
  - apply rsafe_ret. rewrite app_nil_r. split; [reflexivity | exact Hb].
  - apply (rsafe_bind (fun b' => exists y, b' = b ++ [(x, y)] /\ Q y));
      [apply Hf; left; reflexivity|].
    intros b' [y [-> Hy]]. eapply rsafe_weaken; [apply IH|].
    + intros b0 z Hz. apply Hf. right. exact Hz.
    + intros x0 y0 Hin. apply in_app_or in Hin as [Hin|[Heq|[]]]; [exact (Hb _ _ Hin)|].
      injection Heq as _ <-. exact Hy.
    + intros b1 [H1 H2]. split; [|exact H2]. rewrite H1, map_app, <- app_assoc. reflexivity.
Qed.

Lemma rmapM_map : forall {A B} (f : A -> R B) (g : B -> A) l,
  (forall x, In x l -> rsafe (fun y => g y = x) (f x)) -> rsafe (fun ys => map g ys = l) (rmapM f l).
Proof.
  intros A B f g l. induction l as [|x l IH]; intro Hf; simpl; [apply rsafe_ret; reflexivity|].
  apply (rsafe_bind (fun y => g y = x)); [apply Hf; left; reflexivity|]. intros y Hy.
  apply (rsafe_bind (fun ys => map g ys = l)); [apply IH; intros z Hz; apply Hf; right; exact Hz|].
  intros ys Hys. apply rsafe_ret. simpl. rewrite Hy, Hys. reflexivity.
Qed.

Lemma shuffle_incl : forall {A} (x : list A),
  rsafe (fun x' => List.length x' = List.length x /\ forall a, In a x' -> In a x) (shuffle x).
Proof.
  intros A x. unfold shuffle.
  apply rfoldM_inv; [|split; [reflexivity | trivial]].
  intros b i Hi [Hl Hb]. apply in_rev, in_seq in Hi.
  apply (rsafe_bind (fun j => j < i + 1)); [apply randbelow_lt; lia|].
  intros j Hj. unfold swap.
  destruct (nth_error b i) as [a1|] eqn:Ei; [|apply nth_error_None in Ei; lia].
  destruct (nth_error b j) as [a2|] eqn:Ej; [|apply nth_error_None in Ej; lia].
  apply rsafe_ret. rewrite !list_set_length. split; [exact Hl|].
  intros a Ha. apply Hb.
  destruct (list_set_in _ _ _ _ Ha) as [Ha'| ->]; [|exact (nth_error_In _ _ Ei)].
  destruct (list_set_in _ _ _ _ Ha') as [Ha''| ->]; [exact Ha'' | exact (nth_error_In _ _ Ej)].
Qed.

Lemma sample_spec : forall {A} (population : list A) k,
  k <= List.length population ->
  rsafe (fun res => List.length res = k /\ forall a, In a res -> In a population)
    (sample population k).
Proof.
  intros A population k Hk. unfold sample.
  destruct (Nat.ltb (List.length population) k) eqn:E; [apply Nat.ltb_lt in E; lia|].
  set (I := fun rp : list A * list A =>
              List.length (snd rp) = List.length population /\
              (forall a, In a (snd rp) -> In a population) /\
              (forall a, In a (fst rp) -> In a population)).
  apply (rsafe_bind (fun rp => I rp /\ List.length (fst rp) = 0 + List.length (seq 0 k)));
    [|intros rp [[_ [_ H]] Hl]; apply rsafe_ret; rewrite length_seq in Hl; split; [exact Hl | exact H]].
  apply (rsafe_weaken (fun rp => I rp /\ List.length (fst rp) = 0 + 1 * List.length (seq 0 k)));
    [|intros rp [H1 H2]; split; [exact H1 | rewrite H2; lia]].
  apply (rfoldM_count I (fun rp => List.length (fst rp)) 1); [|split; [reflexivity | split; [trivial | intros a []]]].
  intros rp i Hi [Hn [Hs Hf]]. apply in_seq in Hi.
  apply (rsafe_bind (fun j => j < List.length population - i)); [apply randbelow_lt; lia|].
  intros j Hj.
  destruct (nth_error (snd rp) j) as [pj|] eqn:E1; [|apply nth_error_None in E1; lia].
  destruct (nth_error (snd rp) (List.length population - i - 1)) as [last|] eqn:E2;
    [|apply nth_error_None in E2; lia].
  apply rsafe_ret. unfold I; cbn [fst snd]. rewrite list_set_length, length_app. simpl.
  split; [|lia]. split; [exact Hn|]. split.
  - intros a Ha. destruct (list_set_in _ _ _ _ Ha) as [Ha'| ->]; [exact (Hs a Ha')|].
    apply Hs, (nth_error_In _ _ E2).
  - intros a Ha. apply in_app_or in Ha as [Ha|[<-|[]]]; [exact (Hf a Ha)|].
    apply Hs, (nth_error_In _ _ E1).
Qed.

Lemma insert_by_perm : forall {A} (le : A -> A -> bool) x l, Permutation (insert_by le x l) (x :: l).
Proof.
  intros A le x l. induction l as [|y l IH]; simpl; [reflexivity|].
  destruct (le x y); [reflexivity|].
  eapply perm_trans; [apply perm_skip, IH | apply perm_swap].
Qed.

Lemma sort_by_perm : forall {A} (le : A -> A -> bool) l, Permutation (sort_by le l) l.
Proof.
  intros A le l. induction l as [|x l IH]; simpl; [reflexivity|].
  eapply perm_trans; [apply insert_by_perm | apply perm_skip, IH].
Qed.

Lemma remove_period_spec : forall x l l',
  remove_period x l = Some l' ->
  List.length l' = List.length l - 1 /\ forall a, In a l' -> In a l.
Proof.
  intros x l. induction l as [|y l IH]; intros l' H; simpl in H; [discriminate|].
  destruct (period_eqb x y).
  - inversion H; subst. simpl. split; [lia | intros a Ha; right; exact Ha].
  - destruct (remove_period x l) as [r|] eqn:E; [|discriminate].
    inversion H; subst. destruct (IH r eq_refl) as [Hl Hi].
    destruct l as [|z l]; [simpl in E; discriminate|].
    simpl in *. split; [lia|]. intros a [<-|Ha]; [left; reflexivity | right; apply Hi, Ha].
Qed.

Lemma subject_pool_in : forall l s, In s (subject_pool l) -> In s l.
Proof.
  intros l s H. unfold subject_pool in H. apply in_flat_map in H as [x [Hx Hs]].
  apply repeat_spec in Hs. subst. exact Hx.
Qed.

Lemma subject_pool_nil : forall l, subject_pool l = [] -> l = [].
Proof.
  intros [|x l] H; [reflexivity|]. unfold subject_pool in H. simpl in H.
  destruct (Z.to_nat (Z.max 1 (get (sj_credits x) 1%Z))) eqn:E; [lia|discriminate].
Qed.

Lemma assign_classroom_by_type_in : forall sj classrooms c,
  assign_classroom_by_type sj classrooms = Some c -> In c classrooms.
Proof.
  intros sj classrooms c H. unfold assign_classroom_by_type in H.
  repeat match type of H with
  | context [find ?f ?l] =>
      let E := fresh "E" in
      destruct (find f l) eqn:E;
      [try (apply find_some in E as [E _]) | ]
  | context [if ?b then _ else _] => destruct b
  end;
  try (inversion H; subst; assumption);
  try discriminate.
  all: destruct classrooms as [|c9 cs9]; simpl in H; [discriminate | inversion H; subst; left; reflexivity].
Qed.

Lemma assign_classroom_by_type_some : forall sj classrooms,
  classrooms <> [] -> exists c, assign_classroom_by_type sj classrooms = Some c.
Proof.
  intros sj [|c0 cs] Hne; [congruence|]. unfold assign_classroom_by_type.
  repeat match goal with
  | |- context [match ?x with Some _ => _ | None => _ end] =>
      match x with
      | context [match _ with Some _ => _ | None => _ end] => fail 1
      | _ => destruct x
      end
  | |- context [if ?b then _ else _] => destruct b
  end; eexists; reflexivity.
Qed.

(** Where each field of a draft entry comes from. *)
Definition entry_src (subjects : list subject) (teachers : list teacher)
    (classrooms : list classroom) (e : draft_entry) : Prop :=
  (exists pr, In pr time_periods /\ d_time e = String.append (fst pr) (String.append "-" (snd pr))) /\
  (exists sj, In sj subjects /\
     d_subject_name e = get (sj_name sj) "Unknown" /\ d_subject_code e = get (sj_code sj) "" /\
     d_nep_category e = get (sj_nep_category sj) "MAJOR" /\ d_credits e = get (sj_credits sj) 0%Z /\
     d_is_skill_based e = get (sj_is_skill_based sj) false /\
     d_is_lab e = contains "lab" (lower (get (sj_name sj) ""))) /\
  (teachers = [] -> d_teacher e = "TBA") /\
  (teachers <> [] -> exists t, In t teachers /\ d_teacher e = get (t_name t) "TBA") /\
  (classrooms = [] -> d_classroom e = "TBA") /\
  (classrooms <> [] -> exists c, In c classrooms /\ d_classroom e = get (cr_name c) "TBA").

Lemma period_step_spec : forall subjects pool teachers classrooms acc pr,
  (forall t, In t teachers -> t_specialization t <> Null) ->
  (forall s, In s pool -> In s subjects) -> In pr time_periods ->
  (forall e, In e (fst acc) -> entry_src subjects teachers classrooms e) ->
  rsafe (fun acc' => (forall e, In e (fst acc') -> entry_src subjects teachers classrooms e) /\
                     List.length (fst acc') = List.length (fst acc) + min 1 (List.length pool))
    (period_step pool teachers classrooms acc pr).
Proof.
  intros subjects pool teachers classrooms [entries usage] [start_time end_time] Hteach Hpool Hpr Hacc.
  unfold period_step. cbn beta iota zeta.
  destruct pool as [|s0 pool']; [apply rsafe_ret; split; [exact Hacc | simpl; lia]|].
  set (available0 := filter _ (s0 :: pool')).
  apply (rsafe_bind (fun sj => In sj subjects)).
  { eapply rsafe_weaken; [apply choice_in|].
    - destruct available0; discriminate.
    - intros sj Hsj. apply Hpool. destruct available0 as [|a l] eqn:Ea; [exact Hsj|].
      rewrite <- Ea in Hsj. unfold available0 in Hsj. apply filter_In in Hsj as [Hsj _]. exact Hsj. }
  intros sj Hsj.
  destruct (ofilter_ok (teacher_suitable (get (sj_code sj) "") sj) teachers) as [suitable0 [Ef Hf]].
  { intros t Ht. apply teacher_suitable_ok, Hteach, Ht. }
  rewrite Ef.
  apply (rsafe_bind (fun l => l = suitable0)); [apply rsafe_lift; reflexivity|]. intros l ->.
  apply (rsafe_bind (fun ot : option teacher =>
           (teachers = [] -> ot = None) /\ (teachers <> [] -> exists t, ot = Some t /\ In t teachers))).
  { destruct (match suitable0 with [] => teachers | _ :: _ => suitable0 end) as [|t0 ts] eqn:Es.
    - apply rsafe_ret. split; [reflexivity|]. intro Hne.
      destruct suitable0; [congruence | discriminate].
    - apply (rsafe_bind (fun t => In t teachers)).
      + eapply rsafe_weaken; [apply choice_in; discriminate|]. intros t Ht. rewrite <- Es in Ht.
        destruct suitable0 as [|a l]; [exact Ht | apply Hf, Ht].
      + intros t Ht. apply rsafe_ret. split; [intros ->; destruct Ht | intros _; exists t; split; [reflexivity | exact Ht]]. }
  intros ot [Ht1 Ht2].
  apply (rsafe_bind (fun oc : option classroom =>
           (classrooms = [] -> oc = None) /\ (classrooms <> [] -> exists c, oc = Some c /\ In c classrooms))).
  { destruct (assign_classroom_by_type sj classrooms) as [c|] eqn:Ec.
    - apply rsafe_ret. apply assign_classroom_by_type_in in Ec.
      split; [intros ->; destruct Ec | intros _; exists c; split; [reflexivity | exact Ec]].
    - destruct classrooms as [|c0 cs].
      + apply rsafe_ret. split; [reflexivity | intros H; congruence].
      + destruct (assign_classroom_by_type_some sj (c0 :: cs)) as [c Hc]; [discriminate|].
        congruence. }
  intros oc [Hc1 Hc2]. apply rsafe_ret. simpl. split; [|rewrite length_app; simpl; lia].
  intros e He. apply in_app_or in He as [He|[<-|[]]]; [exact (Hacc e He)|].
  unfold entry_src; simpl. split; [|split; [|split; [|split; [|split]]]].
  - exists (start_time, end_time). split; [exact Hpr | reflexivity].
  - exists sj. repeat split; [exact Hsj].
  - intros H. rewrite (Ht1 H). reflexivity.
  - intros H. destruct (Ht2 H) as [t [-> Ht]]. exists t. split; [exact Ht | reflexivity].
  - intros H. rewrite (Hc1 H). reflexivity.
  - intros H. destruct (Hc2 H) as [c [-> Hc]]. exists c. split; [exact Hc | reflexivity].
Qed.

Definition day_ok (subjects : list subject) (pool : list subject) (teachers : list teacher)
    (classrooms : list classroom) (es : list draft_entry) : Prop :=
  (forall e, In e es -> entry_src subjects teachers classrooms e) /\
  List.length es <= 6 /\
  (pool = [] -> es = []) /\
  (pool <> [] -> 3 <= List.length es).

Lemma day_step_spec : forall subjects pool teachers classrooms sched day,
  (forall t, In t teachers -> t_specialization t <> Null) ->
  (forall s, In s pool -> In s subjects) ->
  rsafe (fun sched' => exists es, sched' = sched ++ [(day, es)] /\
                                  day_ok subjects pool teachers classrooms es)
    (day_step pool teachers classrooms sched day).
Proof.
  intros subjects pool teachers classrooms sched day Hteach Hpool. unfold day_step.
  apply (rsafe_bind (fun v => 4 <= v <= 6)).
  { unfold randint. apply (rsafe_bind (fun k => k < 3)); [apply randbelow_lt; lia|].
    intros k Hk. apply rsafe_ret. lia. }
  intros np Hnp.
  apply (rsafe_bind (fun res => List.length res = np /\ forall a, In a res -> In a time_periods));
    [apply sample_spec; simpl; lia|].
  intros sel0 [Hl0 Hi0].
  pose proof (sort_by_perm period_leb sel0) as Hperm.
  apply (rsafe_bind (fun sel => 3 <= List.length sel <= 6 /\ forall a, In a sel -> In a time_periods)).
  { assert (3 <= List.length (sort_by period_leb sel0) <= 6 /\
            forall a, In a (sort_by period_leb sel0) -> In a time_periods) as Hs.
    { rewrite (Permutation_length Hperm). split; [lia|].
      intros a Ha. apply Hi0. exact (Permutation_in _ Hperm Ha). }
    destruct (existsb (period_eqb lunch) (sort_by period_leb sel0)) eqn:Ex;
      [|apply rsafe_ret; exact Hs].
    apply (rsafe_bind (fun _ => True)); [exact random_float_safe|]. intros k _.
    destruct (Z.ltb k fl07); [|apply rsafe_ret; exact Hs].
    destruct (remove_period_some _ _ Ex) as [l' E]. rewrite E. apply rsafe_ret.
    destruct (remove_period_spec _ _ _ E) as [Hl Hin].
    rewrite (Permutation_length Hperm), Hl0 in Hl.
    split; [lia|]. intros a Ha. apply Hs, Hin, Ha. }
  intros sel [Hlen Hsel].
  apply (rsafe_bind (fun acc : list draft_entry * list (string * nat) =>
           (forall e, In e (fst acc) -> entry_src subjects teachers classrooms e) /\
           List.length (fst acc) = 0 + min 1 (List.length pool) * List.length sel)).
  { apply (rfoldM_count (fun acc : list draft_entry * list (string * nat) =>
             forall e, In e (fst acc) -> entry_src subjects teachers classrooms e)
             (fun acc => List.length (fst acc))); [|intros e []].
    intros acc pr Hpr Hacc. apply period_step_spec; [exact Hteach | exact Hpool | apply Hsel, Hpr | exact Hacc]. }
  intros res [Hres Hlr]. apply rsafe_ret. exists (fst res). split; [reflexivity|].
  unfold day_ok. split; [exact Hres|].
  destruct pool as [|s0 pool']; simpl in Hlr.
  - split; [lia|]. split; [intros _; destruct (fst res); [reflexivity | discriminate] | congruence].
  - split; [lia|]. split; [discriminate | intros _; lia].
Qed.

Lemma heuristic_schedule_spec : forall subjects teachers classrooms time_slots,
  (forall t, In t teachers -> t_specialization t <> Null) ->
  rsafe (fun sched => map fst sched = days /\
           forall d es, In (d, es) sched ->
             (forall e, In e es -> entry_src subjects teachers classrooms e) /\
             List.length es <= 6 /\ (subjects = [] -> es = []) /\ (subjects <> [] -> 3 <= List.length es))
    (generate_nep_compliant_schedule subjects teachers classrooms time_slots).
Proof.
  intros subjects teachers classrooms time_slots Hteach. unfold generate_nep_compliant_schedule.
  apply (rsafe_bind (fun keyed => map snd keyed = subjects)).
  { apply rmapM_map. intros s _.
    apply (rsafe_bind (fun _ => True)); [apply priority_safe|]. intros i _.
    apply (rsafe_bind (fun _ => True)); [exact random_float_safe|]. intros k _.
    apply rsafe_ret. reflexivity. }
  intros keyed Hkeyed.
  set (sorted := map snd (sort_by key_leb keyed)).
  assert (Permutation sorted subjects) as Hperm.
  { rewrite <- Hkeyed. apply Permutation_map, sort_by_perm. }
  apply (rsafe_bind (fun pool => List.length pool = List.length (subject_pool sorted) /\
                                 forall s, In s pool -> In s (subject_pool sorted)));
    [apply shuffle_incl|].
  intros pool [Hlp Hip].
  apply (rsafe_weaken (fun sched => map fst sched = map fst (@nil (string * list draft_entry)) ++ days /\
           forall d es, In (d, es) sched -> day_ok subjects pool teachers classrooms es)).
  - apply rfoldM_snoc; [|intros d es []].
    intros sched day _. apply day_step_spec; [exact Hteach|].
    intros s Hs. apply Hip, subject_pool_in in Hs. exact (Permutation_in _ Hperm Hs).
  - intros sched [Hd Hok]. split; [exact Hd|]. intros d es Hin.
    destruct (Hok d es Hin) as (H1 & H2 & H3 & H4).
    split; [exact H1|]. split; [exact H2|].
    assert (pool = [] <-> subjects = []) as Hiff.
    { split; intro H.
      - subst pool. symmetry in Hlp. apply length_zero_iff_nil, subject_pool_nil in Hlp.
        subst sorted. rewrite Hlp in Hperm. apply Permutation_nil, Hperm.
      - rewrite H in Hperm. apply Permutation_sym, Permutation_nil in Hperm. change (List.length pool = List.length (subject_pool sorted)) in Hlp. rewrite Hperm in Hlp.
        apply length_zero_iff_nil, Hlp. }
    split; intro H; [apply H3, Hiff, H | apply H4; rewrite Hiff; exact H].
Qed.

(** [m] raises [e] whatever the draws. *)
Definition rfails {A} (e : string) (m : R A) : Prop :=
  forall g, exists g', m g = (Raise e, g').

Lemma rfails_bind_l : forall {A B} e (m : R A) (k : A -> R B), rfails e m -> rfails e (rbind m k).
Proof. intros A B e m k H g. destruct (H g) as [g' E]. exists g'. unfold rbind. rewrite E. reflexivity. Qed.

Lemma rfails_bind_r : forall {A B} (P : A -> Prop) e (m : R A) (k : A -> R B),
  rsafe P m -> (forall a, P a -> rfails e (k a)) -> rfails e (rbind m k).
Proof.
  intros A B P e m k Hm Hk g. destruct (Hm g) as [a [g' [E Pa]]].
  unfold rbind. rewrite E. exact (Hk a Pa g').
Qed.

Lemma period_step_raises : forall pool teachers classrooms acc pr,
  pool <> [] -> (exists t, In t teachers /\ t_specialization t = Null) ->
  rfails none_lower_error (period_step pool teachers classrooms acc pr).
Proof.
  intros pool teachers classrooms [entries usage] [start_time end_time] Hpool Hnull.
  unfold period_step. cbn beta iota zeta.
  destruct pool as [|s0 pool']; [congruence|].
  apply (rfails_bind_r (fun _ => True)); [apply choice_fallback; discriminate|].
  intros sj _. apply rfails_bind_l. intro g. exists g. unfold rlift.
  rewrite (ofilter_raise _ _ none_lower_error); [reflexivity | |].
  - intros t e _ He. unfold teacher_suitable in He.
    destruct (t_specialization t); simpl in He; try discriminate. injection He as <-. reflexivity.
  - destruct Hnull as [t [Ht Hn]]. exists t, none_lower_error. split; [exact Ht|].
    unfold teacher_suitable. rewrite Hn. reflexivity.
Qed.

Lemma day_step_raises : forall pool teachers classrooms sched day,
  pool <> [] -> (exists t, In t teachers /\ t_specialization t = Null) ->
  rfails none_lower_error (day_step pool teachers classrooms sched day).
Proof.
  intros pool teachers classrooms sched day Hpool Hnull. unfold day_step.
  apply (rfails_bind_r (fun v => 4 <= v <= 6)).
  { unfold randint. apply (rsafe_bind (fun k => k < 3)); [apply randbelow_lt; lia|].
    intros k Hk. apply rsafe_ret. lia. }
  intros np Hnp.
  apply (rfails_bind_r (fun res => List.length res = np /\ forall a, In a res -> In a time_periods));
    [apply sample_spec; simpl; lia|].
  intros sel0 [Hl0 _].
  pose proof (Permutation_length (sort_by_perm period_leb sel0)) as Hperm.
  apply (rfails_bind_r (fun sel => 3 <= List.length sel)).
  { destruct (existsb (period_eqb lunch) (sort_by period_leb sel0)) eqn:Ex;
      [|apply rsafe_ret; lia].
    apply (rsafe_bind (fun _ => True)); [exact random_float_safe|]. intros k _.
    destruct (Z.ltb k fl07); [|apply rsafe_ret; lia].
    destruct (remove_period_some _ _ Ex) as [l' E]. rewrite E. apply rsafe_ret.
    destruct (remove_period_spec _ _ _ E) as [Hl _]. lia. }
  intros sel Hsel. apply rfails_bind_l.
  destruct sel as [|pr sel']; [simpl in Hsel; lia|]. cbn [rfoldM].
  apply rfails_bind_l. apply period_step_raises; assumption.
Qed.

Lemma heuristic_schedule_raises : forall subjects teachers classrooms time_slots,
  subjects <> [] -> (exists t, In t teachers /\ t_specialization t = Null) ->
  rfails none_lower_error (generate_nep_compliant_schedule subjects teachers classrooms time_slots).
Proof.
  intros subjects teachers classrooms time_slots Hs Hnull. unfold generate_nep_compliant_schedule.
  apply (rfails_bind_r (fun keyed => map snd keyed = subjects)).
  { apply rmapM_map. intros s _.
    apply (rsafe_bind (fun _ => True)); [apply priority_safe|]. intros i _.
    apply (rsafe_bind (fun _ => True)); [exact random_float_safe|]. intros k _.
    apply rsafe_ret. reflexivity. }
  intros keyed Hkeyed.
  set (sorted := map snd (sort_by key_leb keyed)).
  apply (rfails_bind_r (fun pool => List.length pool = List.length (subject_pool sorted) /\
                                    forall s, In s pool -> In s (subject_pool sorted)));
    [apply shuffle_incl|].
  intros pool [Hlp _]. unfold days. cbn [rfoldM]. apply rfails_bind_l.
  apply day_step_raises; [|exact Hnull].
  intros ->. symmetry in Hlp. apply length_zero_iff_nil, subject_pool_nil in Hlp.
  pose proof (Permutation_map snd (sort_by_perm key_leb keyed)) as Hp.
  fold sorted in Hp. rewrite Hlp, Hkeyed in Hp. apply Permutation_nil in Hp. exact (Hs Hp).
Qed.

(** The dict update [d[k] = d.get(k, 0) + v] on integer values. *)
Definition acc_set (k : string) (v : Z) (d : list (string * Z)) : list (string * Z) :=
  dict_set String.eqb k (get (dict_get String.eqb k d) 0%Z + v)%Z d.

Lemma acc_set_sum : forall d k v,
  fold_right Z.add 0%Z (map snd (acc_set k v d)) = (fold_right Z.add 0%Z (map snd d) + v)%Z.
Proof.
  unfold acc_set. induction d as [|[k0 v0] d IH]; intros k v; simpl; [lia|].
  destruct (String.eqb k0 k) eqn:E; simpl; [lia|].
  specialize (IH k v). simpl in IH. rewrite IH. lia.
Qed.

Lemma acc_set_get : forall d k v c,
  dict_get String.eqb c (acc_set k v d) =
  if String.eqb k c then Some (get (dict_get String.eqb c d) 0%Z + v)%Z else dict_get String.eqb c d.
Proof.
  intros d k v c. unfold acc_set. rewrite (dict_get_set String.eqb String.eqb_eq).
  destruct (String.eqb k c) eqn:E; [apply String.eqb_eq in E; subst k|]; reflexivity.
Qed.

(** The loop [for x in l: d[cat(x)] = d.get(cat(x), 0) + cr(x)]. *)
Lemma acc_fold_spec : forall {A} (cat : A -> string) (cr : A -> Z) l d,
  let d' := fold_left (fun d x => acc_set (cat x) (cr x) d) l d in
  (forall c, get (dict_get String.eqb c d') 0%Z =
             (get (dict_get String.eqb c d) 0 +
              fold_right Z.add 0 (map cr (filter (fun x => String.eqb (cat x) c) l)))%Z /\
             (dict_get String.eqb c d' = None <->
              dict_get String.eqb c d = None /\ forall x, In x l -> cat x <> c)) /\
  fold_right Z.add 0%Z (map snd d') =
    (fold_right Z.add 0%Z (map snd d) + fold_right Z.add 0%Z (map cr l))%Z /\
  (NoDup (map fst d) -> NoDup (map fst d')).
Proof.
  intros A cat cr l. induction l as [|x l IH]; intros d d'; simpl in d'.
  - subst d'. simpl. split; [|split; [lia | tauto]].
    intro c. split; [lia|]. split; [intro H; split; [exact H | intros _ []] | tauto].
  - destruct (IH (acc_set (cat x) (cr x) d)) as (H1 & H2 & H3). fold d' in H1, H2, H3.
    split; [|split].
    + intro c. destruct (H1 c) as [Ha Hb]. rewrite acc_set_get in Ha, Hb. simpl.
      destruct (String.eqb (cat x) c) eqn:E; simpl.
      * split; [simpl in Ha; lia|]. split; [intro H; apply Hb in H as [H _]; discriminate|].
        intros [_ H]. exfalso. apply (H x); [left; reflexivity | apply String.eqb_eq, E].
      * split; [exact Ha|]. rewrite Hb. split.
        -- intros [H H']. split; [exact H|]. intros y [<-|Hy]; [|apply H', Hy].
           intro Hc. apply String.eqb_eq in Hc. congruence.
        -- intros [H H']. split; [exact H|]. intros y Hy. apply H'. right; exact Hy.
    + rewrite H2, acc_set_sum. simpl. lia.
    + intro Hn. apply H3. apply (dict_set_nodup String.eqb String.eqb_eq), Hn.
Qed.

Lemma fold_left_add : forall {A} (cr : A -> Z) l t,
  fold_left (fun t x => (t + cr x)%Z) l t = (t + fold_right Z.add 0%Z (map cr l))%Z.
Proof.
  intros A cr l. induction l as [|x l IH]; intro t; simpl; [lia|]. rewrite IH. lia.
Qed.

Lemma compliance_fold : forall l d t,
  fold_left compliance_step l (d, t) =
  (fold_left (fun d x => acc_set (get (sj_nep_category x) "MAJOR") (get (sj_credits x) 0%Z) d) l d,
   (t + fold_right Z.add 0%Z (map (fun x => get (sj_credits x) 0%Z) l))%Z).
Proof.
  induction l as [|x l IH]; intros d t; simpl; [f_equal; lia|].
  rewrite IH. f_equal. lia.
Qed.



Lemma course_keys_ok : forall courses keyed,
  course_keys courses = Ok keyed ->
  map snd keyed = courses /\
  forall i x, In (i, x) keyed -> index_of (get (nc_nep_category x) "MAJOR") priority_order = Some i.
Proof.
  induction courses as [|x cs IH]; intros keyed H; cbn [course_keys] in H.
  - inversion H; subst. split; [reflexivity | intros i x []].
  - destruct (index_of (get (nc_nep_category x) "MAJOR") priority_order) eqn:E; [|discriminate].
    destruct (course_keys cs) as [l|e] eqn:Ek; [|discriminate]. inversion H; subst.
    destruct (IH l eq_refl) as [H1 H2]. simpl. split; [rewrite H1; reflexivity|].
    intros i y [Hy|Hy]; [inversion Hy; subst; exact E | apply H2, Hy].
Qed.

Lemma insert_by_sorted : forall {A} (key : A -> nat) x l,
  StronglySorted (fun a b => key a <= key b) l ->
  StronglySorted (fun a b => key a <= key b) (insert_by (fun a b => Nat.leb (key a) (key b)) x l).
Proof.
  intros A key x l. induction l as [|y l IH]; intro H; simpl.
  - repeat constructor.
  - inversion H as [|? ? Hl Hf]; subst.
    destruct (Nat.leb (key x) (key y)) eqn:E.
    + apply Nat.leb_le in E. constructor; [exact H|]. constructor; [exact E|].
      eapply Forall_impl; [|exact Hf]. intros a Ha; simpl in Ha; lia.
    + apply Nat.leb_gt in E. constructor; [apply IH, Hl|].
      apply (Permutation_Forall (Permutation_sym (insert_by_perm _ x l))).
      constructor; [simpl; lia | exact Hf].
Qed.

Lemma sort_by_sorted : forall {A} (key : A -> nat) l,
  StronglySorted (fun a b => key a <= key b) (sort_by (fun a b => Nat.leb (key a) (key b)) l).
Proof.
  intros A key l. induction l as [|x l IH]; simpl; [constructor|]. apply insert_by_sorted, IH.
Qed.

Lemma balanced_entries_spec : forall sorted teachers classrooms slots i es,
  balanced_entries sorted teachers classrooms i slots = Ok es ->
  map ne_course es = firstn (List.length slots) (skipn i sorted) /\
  map ne_time_slot es = map entry_time (firstn (List.length sorted - i) slots) /\
  forall e, In e es ->
    assign_teacher (ne_course e) teachers = Ok (ne_teacher e) /\
    ne_classroom e = assign_classroom (ne_course e) classrooms /\
    ne_nep_category e = get (nc_nep_category (ne_course e)) "MAJOR" /\
    ne_is_skill_based e = get (nc_is_skill_based (ne_course e)) false.
Proof.
  intros sorted teachers classrooms slots. induction slots as [|slot slots IH]; intros i es H.
  - cbn [balanced_entries] in H. injection H as <-. simpl. rewrite firstn_nil.
    split; [reflexivity|]. split; [reflexivity | intros e []].
  - cbn [balanced_entries] in H.
    destruct (balanced_entries sorted teachers classrooms (S i) slots) as [rest|err] eqn:Er;
      [|destruct (if Nat.ltb i _ then _ else _) as [|]; discriminate].
    destruct (IH (S i) rest Er) as (H1 & H2 & H3).
    destruct (Nat.ltb i (List.length sorted)) eqn:E.
    + apply Nat.ltb_lt in E. rewrite Nat.mod_small in H by exact E.
      destruct (nth_error sorted i) as [x|] eqn:Ex; [|apply nth_error_None in Ex; lia].
      destruct (assign_teacher x teachers) as [t|err] eqn:Et; [|discriminate].
      injection H as <-.
      assert (skipn i sorted = x :: skipn (S i) sorted) as Hs.
      { clear -Ex. revert i Ex. induction sorted as [|y l IH]; intros [|i] Ex; simpl in *;
          try discriminate; [inversion Ex; reflexivity | apply IH, Ex]. }
      replace (List.length sorted - i) with (S (List.length sorted - S i)) by lia.
      simpl. rewrite Hs, H1, H2. simpl. split; [reflexivity|]. split; [reflexivity|].
      intros e [<-|He]; [simpl; repeat split; exact Et | apply H3, He].
    + apply Nat.ltb_ge in E. injection H as <-. simpl.
      rewrite (skipn_all2 sorted E).
      replace (List.length sorted - i) with 0 by lia.
      rewrite H1, H2, (skipn_all2 sorted (le_S _ _ E)), firstn_nil.
      replace (List.length sorted - S i) with 0 by lia. simpl.
      split; [reflexivity|]. split; [reflexivity | exact H3].
Qed.

Lemma ofind_ok : forall {A} (p : A -> outcome bool) l,
  (forall x, In x l -> exists b, p x = Ok b) -> exists r, ofind p l = Ok r.
Proof.
  intros A p l. induction l as [|x l IH]; intro H; simpl; [eexists; reflexivity|].
  destruct (H x (or_introl eq_refl)) as [[|] Hb]; rewrite Hb; [eexists; reflexivity|].
  apply IH. intros y Hy. apply H. right. exact Hy.
Qed.

Lemma ofind_in : forall {A} (p : A -> outcome bool) l x, ofind p l = Ok (Some x) -> In x l.
Proof.
  intros A p l x. induction l as [|y l IH]; simpl; [discriminate|].
  destruct (p y) as [[|]|e]; [intro H; injection H as <-; left; reflexivity | intro H; right; apply IH, H | discriminate].
Qed.

Lemma ofind_none : forall {A} (p : A -> outcome bool) l, ofind p l = Ok None -> l = [] \/ exists x, In x l.
Proof. intros A p [|x l] _; [left; reflexivity | right; exists x; left; reflexivity]. Qed.


Lemma omapM_nth : forall {A B} (f : A -> outcome B) l r,
  omapM f l = Ok r ->
  List.length r = List.length l /\
  forall d y, nth_error r d = Some y -> exists x, nth_error l d = Some x /\ f x = Ok y.
Proof.
  intros A B f l. induction l as [|x l IH]; intros r H; simpl in H.
  - injection H as <-. split; [reflexivity | intros [|d] y Hd; discriminate].
  - destruct (f x) as [y|e] eqn:Ex; [|discriminate].
    destruct (omapM f l) as [ys|e] eqn:El; [|discriminate]. injection H as <-.
    destruct (IH ys eq_refl) as [Hl Hn]. simpl. split; [rewrite Hl; reflexivity|].
    intros [|d] z Hd; simpl in Hd.
    + injection Hd as <-. exists x. split; [reflexivity | exact Ex].
    + exact (Hn d z Hd).
Qed.

Lemma omapM_fst : forall {A B C} (f : A -> outcome (B * C)) (g : A -> B) l r,
  (forall x y, f x = Ok y -> fst y = g x) -> omapM f l = Ok r -> map fst r = map g l.
Proof.
  intros A B C f g l. induction l as [|x l IH]; intros r Hf H; simpl in H.
  - injection H as <-. reflexivity.
  - destruct (f x) as [y|e] eqn:Ex; [|discriminate].
    destruct (omapM f l) as [ys|e] eqn:El; [|discriminate]. injection H as <-.
    simpl. rewrite (Hf x y Ex), (IH ys Hf eq_refl). reflexivity.
Qed.

Lemma assign_teacher_test_ok : forall course t,
  nt_department t <> Null -> nt_specialization t <> Null -> exists b, assign_teacher_test course t = Ok b.
Proof.
  intros course [[| |d] [| |sp]] H1 H2; simpl in H1, H2; try congruence;
    unfold assign_teacher_test; simpl;
    try (destruct (contains _ _); eexists; reflexivity).
Qed.









Lemma strongly_sorted_map : forall {A B} (R : A -> A -> Prop) (R' : B -> B -> Prop) (f : A -> B) l,
  StronglySorted R l -> (forall a b, In a l -> In b l -> R a b -> R' (f a) (f b)) ->
  StronglySorted R' (map f l).
Proof.
  intros A B R R' f l. induction l as [|x l IH]; intros H Hf; simpl; [constructor|].
  inversion H as [|? ? Hl Hx]; subst. constructor.
  - apply IH; [exact Hl|]. intros a b Ha Hb. apply Hf; right; assumption.
  - apply Forall_forall. intros y Hy. apply in_map_iff in Hy as [b [<- Hb]].
    apply Hf; [left; reflexivity | right; exact Hb |]. rewrite Forall_forall in Hx. apply Hx, Hb.
Qed.

Lemma nth_error_seq_some : forall n s d k, nth_error (seq s n) d = Some k -> k = s + d.
Proof.
  induction n as [|n IH]; intros s [|d] k H; simpl in H; try discriminate.
  - inversion H; lia.
  - apply IH in H. lia.
Qed.

Lemma existsb_some : forall {A} (f : A -> option bool) l,
  existsb (fun x => get (f x) false) l = true <-> exists x, In x l /\ f x = Some true.
Proof.
  intros A f l. rewrite existsb_exists. split; intros [x [Hx H]]; exists x; split; try exact Hx.
  - destruct (f x) as [[]|]; simpl in H; congruence.
  - rewrite H. reflexivity.
Qed.

Lemma credit_distribution_fold : forall rows,
  calculate_credit_distribution rows =
  fold_left (fun d x => acc_set (get (nc_nep_category x) "MAJOR") (get (nc_credits x) 0%Z) d) rows [].
Proof. reflexivity. Qed.
Lemma total_credits_eq : forall rows semester,
  ck_total_credits (check_nep_compliance rows semester) =
  fold_right Z.add 0%Z (map (fun s => get (nc_credits s) 0%Z) rows).
Proof.
  intros rows semester. simpl. rewrite (fold_left_add (fun s => get (nc_credits s) 0%Z)). lia.
Qed.

Lemma mdc_exists : forall rows,
  existsb (fun s => match nc_nep_category s with Some c => String.eqb c "MDC" | None => false end) rows = true
  <-> exists s, In s rows /\ nc_nep_category s = Some "MDC".
Proof.
  intro rows. rewrite existsb_exists. split; intros [s [Hs H]]; exists s; split; try exact Hs.
  - destruct (nc_nep_category s) as [c|]; [apply String.eqb_eq in H; congruence | discriminate].
  - rewrite H. reflexivity.
Qed.

Lemma contains_empty : forall s, contains "" s = true.
Proof. intros [|c s]; reflexivity. Qed.

Lemma find_hd_none : forall {A} (f : A -> bool) l,
  match find f l with Some t => Some t | None => hd_error l end = None <-> l = [].
Proof.
  intros A f [|x l]; simpl; [tauto|].
  destruct (f x); [split; discriminate|].
  destruct (find f l); split; discriminate.
Qed.

Lemma find_hd_in : forall {A} (f : A -> bool) l t,
  match find f l with Some t => Some t | None => hd_error l end = Some t -> In t l.
Proof.
  intros A f l t H. destruct (find f l) eqn:E.
  - inversion H; subst. apply (find_some _ _ E).
  - destruct l; simpl in H; [discriminate|]. inversion H; left; reflexivity.
Qed.

Lemma room_type_is_spec : forall c ty, room_type_is c ty = true <-> nr_room_type c = Some ty.
Proof.
  intros c ty. unfold room_type_is. destruct (nr_room_type c) as [t|]; [|split; discriminate].
  rewrite String.eqb_eq. split; congruence.
Qed.

Lemma find_exists : forall {A} (f : A -> bool) l,
  (exists x, In x l /\ f x = true) -> exists x, find f l = Some x /\ f x = true.
Proof.
  intros A f l [x [Hx Hf]]. destruct (find f l) eqn:E.
  - exists a. split; [reflexivity | apply (find_some _ _ E)].
  - rewrite (find_none _ _ E x Hx) in Hf. discriminate.
Qed.

Lemma compliance_fold_pair : forall subjects,
  fold_left compliance_step subjects ([], 0%Z) =
  (fold_left (fun d x => acc_set (get (sj_nep_category x) "MAJOR") (get (sj_credits x) 0%Z) d) subjects [],
   fold_right Z.add 0%Z (map (fun x => get (sj_credits x) 0%Z) subjects)).
Proof. intro subjects. rewrite compliance_fold. reflexivity. Qed.

(** Each list of variables gathered by [_add_course_hours_constraint] is
    nonempty and holds only variables of its own course. *)
Lemma course_hours_vars : forall L l d,
  (forall x, In x l -> In x L) ->
  (forall cid vs req, In (cid, (vs, req)) d ->
     vs <> [] /\ forall v, In v vs -> exists x, In x L /\ sd_course_id x = cid /\ sd_var x = v) ->
  forall cid vs req, In (cid, (vs, req)) (fold_left course_hours_step l d) ->
     vs <> [] /\ forall v, In v vs -> exists x, In x L /\ sd_course_id x = cid /\ sd_var x = v.
Proof.
  intros L l. induction l as [|x l IH]; intros d HL Hd; simpl; [exact Hd|].
  apply IH; [intros y Hy; apply HL; right; exact Hy|].
  intros cid vs req Hin. unfold course_hours_step in Hin.
  apply (in_dict_set_key Nat.eqb nat_eqb_spec') in Hin as [Hin|[-> Hv]]; [exact (Hd _ _ _ Hin)|].
  assert (HxL : In x L) by (apply HL; left; reflexivity).
  destruct (dict_get Nat.eqb (sd_course_id x) d) as [[vs0 r0]|] eqn:E; injection Hv as Hvs _; subst vs.
  - apply (dict_get_in Nat.eqb nat_eqb_spec') in E. destruct (Hd _ _ _ E) as [_ H0].
    split; [intro H; apply (f_equal (@List.length nat)) in H; rewrite length_app in H; simpl in H; lia|].
    intros v Hv. apply in_app_or in Hv as [Hv|[<-|[]]]; [exact (H0 v Hv)|].
    exists x. split; [exact HxL | split; reflexivity].
  - split; [discriminate|]. intros v [<-|[]]. exists x. split; [exact HxL | split; reflexivity].
Qed.

Lemma coverage_constraints_in : forall (l : list (nat * (list nat * nat))) m con,
  In con (m_constraints (fold_left (fun m '(_, (vs, req)) =>
                           if Nat.ltb 0 req then model_add m (LinEq vs req) else m) l m)) ->
  In con (m_constraints m) \/
  exists cid vs req, In (cid, (vs, req)) l /\ con = LinEq vs req /\ 0 < req.
Proof.
  induction l as [|[cid [vs req]] l IH]; intros m con H; simpl in H; [left; exact H|].
  apply IH in H as [H|(c0 & v0 & r0 & Hin & Hc & Hr)].
  - destruct (Nat.ltb 0 req) eqn:E; [|left; exact H].
    rewrite model_add_constraints in H. apply in_app_or in H as [H|[<-|[]]]; [left; exact H|].
    right. exists cid, vs, req. split; [left; reflexivity|]. split; [reflexivity | apply Nat.ltb_lt, E].
  - right. exists c0, v0, r0. split; [right; exact Hin | split; assumption].
Qed.

(** Every constraint of the coverage stage is [sum(vs) == req] with [req > 0]
    over a nonempty [vs] of variables of one course. *)
Lemma coverage_constraint_shape : forall sched con,
  In con (m_constraints (add_course_hours_constraint sched empty_model)) ->
  exists cid vs req, con = LinEq vs req /\ 0 < req /\ vs <> [] /\
    forall v, In v vs -> exists k x, In (k, x) sched /\ sd_course_id x = cid /\ sd_var x = v.
Proof.
  intros sched con H. unfold add_course_hours_constraint in H.
  apply coverage_constraints_in in H as [[]|(cid & vs & req & Hin & -> & Hr)].
  destruct (course_hours_vars (map snd sched) (map snd sched) [] (fun x H => H)
              (fun _ _ _ H => match H with end) cid vs req Hin) as [Hne Hv].
  exists cid, vs, req. split; [reflexivity|]. split; [exact Hr|]. split; [exact Hne|].
  intros v Hin'. destruct (Hv v Hin') as (x & Hx & Hid & Hvar).
  apply in_map_iff in Hx as [[k x'] [Ex Hx]]. simpl in Ex. subst x'.
  exists k, x. split; [exact Hx | split; assumption].
Qed.

(** ** Claims *)

(** C1: in every solution returned by [generate] with constraints enforced,
    no two distinct entries share both faculty and time slot, and no two
    distinct entries share both room and time slot. *)
Theorem generate_no_double_booking : forall solver sem yr pids s r s' sol,
  solver_sound solver ->
  generate solver sem yr pids true s = (Ok r, s') ->
  g_solution r = Some sol ->
  forall i j e1 e2, i <> j -> nth_error sol i = Some e1 -> nth_error sol j = Some e2 ->
    ~ (en_faculty_id e1 = en_faculty_id e2 /\ en_time_slot_id e1 = en_time_slot_id e2) /\
    ~ (en_room_id e1 = en_room_id e2 /\ en_time_slot_id e1 = en_time_slot_id e2).
Proof.
  intros solver sem yr pids s r s' sol Hsound Hgen Hsol i j e1 e2 Hij Hi Hj.
  destruct (generate_solution_inv _ _ _ _ _ _ _ _ _ Hgen Hsol)
    as (p & s1 & sched & m & s2 & vals & _ & _ & _ & _ & Hv & Hsol' & _).
  pose proof (Hsound _ _ _ Hv) as Hsat.
  split; intros [Hk Ht].
  - set (k := (en_faculty_id e1, en_time_slot_id e1)).
    assert (2 <= List.length (filter (fun e => pair_eqb (en_faculty_id e, en_time_slot_id e) k) sol))
      as H2.
    { apply (two_positions_count _ sol i j e1 e2 Hij Hi Hj);
        apply pair_eqb_spec; unfold k; [reflexivity | rewrite Hk, Ht; reflexivity]. }
    rewrite Hsol', count_extract in H2. simpl in H2.
    pose proof (pair_group_bound vals (fun x => (sd_faculty_id x, sd_slot_id x)) (map snd sched) k
                  (faculty_slots sched) eq_refl) as Hb.
    assert (sum_vars vals (map sd_var (filter (fun x => pair_eqb (sd_faculty_id x, sd_slot_id x) k)
              (map snd sched))) <= 1) as Hle.
    { apply Hb. intros c Hc. apply (satisfies_stage vals p sched m c Hsat).
      apply in_app_iff; right; apply in_app_iff; left. exact Hc. }
    lia.
  - set (k := (en_room_id e1, en_time_slot_id e1)).
    assert (2 <= List.length (filter (fun e => pair_eqb (en_room_id e, en_time_slot_id e) k) sol))
      as H2.
    { apply (two_positions_count _ sol i j e1 e2 Hij Hi Hj);
        apply pair_eqb_spec; unfold k; [reflexivity | rewrite Hk, Ht; reflexivity]. }
    rewrite Hsol', count_extract in H2. simpl in H2.
    pose proof (pair_group_bound vals (fun x => (sd_room_id x, sd_slot_id x)) (map snd sched) k
                  (room_slots sched) eq_refl) as Hb.
    assert (sum_vars vals (map sd_var (filter (fun x => pair_eqb (sd_room_id x, sd_slot_id x) k)
              (map snd sched))) <= 1) as Hle.
    { apply Hb. intros c Hc. apply (satisfies_stage vals p sched m c Hsat).
      apply in_app_iff; right; apply in_app_iff; right; apply in_app_iff; left. exact Hc. }
    lia.
Qed.

Lemma generate_no_double_booking_witness :
  exists r s' sol,
    generate brute_solver "S1" "2025" [7] true db_A = (Ok r, s') /\
    g_solution r = Some sol /\ List.length sol = 2 /\
    forall i j e1 e2, i <> j -> nth_error sol i = Some e1 -> nth_error sol j = Some e2 ->
      ~ (en_faculty_id e1 = en_faculty_id e2 /\ en_time_slot_id e1 = en_time_slot_id e2) /\
      ~ (en_room_id e1 = en_room_id e2 /\ en_time_slot_id e1 = en_time_slot_id e2).
Proof.
  do 3 eexists. split; [cbv; reflexivity|]. split; [reflexivity|]. split; [reflexivity|].
  eapply (generate_no_double_booking brute_solver "S1" "2025" [7] db_A);
    [exact brute_solver_sound | vm_compute; reflexivity | reflexivity].
Defined.

(** C7: a variable is created for (course, room, slot) only if the room
    holds the course's enrollment count (30 when the course has no
    enrollment rows), a Practical slot gets a Lab room and a Theory slot a
    non-Lab room; so no returned entry puts a Practical slot in a non-Lab
    room or a Theory slot in a Lab room. *)
Theorem room_suitability_prefilter :
  (forall p m0 s sched m s',
     create_variables p m0 s = (Ok (sched, m), s') ->
     forall k x, In (k, x) sched ->
       student_count_of (enrollments_of (c_id (sd_course x)) s) <= r_capacity (sd_room x) /\
       (s_slot_type (sd_slot x) = "Practical" -> r_room_type (sd_room x) = "Lab") /\
       (s_slot_type (sd_slot x) = "Theory" -> r_room_type (sd_room x) <> "Lab")) /\
  (forall solver sem yr pids respect s r s' sol,
     generate solver sem yr pids respect s = (Ok r, s') -> g_solution r = Some sol ->
     forall e, In e sol ->
       student_count_of (enrollments_of (en_course_id e) s) <= r_capacity (en_room e) /\
       (s_slot_type (en_slot e) = "Practical" -> r_room_type (en_room e) = "Lab") /\
       (s_slot_type (en_slot e) = "Theory" -> r_room_type (en_room e) <> "Lab")).
Proof.
  split.
  - intros p m0 s sched m s' Hrun k x Hin.
    destruct (create_variables_ok p s m0 s sched m s' eq_refl Hrun) as [_ Hok].
    destruct (Hok k x Hin) as (_ & _ & _ & _ & _ & Hcap & Hty).
    split; [exact Hcap | apply room_type_ok_spec, Hty].
  - intros solver sem yr pids respect s r s' sol Hgen Hsol e He.
    destruct (generate_entries_ok _ _ _ _ _ _ _ _ _ Hgen Hsol e He)
      as (_ & Hid & _ & _ & _ & Hcap & Hty).
    rewrite Hid. split; [exact Hcap | apply room_type_ok_spec, Hty].
Qed.


Lemma room_suitability_prefilter_witness :
  exists r s' sol,
    generate brute_solver "S1" "2025" [8] true db_B = (Ok r, s') /\
    g_solution r = Some sol /\ List.length sol = 2 /\
    forall e, In e sol ->
      student_count_of (enrollments_of (en_course_id e) db_B) <= r_capacity (en_room e) /\
      (s_slot_type (en_slot e) = "Practical" -> r_room_type (en_room e) = "Lab") /\
      (s_slot_type (en_slot e) = "Theory" -> r_room_type (en_room e) <> "Lab").
Proof.
  do 3 eexists. split; [cbv; reflexivity|]. split; [reflexivity|]. split; [reflexivity|].
  eapply (proj2 room_suitability_prefilter brute_solver "S1" "2025" [8] true db_B);
    [vm_compute; reflexivity | reflexivity].
Defined.

(** C8: a course with zero total hours gets no decision variable and never
    appears in a returned solution (neither as record nor, course ids
    being unique, by id). *)
Theorem zero_hour_course_unscheduled : forall c,
  total_hours c = 0 ->
  (forall p m0 s sched m s',
     create_variables p m0 s = (Ok (sched, m), s') ->
     forall k x, In (k, x) sched -> sd_course x <> c) /\
  (forall solver sem yr pids respect s r s' sol,
     generate solver sem yr pids respect s = (Ok r, s') -> g_solution r = Some sol ->
     forall e, In e sol ->
       en_course e <> c /\
       (In c (st_courses s) ->
        (forall c1 c2, In c1 (st_courses s) -> In c2 (st_courses s) -> c_id c1 = c_id c2 -> c1 = c2) ->
        en_course_id e <> c_id c)).
Proof.
  intros c Hc. split.
  - intros p m0 s sched m s' Hrun k x Hin Heq.
    destruct (create_variables_ok p s m0 s sched m s' eq_refl Hrun) as [_ Hok].
    destruct (Hok k x Hin) as (_ & _ & Ht & _). subst c. contradiction.
  - intros solver sem yr pids respect s r s' sol Hgen Hsol e He.
    destruct (generate_entries_ok _ _ _ _ _ _ _ _ _ Hgen Hsol e He)
      as (Hin & Hid & Ht & _).
    split.
    + intro Heq. subst c. contradiction.
    + intros Hcin Huniq Heq. rewrite Hid in Heq.
      pose proof (Huniq _ _ Hin Hcin Heq) as E. rewrite E in Ht. contradiction.
Qed.

Lemma zero_hour_course_unscheduled_witness :
  exists r s' sol,
    generate brute_solver "S1" "2025" [9] true db_C = (Ok r, s') /\
    g_solution r = Some sol /\ List.length sol = 1 /\
    forall e, In e sol ->
      en_course e <> mkCourse 4 9 0 0 0 /\
      (In (mkCourse 4 9 0 0 0) (st_courses db_C) ->
       (forall c1 c2, In c1 (st_courses db_C) -> In c2 (st_courses db_C) -> c_id c1 = c_id c2 -> c1 = c2) ->
       en_course_id e <> 4).
Proof.
  do 3 eexists. split; [cbv; reflexivity|]. split; [reflexivity|]. split; [reflexivity|].
  eapply (proj2 (zero_hour_course_unscheduled (mkCourse 4 9 0 0 0) eq_refl)
            brute_solver "S1" "2025" [9] true db_C);
    [vm_compute; reflexivity | reflexivity].
Defined.

(** C2 (as the code has it): with constraints enforced, a course of the
    loaded problem with [required_sessions = total_hours // 15 > 0] has
    exactly [required_sessions] entries in a returned solution when at
    least one decision variable was created for it; a course for which no
    variable was created (no linked faculty or no suitable room-slot pair)
    has no entry at all and no coverage constraint: every constraint that
    [_add_course_hours_constraint] adds is [sum(vs) == req] with [req > 0]
    over a nonempty [vs] of variables of other courses. *)
Theorem generate_course_coverage : forall solver sem yr pids s r s' sol,
  solver_sound solver ->
  (forall c1 c2, In c1 (st_courses s) -> In c2 (st_courses s) -> c_id c1 = c_id c2 -> c1 = c2) ->
  generate solver sem yr pids true s = (Ok r, s') ->
  g_solution r = Some sol ->
  exists p s1 sched m s2,
    load_data sem yr pids s = (Ok p, s1) /\
    create_variables p empty_model s1 = (Ok (sched, m), s2) /\
    forall c, In c (p_courses p) -> 0 < total_hours c / 15 ->
      ((exists k x, In (k, x) sched /\ sd_course_id x = c_id c) ->
         List.length (filter (fun e => Nat.eqb (en_course_id e) (c_id c)) sol) = total_hours c / 15) /\
      (~ (exists k x, In (k, x) sched /\ sd_course_id x = c_id c) ->
         List.length (filter (fun e => Nat.eqb (en_course_id e) (c_id c)) sol) = 0 /\
         forall con, In con (m_constraints (add_course_hours_constraint sched empty_model)) ->
           exists vs req, con = LinEq vs req /\ 0 < req /\ vs <> [] /\
             forall v, In v vs -> exists k x, In (k, x) sched /\ sd_var x = v /\ sd_course_id x <> c_id c).
Proof.
  intros solver sem yr pids s r s' sol Hsound Huniq Hgen Hsol.
  destruct (generate_solution_inv _ _ _ _ _ _ _ _ _ Hgen Hsol)
    as (p & s1 & sched & m & s2 & vals & El & Hcs & Ec & Hok & Hv & Hsol' & _).
  exists p, s1, sched, m, s2. split; [exact El|]. split; [exact Ec|].
  pose proof (Hsound _ _ _ Hv) as Hsat.
  intros c Hc Hreq. subst sol. rewrite count_extract. simpl. split.
  - intros (k0 & x0 & Hin0 & Hx0).
    assert (Hsame : forall x, In x (map snd sched) -> sd_course_id x = c_id c -> sd_course x = c).
    { intros x Hx Hid. apply in_map_iff in Hx as [[k x'] [Ex Hx]]. simpl in Ex. subst x'.
      destruct (Hok k x Hx) as (Hxc & Hxid & _).
      apply Huniq; [apply Hcs, Hxc | apply Hcs, Hc | congruence]. }
    pose proof (course_hours_fold (c_id c) c (map snd sched) [] Hsame) as Hget.
    change (fold_left course_hours_step (map snd sched) []) with (course_hours sched) in Hget.
    cbn [dict_get] in Hget.
    destruct (filter (fun x => Nat.eqb (sd_course_id x) (c_id c)) (map snd sched)) as [|y ys] eqn:Ef.
    + exfalso. assert (In x0 (filter (fun x => Nat.eqb (sd_course_id x) (c_id c)) (map snd sched)))
        as Hx by (apply filter_In; split; [apply in_map_iff; exists (k0, x0); split; [reflexivity|exact Hin0]
                                          | apply Nat.eqb_eq; exact Hx0]).
      rewrite Ef in Hx. destruct Hx.
    + cbn beta iota in Hget. apply (dict_get_in Nat.eqb nat_eqb_spec') in Hget.
      assert (holds vals (LinEq (map sd_var (y :: ys)) (total_hours c / 15)) = true) as Hh.
      { apply (satisfies_stage vals p sched m _ Hsat). apply in_app_iff; left.
        unfold add_course_hours_constraint.
        eapply in_fold_flat; [solve_appends | exact Hget |].
        cbn beta iota. destruct (Nat.ltb 0 (total_hours c / 15)) eqn:Hlt;
          [left; reflexivity | apply Nat.ltb_ge in Hlt; lia]. }
      simpl in Hh. apply Nat.eqb_eq in Hh. exact Hh.
  - intros Hnone. split.
    2:{ intros con Hcon.
        destruct (coverage_constraint_shape sched con Hcon) as (cid & vs & req & Hcq & Hrq & Hne & Hvs).
        exists vs, req. split; [exact Hcq|]. split; [exact Hrq|]. split; [exact Hne|].
        intros v Hin. destruct (Hvs v Hin) as (k & x & Hx & Hid & Hvar).
        exists k, x. split; [exact Hx|]. split; [exact Hvar|].
        intro Heq. apply Hnone. exists k, x. split; [exact Hx | exact Heq]. }
    destruct (filter (fun x => Nat.eqb (sd_course_id x) (c_id c)) (map snd sched)) as [|y ys] eqn:Ef;
      [reflexivity|].
    exfalso. apply Hnone.
    assert (In y (filter (fun x => Nat.eqb (sd_course_id x) (c_id c)) (map snd sched))) as Hy
      by (rewrite Ef; left; reflexivity).
    apply filter_In in Hy as [Hy Hid]. apply in_map_iff in Hy as [[k x] [Ex Hx]].
    simpl in Ex. subst x. exists k, y. split; [exact Hx | apply Nat.eqb_eq, Hid].
Qed.

Lemma db_D_unique_ids : forall c1 c2,
  In c1 (st_courses db_D) -> In c2 (st_courses db_D) -> c_id c1 = c_id c2 -> c1 = c2.
Proof.
  intros c1 c2 H1 H2 Hid. simpl in H1, H2.
  destruct H1 as [<-|[<-|[]]]; destruct H2 as [<-|[<-|[]]]; simpl in Hid;
    first [reflexivity | discriminate].
Qed.

Lemma generate_course_coverage_witness :
  exists r s' sol,
    generate brute_solver "S1" "2025" [7] true db_D = (Ok r, s') /\
    g_solution r = Some sol /\ List.length sol = 1 /\
    exists p s1 sched m s2,
      load_data "S1" "2025" [7] db_D = (Ok p, s1) /\
      create_variables p empty_model s1 = (Ok (sched, m), s2) /\
      forall c, In c (p_courses p) -> 0 < total_hours c / 15 ->
        ((exists k x, In (k, x) sched /\ sd_course_id x = c_id c) ->
           List.length (filter (fun e => Nat.eqb (en_course_id e) (c_id c)) sol) = total_hours c / 15) /\
        (~ (exists k x, In (k, x) sched /\ sd_course_id x = c_id c) ->
           List.length (filter (fun e => Nat.eqb (en_course_id e) (c_id c)) sol) = 0 /\
           forall con, In con (m_constraints (add_course_hours_constraint sched empty_model)) ->
             exists vs req, con = LinEq vs req /\ 0 < req /\ vs <> [] /\
               forall v, In v vs -> exists k x, In (k, x) sched /\ sd_var x = v /\ sd_course_id x <> c_id c).
Proof.
  do 3 eexists. split; [cbv; reflexivity|]. split; [reflexivity|]. split; [reflexivity|].
  eapply (generate_course_coverage brute_solver "S1" "2025" [7] db_D);
    [exact brute_solver_sound | exact db_D_unique_ids | vm_compute; reflexivity | reflexivity].
Defined.

(** C2 as stated fails: course 2 needs one session a week but has no
    faculty link, so no variable is created for it; the returned solution
    schedules course 1 and has no entry for course 2. *)
Lemma generate_course_coverage_counterexample :
  solver_sound brute_solver /\
  exists r s' sol,
    generate brute_solver "S1" "2025" [7] true db_D = (Ok r, s') /\
    g_solution r = Some sol /\
    In (mkCourse 2 7 15 0 0) (st_courses db_D) /\
    total_hours (mkCourse 2 7 15 0 0) / 15 = 1 /\
    List.length (filter (fun e => Nat.eqb (en_course_id e) 2) sol) = 0.
Proof.
  split; [exact brute_solver_sound|].
  do 3 eexists. split; [cbv; reflexivity|]. split; [reflexivity|].
  split; [right; left; reflexivity|]. split; reflexivity.
Qed.

(** C6: with constraints enforced, for every (course, day) the candidates
    of that course on that day, sorted by slot start time (one candidate
    per created (slot, room, faculty) variable), get a constraint
    [sum <= 2] on every window of three consecutive ones, which the
    returned assignment meets; and no returned solution has three entries
    of one course on one day, so never three consecutive same-day slots. *)
Theorem consecutive_session_cap : forall solver sem yr pids s r s' sol,
  solver_sound solver ->
  generate solver sem yr pids true s = (Ok r, s') ->
  g_solution r = Some sol ->
  exists p s1 sched m s2 vals,
    load_data sem yr pids s = (Ok p, s1) /\
    create_variables p empty_model s1 = (Ok (sched, m), s2) /\
    sol = extract_solution sem yr sched vals /\
    (forall cid d w,
       In w (windows3 (map snd (sort_by_start
               (map (fun x => (s_start_time (sd_slot x), sd_var x))
                  (filter (fun x => Nat.eqb (sd_course_id x) cid &&
                                    Nat.eqb (s_day_of_week (sd_slot x)) d)
                     (map snd sched)))))) ->
       In (LinLe w 2) (m_constraints (add_constraints p sched m)) /\ sum_vars vals w <= 2) /\
    (forall i j k e1 e2 e3,
       i <> j -> i <> k -> j <> k ->
       nth_error sol i = Some e1 -> nth_error sol j = Some e2 -> nth_error sol k = Some e3 ->
       en_course_id e2 = en_course_id e1 -> en_course_id e3 = en_course_id e1 ->
       s_day_of_week (en_slot e2) = s_day_of_week (en_slot e1) ->
       s_day_of_week (en_slot e3) = s_day_of_week (en_slot e1) -> False).
Proof.
  intros solver sem yr pids s r s' sol Hsound Hgen Hsol.
  destruct (generate_solution_inv _ _ _ _ _ _ _ _ _ Hgen Hsol)
    as (p & s1 & sched & m & s2 & vals & El & _ & Ec & _ & Hv & Hsol' & _).
  pose proof (Hsound _ _ _ Hv) as Hsat.
  exists p, s1, sched, m, s2, vals. split; [exact El|]. split; [exact Ec|]. split; [exact Hsol'|].
  split.
  - intros cid d w Hw.
    assert (In (LinLe w 2) (m_constraints (add_constraints p sched m))) as Hin.
    { destruct (filter (fun x => Nat.eqb (sd_course_id x) cid &&
                                 Nat.eqb (s_day_of_week (sd_slot x)) d) (map snd sched))
        as [|x0 xs] eqn:Ef; [destruct Hw|].
      assert (In x0 (filter (fun x => Nat.eqb (sd_course_id x) cid &&
                                      Nat.eqb (s_day_of_week (sd_slot x)) d) (map snd sched)))
        as Hx0 by (rewrite Ef; left; reflexivity).
      apply filter_In in Hx0 as [Hx0 HQ]. apply andb_true_iff in HQ as [Hc Hd].
      apply Nat.eqb_eq in Hc, Hd.
      rewrite <- Ef in Hw.
      assert (In ((cid, d), map (fun x => (s_start_time (sd_slot x), sd_var x))
                 (filter (fun x => Nat.eqb (sd_course_id x) cid &&
                                   Nat.eqb (s_day_of_week (sd_slot x)) d) (map snd sched)))
                 (course_day_slots sched)) as Hg.
      { unfold course_day_slots.
        apply (group_by_in pair_eqb pair_eqb_spec
                 (fun x => (sd_course_id x, s_day_of_week (sd_slot x)))
                 (fun x => (s_start_time (sd_slot x), sd_var x)) (map snd sched) (cid, d)).
        exists x0. split; [exact Hx0|]. rewrite Hc, Hd. reflexivity. }
      rewrite add_constraints_constraints. do 6 (apply in_app_iff; right).
      unfold add_consecutive_hours_constraint.
      eapply in_fold_flat; [unfold appends; intros m0 [k0 sl];
        rewrite (fold_appends _ _ m0) by solve_appends;
        rewrite (fold_appends _ _ empty_model) by solve_appends; reflexivity
        | exact Hg |].
      cbn beta iota. eapply in_fold_flat; [solve_appends | exact Hw |].
      left; reflexivity. }
    split; [exact Hin|]. pose proof (Hsat _ Hin) as H. simpl in H. apply Nat.leb_le, H.
  - intros i j k e1 e2 e3 Hij Hik Hjk Hi Hj Hk Hc2 Hc3 Hd2 Hd3.
    set (Q := fun e => Nat.eqb (en_course_id e) (en_course_id e1) &&
                       Nat.eqb (s_day_of_week (en_slot e)) (s_day_of_week (en_slot e1))).
    assert (3 <= List.length (filter Q sol)) as H3.
    { apply (three_positions_count Q sol i j k e1 e2 e3 Hij Hik Hjk Hi Hj Hk);
        unfold Q; rewrite ?Hc2, ?Hc3, ?Hd2, ?Hd3, !Nat.eqb_refl; reflexivity. }
    rewrite Hsol', count_extract in H3. unfold Q in H3. cbn [entry_of en_course_id en_slot] in H3.
    pose proof (distribution_bound vals p sched m (en_course_id e1)
                  (s_day_of_week (en_slot e1)) Hsat). lia.
Qed.

Lemma consecutive_session_cap_witness :
  exists r s' sol,
    generate brute_solver "S1" "2025" [10] true db_E = (Ok r, s') /\
    g_solution r = Some sol /\ List.length sol = 3 /\
    exists p s1 sched m s2 vals,
      load_data "S1" "2025" [10] db_E = (Ok p, s1) /\
      create_variables p empty_model s1 = (Ok (sched, m), s2) /\
      sol = extract_solution "S1" "2025" sched vals /\
      (forall cid d w,
         In w (windows3 (map snd (sort_by_start
                 (map (fun x => (s_start_time (sd_slot x), sd_var x))
                    (filter (fun x => Nat.eqb (sd_course_id x) cid &&
                                      Nat.eqb (s_day_of_week (sd_slot x)) d)
                       (map snd sched)))))) ->
         In (LinLe w 2) (m_constraints (add_constraints p sched m)) /\ sum_vars vals w <= 2) /\
      (forall i j k e1 e2 e3,
         i <> j -> i <> k -> j <> k ->
         nth_error sol i = Some e1 -> nth_error sol j = Some e2 -> nth_error sol k = Some e3 ->
         en_course_id e2 = en_course_id e1 -> en_course_id e3 = en_course_id e1 ->
         s_day_of_week (en_slot e2) = s_day_of_week (en_slot e1) ->
         s_day_of_week (en_slot e3) = s_day_of_week (en_slot e1) -> False).
Proof.
  do 3 eexists. split; [cbv; reflexivity|]. split; [reflexivity|]. split; [reflexivity|].
  eapply (consecutive_session_cap brute_solver "S1" "2025" [10] db_E);
    [exact brute_solver_sound | vm_compute; reflexivity | reflexivity].
Defined.

(** C3 (amended): when prefiltering and the course-faculty links leave no
    decision variable, [generate] returns the generic failure
    [no_solution_result] (success false, no solution, message "Could not
    find a feasible solution"), the very value it returns when the solver
    proves the model infeasible, and publishes nothing. *)
Theorem empty_candidates_generic_failure : forall solver sem yr pids respect s p s1 m s2,
  load_data sem yr pids s = (Ok p, s1) ->
  create_variables p empty_model s1 = (Ok ([], m), s2) ->
  generate solver sem yr pids respect s = (Ok no_solution_result, s2) /\
  generate infeasible_solver sem yr pids respect s = (Ok no_solution_result, s2) /\
  st_timetable_entries s2 = st_timetable_entries s.
Proof.
  intros solver sem yr pids respect s p s1 m s2 El Ec.
  split; [|split].
  - rewrite (generate_after_create _ _ _ _ _ _ _ _ _ _ _ El Ec). unfold solve.
    destruct (solver time_limit _); reflexivity.
  - rewrite (generate_after_create _ _ _ _ _ _ _ _ _ _ _ El Ec). reflexivity.
  - exact (load_create_entries _ _ _ _ _ _ _ _ _ El Ec).
Qed.

Lemma empty_candidates_generic_failure_witness :
  exists p s1 m s2,
    load_data "S1" "2025" [11] db_F = (Ok p, s1) /\
    create_variables p empty_model s1 = (Ok ([], m), s2) /\
    (generate brute_solver "S1" "2025" [11] true db_F = (Ok no_solution_result, s2) /\
     generate infeasible_solver "S1" "2025" [11] true db_F = (Ok no_solution_result, s2) /\
     st_timetable_entries s2 = st_timetable_entries db_F).
Proof.
  do 4 eexists. split; [cbv; reflexivity|]. split; [cbv; reflexivity|].
  eapply (empty_candidates_generic_failure brute_solver "S1" "2025" [11] true db_F);
    cbv; reflexivity.
Defined.

(** C3, as stated, fails: on [db_F] no variable is created, and the result
    of [generate] is exactly the one produced on [db_A], which has
    candidates, by a solver that proves infeasibility. *)
Lemma empty_candidates_counterexample :
  (exists p s1 m s2,
     load_data "S1" "2025" [11] db_F = (Ok p, s1) /\
     create_variables p empty_model s1 = (Ok ([], m), s2)) /\
  (exists p s1 sched m s2,
     load_data "S1" "2025" [7] db_A = (Ok p, s1) /\
     create_variables p empty_model s1 = (Ok (sched, m), s2) /\ sched <> []) /\
  fst (generate brute_solver "S1" "2025" [11] true db_F) =
    fst (generate infeasible_solver "S1" "2025" [7] true db_A).
Proof.
  split; [|split].
  - do 4 eexists. split; cbv; reflexivity.
  - do 5 eexists. split; [cbv; reflexivity|]. split; [cbv; reflexivity|]. discriminate.
  - vm_compute. reflexivity.
Qed.

(** C5 (amended): when the solver's budget runs out undecided (status
    UNKNOWN), [generate] returns the same generic failure
    [no_solution_result] as when the solver proves infeasibility; the two
    cases cannot be told apart from the result, and in both no schedule is
    produced and nothing is published. *)
Theorem timeout_same_as_infeasible : forall solver sem yr pids (respect : bool) s p s1 sched m s2,
  load_data sem yr pids s = (Ok p, s1) ->
  create_variables p empty_model s1 = (Ok (sched, m), s2) ->
  (solver time_limit (if respect then add_constraints p sched m else m) = UNKNOWN \/
   solver time_limit (if respect then add_constraints p sched m else m) = INFEASIBLE) ->
  generate solver sem yr pids respect s = (Ok no_solution_result, s2) /\
  st_timetable_entries s2 = st_timetable_entries s.
Proof.
  intros solver sem yr pids respect s p s1 sched m s2 El Ec Hst.
  split; [|exact (load_create_entries _ _ _ _ _ _ _ _ _ El Ec)].
  rewrite (generate_after_create _ _ _ _ _ _ _ _ _ _ _ El Ec). unfold solve.
  destruct Hst as [H|H]; rewrite H; reflexivity.
Qed.

Lemma timeout_same_as_infeasible_witness :
  exists p s1 sched m s2,
    load_data "S1" "2025" [7] db_A = (Ok p, s1) /\
    create_variables p empty_model s1 = (Ok (sched, m), s2) /\
    (generate timeout_solver "S1" "2025" [7] true db_A = (Ok no_solution_result, s2) /\
     st_timetable_entries s2 = st_timetable_entries db_A).
Proof.
  do 5 eexists. split; [cbv; reflexivity|]. split; [cbv; reflexivity|].
  eapply (timeout_same_as_infeasible timeout_solver "S1" "2025" [7] true db_A);
    [cbv; reflexivity | cbv; reflexivity | left; reflexivity].
Defined.

(** C5, as stated, fails: the run on [db_A] whose solver times out and the
    run whose solver proves infeasibility end in the same result and the
    same database. *)
Lemma timeout_counterexample :
  generate timeout_solver "S1" "2025" [7] true db_A =
    generate infeasible_solver "S1" "2025" [7] true db_A.
Proof. vm_compute. reflexivity. Qed.

(** C4: on a database whose calls succeed, [save_to_database] for key
    (semester, academic_year) removes every stored row of that key, keeps
    the others, then appends exactly one row per solution entry, in order;
    and publishing two extracted solutions in succession for the same key
    leaves exactly as many rows of the key as the second solution has
    entries: a full replace, not a merge. *)
Theorem save_full_replace : forall sem yr s,
  (forall k, st_fail s k = false) ->
  (forall sol, exists s',
     save_to_database sem yr sol s = (Ok true, s') /\
     st_timetable_entries s' =
       filter (fun r => negb (row_has_key sem yr r)) (st_timetable_entries s) ++ map row_of sol) /\
  (forall sched1 vals1 sched2 vals2 b1 b2 s1 s2,
     save_to_database sem yr (extract_solution sem yr sched1 vals1) s = (Ok b1, s1) ->
     save_to_database sem yr (extract_solution sem yr sched2 vals2) s1 = (Ok b2, s2) ->
     List.length (filter (row_has_key sem yr) (st_timetable_entries s2)) =
       List.length (extract_solution sem yr sched2 vals2)).
Proof.
  intros sem yr s Hf. split.
  - intro sol. destruct (save_no_fault sem yr sol s Hf) as [s' [E [_ R]]].
    exists s'. split; [exact E | exact R].
  - intros sched1 vals1 sched2 vals2 b1 b2 s1 s2 E1 E2.
    destruct (save_no_fault sem yr (extract_solution sem yr sched1 vals1) s Hf)
      as [s1' [E1' [F1 _]]].
    rewrite E1' in E1. injection E1 as _ <-.
    destruct (save_no_fault sem yr (extract_solution sem yr sched2 vals2) s1')
      as [s2' [E2' [_ R2]]]; [intro k; rewrite F1; apply Hf|].
    rewrite E2' in E2. injection E2 as _ <-.
    rewrite R2, filter_app, filter_negb_nil, filter_all by apply extract_rows_keyed.
    simpl. apply length_map.
Qed.

Lemma save_full_replace_witness :
  (forall sol, exists s',
     save_to_database "S1" "2025" sol db_A = (Ok true, s') /\
     st_timetable_entries s' =
       filter (fun r => negb (row_has_key "S1" "2025" r)) (st_timetable_entries db_A) ++
       map row_of sol) /\
  (forall sched1 vals1 sched2 vals2 b1 b2 s1 s2,
     save_to_database "S1" "2025" (extract_solution "S1" "2025" sched1 vals1) db_A = (Ok b1, s1) ->
     save_to_database "S1" "2025" (extract_solution "S1" "2025" sched2 vals2) s1 = (Ok b2, s2) ->
     List.length (filter (row_has_key "S1" "2025") (st_timetable_entries s2)) =
       List.length (extract_solution "S1" "2025" sched2 vals2)).
Proof.
  apply (save_full_replace "S1" "2025" db_A). intro k. reflexivity.
Defined.

(** C10: once the solver returns a non-empty solution, [generate] reports
    success with the solution and the message "Timetable generated
    successfully", whatever happens while publishing: its result does not
    depend on the outcome of [save_to_database], which catches a failing
    delete or insert and returns [False]. *)
Theorem publish_failure_ignored : forall solver sem yr pids (respect : bool) s p s1 sched m s2 sol,
  load_data sem yr pids s = (Ok p, s1) ->
  create_variables p empty_model s1 = (Ok (sched, m), s2) ->
  solve solver sem yr sched (if respect then add_constraints p sched m else m) = Some sol ->
  sol <> [] ->
  generate solver sem yr pids respect s =
    (Ok (mkResult true (Some sol) "Timetable generated successfully"),
     snd (save_to_database sem yr sol s2)) /\
  (forall i, i <= List.length sol -> st_fail s2 (st_calls s2 + i) = true ->
     fst (save_to_database sem yr sol s2) = Ok false).
Proof.
  intros solver sem yr pids respect s p s1 sched m s2 sol El Ec Es Hne. split.
  - rewrite (generate_after_create _ _ _ _ _ _ _ _ _ _ _ El Ec), Es.
    destruct sol as [|x l]; [congruence | reflexivity].
  - intros i Hi Hf. exact (save_fail sem yr sol s2 i Hi Hf).
Qed.

(** On [db_G] the delete succeeds and the first insert fails: the key's
    stale row is gone, nothing new is stored, and [generate] still reports
    success. *)
Lemma publish_failure_ignored_witness :
  exists p s1 sched m s2 sol,
    load_data "S1" "2025" [7] db_G = (Ok p, s1) /\
    create_variables p empty_model s1 = (Ok (sched, m), s2) /\
    solve brute_solver "S1" "2025" sched (add_constraints p sched m) = Some sol /\
    sol <> [] /\
    (generate brute_solver "S1" "2025" [7] true db_G =
       (Ok (mkResult true (Some sol) "Timetable generated successfully"),
        snd (save_to_database "S1" "2025" sol s2)) /\
     (forall i, i <= List.length sol -> st_fail s2 (st_calls s2 + i) = true ->
        fst (save_to_database "S1" "2025" sol s2) = Ok false)) /\
    fst (save_to_database "S1" "2025" sol s2) = Ok false /\
    st_timetable_entries (snd (generate brute_solver "S1" "2025" [7] true db_G)) = [].
Proof.
  do 6 eexists. split; [cbv; reflexivity|]. split; [cbv; reflexivity|].
  split; [cbv; reflexivity|]. split; [discriminate|]. split.
  - eapply (publish_failure_ignored brute_solver "S1" "2025" [7] true db_G);
      [vm_compute; reflexivity | vm_compute; reflexivity | vm_compute; reflexivity | discriminate].
  - split; vm_compute; reflexivity.
Defined.

(** C9: with an empty teachers list the heuristic draft generator
    [generate_nep_compliant_schedule] raises no error, whatever the random
    draws and whatever the subjects, classrooms and time slots, and every
    entry it generates has the placeholder "TBA" as its teacher. *)
Theorem heuristic_empty_teachers_tba : forall subjects classrooms time_slots g,
  exists sched g',
    generate_nep_compliant_schedule subjects [] classrooms time_slots g = (Ok sched, g') /\
    forall day entries e, In (day, entries) sched -> In e entries -> d_teacher e = "TBA".
Proof.
  intros subjects classrooms time_slots g. revert g.
  change (rsafe (fun sched => forall day entries e, In (day, entries) sched -> In e entries ->
                   d_teacher e = "TBA")
            (generate_nep_compliant_schedule subjects [] classrooms time_slots)).
  unfold generate_nep_compliant_schedule.
  apply (rsafe_bind (fun _ => True)).
  { apply rmapM_safe. intros s _.
    apply (rsafe_bind (fun _ => True)); [apply priority_safe|]. intros i _.
    apply (rsafe_bind (fun _ => True)); [exact random_float_safe|]. intros k _.
    apply rsafe_ret. trivial. }
  intros keyed _.
  apply (rsafe_bind (fun _ => True)); [apply shuffle_safe|]. intros pool _.
  apply rfoldM_inv; [|intros d es e []].
  intros sched day _ Hs. apply day_step_tba, Hs.
Qed.

(** A run of the heuristic generator with no teachers: it produces entries,
    all with the placeholder teacher. *)
Lemma heuristic_sample_run :
  exists sched g',
    generate_nep_compliant_schedule sample_subjects [] sample_classrooms [] sample_rng =
      (Ok sched, g') /\
    0 < List.length (List.concat (map snd sched)) /\
    forallb (fun e => String.eqb (d_teacher e) "TBA") (List.concat (map snd sched)) = true.
Proof.
  do 2 eexists. split; [vm_compute; reflexivity|]. split; [vm_compute; lia | vm_compute; reflexivity].
Qed.

(** ** Further properties *)

(** X1: with constraints enforced and a sound solver, no entry of a
    returned solution puts a faculty member on a day whose availability
    entry says it is unavailable (['available': false]). *)
Theorem generate_respects_availability : forall solver sem yr pids s r s' sol,
  solver_sound solver ->
  generate solver sem yr pids true s = (Ok r, s') ->
  g_solution r = Some sol ->
  forall e fd, In e sol ->
    find (fun f => Nat.eqb (f_id f) (en_faculty_id e)) (st_faculty s) = Some fd ->
    dict_get Nat.eqb (s_day_of_week (en_slot e)) (f_availability fd) <> Some (Some false).
Proof.
  intros solver sem yr pids s r s' sol Hsound Hgen Hsol e fd He Hfd Hday.
  destruct (generate_solution_inv _ _ _ _ _ _ _ _ _ Hgen Hsol)
    as (p & s1 & sched & m & s2 & vals & El & _ & _ & _ & Hv & Hsol' & _).
  pose proof (Hsound _ _ _ Hv) as Hsat.
  destruct (load_data_spec _ _ _ _ _ _ El) as (Hf & _).
  subst sol. apply in_extract_true in He as (k & x & Hin & Hx & ->).
  simpl in Hfd, Hday.
  assert (In (LinEq [sd_var x] 0)
             (m_constraints (add_faculty_availability_constraint p sched empty_model))) as Hc.
  { unfold add_faculty_availability_constraint.
    apply (in_fold_flat _ _ x); [apply availability_step_appends | apply in_map_iff; exists (k, x); split; [reflexivity|exact Hin] |].
    unfold availability_step. rewrite Hf, Hfd.
    destruct (f_availability fd) as [|a0 av]; [discriminate|].
    rewrite Hday. simpl. left; reflexivity. }
  assert (holds vals (LinEq [sd_var x] 0) = true) as Hh.
  { apply (satisfies_stage vals p sched m _ Hsat).
    do 3 (apply in_app_iff; right). apply in_app_iff; left. exact Hc. }
  simpl in Hh. rewrite Hx in Hh. discriminate.
Qed.

Lemma generate_respects_availability_witness :
  exists r s' sol,
    generate brute_solver "S1" "2025" [7] true db_H = (Ok r, s') /\
    g_solution r = Some sol /\ List.length sol = 1 /\
    forall e fd, In e sol ->
      find (fun f => Nat.eqb (f_id f) (en_faculty_id e)) (st_faculty db_H) = Some fd ->
      dict_get Nat.eqb (s_day_of_week (en_slot e)) (f_availability fd) <> Some (Some false).
Proof.
  do 3 eexists. split; [cbv; reflexivity|]. split; [reflexivity|]. split; [reflexivity|].
  eapply (generate_respects_availability brute_solver "S1" "2025" [7] db_H);
    [exact brute_solver_sound | vm_compute; reflexivity | reflexivity].
Defined.

(** X2: every entry of a returned solution uses an available room and a
    time slot of the database, a course of one of the requested programs,
    and a faculty member assigned to that course for the requested semester
    and academic year. *)
Theorem generate_entry_provenance : forall solver sem yr pids respect s r s' sol,
  generate solver sem yr pids respect s = (Ok r, s') ->
  g_solution r = Some sol ->
  forall e, In e sol ->
    In (en_room e) (st_rooms s) /\ r_is_available (en_room e) = true /\
    In (en_slot e) (st_time_slots s) /\
    In (c_program_id (en_course e)) pids /\
    exists a, In a (st_faculty_assignments s) /\
      a_course_id a = en_course_id e /\ a_faculty_id a = en_faculty_id e /\
      a_semester a = sem /\ a_academic_year a = yr.
Proof.
  intros solver sem yr pids respect s r s' sol Hgen Hsol e He.
  destruct (generate_solution_inv _ _ _ _ _ _ _ _ _ Hgen Hsol)
    as (p & s1 & sched & m & s2 & vals & El & _ & Ec & Hok & _ & Hsol' & _).
  destruct (load_data_spec _ _ _ _ _ _ El) as (_ & Hr & Hs & _ & Ha & Hc).
  destruct (create_variables_src _ _ _ _ _ _ Ec) as [_ Hsrc].
  subst sol. apply in_extract in He as (k & x & Hin & ->).
  destruct (Hsrc k x Hin) as (_ & Hrm & Hsl & Hfac).
  destruct (Hok k x Hin) as (Hcin & Hcid & _).
  rewrite Hr in Hrm. apply filter_In in Hrm as [Hrm Hav].
  unfold entry_of; simpl. repeat split; [exact Hrm | exact Hav | rewrite <- Hs; exact Hsl | |].
  - apply Hc, Hcin.
  - exact (faculty_of_spec _ _ _ _ _ _ Ha Hfac).
Qed.

Lemma generate_entry_provenance_witness :
  exists r s' sol,
    generate brute_solver "S1" "2025" [7] true db_A = (Ok r, s') /\
    g_solution r = Some sol /\ List.length sol = 2 /\
    forall e, In e sol ->
      In (en_room e) (st_rooms db_A) /\ r_is_available (en_room e) = true /\
      In (en_slot e) (st_time_slots db_A) /\
      In (c_program_id (en_course e)) [7] /\
      exists a, In a (st_faculty_assignments db_A) /\
        a_course_id a = en_course_id e /\ a_faculty_id a = en_faculty_id e /\
        a_semester a = "S1" /\ a_academic_year a = "2025".
Proof.
  do 3 eexists. split; [cbv; reflexivity|]. split; [reflexivity|]. split; [reflexivity|].
  eapply (generate_entry_provenance brute_solver "S1" "2025" [7] true db_A);
    [vm_compute; reflexivity | reflexivity].
Defined.

(** X3: a returned solution never lists the same (course, time slot, room,
    faculty) combination twice. *)
Theorem generate_solution_nodup : forall solver sem yr pids respect s r s' sol,
  generate solver sem yr pids respect s = (Ok r, s') ->
  g_solution r = Some sol ->
  NoDup (map (fun e => (en_course_id e, en_time_slot_id e, en_room_id e, en_faculty_id e)) sol).
Proof.
  intros solver sem yr pids respect s r s' sol Hgen Hsol.
  destruct (generate_solution_inv _ _ _ _ _ _ _ _ _ Hgen Hsol)
    as (p & s1 & sched & m & s2 & vals & _ & _ & Ec & _ & _ & Hsol' & _).
  destruct (create_variables_src _ _ _ _ _ _ Ec) as [Hnd Hsrc].
  subst sol. rewrite extract_keys by (intros k x Hin; apply (Hsrc k x Hin)).
  apply nodup_map_filter, Hnd.
Qed.

Lemma generate_solution_nodup_witness :
  exists r s' sol,
    generate brute_solver "S1" "2025" [7] true db_A = (Ok r, s') /\
    g_solution r = Some sol /\ List.length sol = 2 /\
    NoDup (map (fun e => (en_course_id e, en_time_slot_id e, en_room_id e, en_faculty_id e)) sol).
Proof.
  do 3 eexists. split; [cbv; reflexivity|]. split; [reflexivity|]. split; [reflexivity|].
  eapply (generate_solution_nodup brute_solver "S1" "2025" [7] true db_A);
    [vm_compute; reflexivity | reflexivity].
Defined.

(** X4: generate never raises. It returns either a failure with no
    solution, the tables untouched and one of two messages ('Could not find
    a feasible solution' or 'Error generating timetable: ...'), or a success
    with the fixed message and a non-empty solution. *)
Theorem generate_result_shape : forall solver sem yr pids respect s,
  exists r s', generate solver sem yr pids respect s = (Ok r, s') /\
    (g_success r = false ->
       g_solution r = None /\ tables s' = tables s /\
       (g_message r = "Could not find a feasible solution" \/
        exists e, g_message r = String.append "Error generating timetable: " e)) /\
    (g_success r = true ->
       g_message r = "Timetable generated successfully" /\
       exists sol, g_solution r = Some sol /\ sol <> []).
Proof.
  intros solver sem yr pids respect s. unfold generate, try_except, bind.
  destruct (load_data sem yr pids s) as [[p|e] s1] eqn:E1;
    destruct (load_data_reads _ _ _ _ _ _ E1) as [T1 _].
  - destruct (create_variables p empty_model s1) as [[[sched m]|e] s2] eqn:E2;
      destruct (create_variables_reads _ _ _ _ _ E2) as [T2 _].
    + cbn [fst snd].
      destruct (solve solver sem yr sched (if respect then add_constraints p sched m else m))
        as [[|x l]|].
      * do 2 eexists. split; [reflexivity|]. simpl. split; [|discriminate].
        intros _. repeat split; [congruence | left; reflexivity].
      * destruct (save_total sem yr (x :: l) s2) as [b [s3 Hs]]. rewrite Hs.
        do 2 eexists. split; [reflexivity|]. simpl. split; [discriminate|].
        intros _. split; [reflexivity|]. eexists. split; [reflexivity | discriminate].
      * do 2 eexists. split; [reflexivity|]. simpl. split; [|discriminate].
        intros _. repeat split; [congruence | left; reflexivity].
    + do 2 eexists. split; [reflexivity|]. simpl. split; [|discriminate].
      intros _. repeat split; [congruence | right; eexists; reflexivity].
  - do 2 eexists. split; [reflexivity|]. simpl. split; [|discriminate].
    intros _. repeat split; [congruence | right; eexists; reflexivity].
Qed.

(** X5: when a read of [_load_data] raises, generate returns the failure
    'Error generating timetable: Error loading data: ...' and writes
    nothing. *)
Theorem generate_load_failure : forall solver sem yr pids respect s e s1,
  load_data sem yr pids s = (Raise e, s1) ->
  generate solver sem yr pids respect s =
    (Ok (mkResult false None (String.append "Error generating timetable: " e)), s1) /\
  e = String.append "Error loading data: " db_error /\
  tables s1 = tables s.
Proof.
  intros solver sem yr pids respect s e s1 H. split; [|split].
  - unfold generate, try_except, bind. rewrite H. reflexivity.
  - exact (load_data_error _ _ _ _ _ _ H).
  - exact (proj1 (load_data_reads _ _ _ _ _ _ H)).
Qed.

Lemma generate_load_failure_witness :
  exists e s1,
    load_data "S1" "2025" [7] db_I = (Raise e, s1) /\
    generate brute_solver "S1" "2025" [7] true db_I =
      (Ok (mkResult false None (String.append "Error generating timetable: " e)), s1) /\
    e = String.append "Error loading data: " db_error /\
    tables s1 = tables db_I.
Proof.
  do 2 eexists. split; [cbv; reflexivity|].
  eapply (generate_load_failure brute_solver "S1" "2025" [7] true db_I). cbv; reflexivity.
Defined.

(** X6: when no database call fails, after a successful generate the
    stored rows of the (semester, academic year) key are exactly the rows
    of the returned solution, in order, and the rows of other keys are
    unchanged. *)
Theorem generate_publish_roundtrip : forall solver sem yr pids respect s r s' sol,
  (forall k, st_fail s k = false) ->
  generate solver sem yr pids respect s = (Ok r, s') ->
  g_solution r = Some sol ->
  filter (row_has_key sem yr) (st_timetable_entries s') = map row_of sol /\
  filter (fun w => negb (row_has_key sem yr w)) (st_timetable_entries s') =
    filter (fun w => negb (row_has_key sem yr w)) (st_timetable_entries s).
Proof.
  intros solver sem yr pids respect s r s' sol Hf Hgen Hsol.
  destruct (generate_solution_inv _ _ _ _ _ _ _ _ _ Hgen Hsol)
    as (p & s1 & sched & m & s2 & vals & El & _ & Ec & _ & Hv & Hsol' & Hne).
  destruct (load_data_reads _ _ _ _ _ _ El) as [T1 F1].
  destruct (create_variables_reads _ _ _ _ _ Ec) as [T2 F2].
  assert (solve solver sem yr sched (if respect then add_constraints p sched m else m) = Some sol)
    as Es by (unfold solve; destruct Hv as [Hv|Hv]; rewrite Hv, Hsol'; reflexivity).
  rewrite (generate_after_create _ _ _ _ _ _ _ _ _ _ _ El Ec), Es in Hgen.
  destruct sol as [|x l]; [congruence|].
  destruct (save_no_fault sem yr (x :: l) s2) as [s3 [Hs [_ Hrows]]];
    [intro k; rewrite F2, F1; apply Hf|].
  rewrite Hs in Hgen. injection Hgen as _ <-. cbn [snd].
  rewrite Hrows, (load_create_entries _ _ _ _ _ _ _ _ _ El Ec).
  assert (forall w, In w (map row_of (x :: l)) -> row_has_key sem yr w = true) as Hk
    by (rewrite Hsol'; apply extract_rows_keyed).
  rewrite !filter_app, filter_negb_nil, filter_all by exact Hk.
  rewrite filter_idem, (filter_none _ (map row_of (x :: l)))
    by (intros w Hw; rewrite (Hk w Hw); reflexivity).
  rewrite app_nil_r. split; reflexivity.
Qed.

Lemma generate_publish_roundtrip_witness :
  exists r s' sol,
    generate brute_solver "S1" "2025" [7] true db_A = (Ok r, s') /\
    g_solution r = Some sol /\ List.length sol = 2 /\
    filter (row_has_key "S1" "2025") (st_timetable_entries s') = map row_of sol /\
    filter (fun w => negb (row_has_key "S1" "2025" w)) (st_timetable_entries s') =
      filter (fun w => negb (row_has_key "S1" "2025" w)) (st_timetable_entries db_A).
Proof.
  do 3 eexists. split; [cbv; reflexivity|]. split; [reflexivity|]. split; [reflexivity|].
  eapply (generate_publish_roundtrip brute_solver "S1" "2025" [7] true db_A);
    [intro k; reflexivity | vm_compute; reflexivity | reflexivity].
Defined.

(** X7: when no teacher's specialization is NULL, whatever the random
    draws, the heuristic generator returns without raising a schedule for
    Monday to Friday in this order; each day has at most 6 entries, none
    when there are no subjects and at least 3 otherwise. When there is a
    subject and some teacher's specialization is NULL, it raises
    AttributeError ([None.lower()]) whatever the draws. *)
Theorem heuristic_schedule_shape : forall subjects teachers classrooms time_slots g,
  ((forall t, In t teachers -> t_specialization t <> Null) ->
   exists sched g',
     generate_nep_compliant_schedule subjects teachers classrooms time_slots g = (Ok sched, g') /\
     map fst sched = days /\
     forall d es, In (d, es) sched ->
       List.length es <= 6 /\ (subjects = [] -> es = []) /\ (subjects <> [] -> 3 <= List.length es)) /\
  (subjects <> [] -> (exists t, In t teachers /\ t_specialization t = Null) ->
   exists g',
     generate_nep_compliant_schedule subjects teachers classrooms time_slots g =
       (Raise none_lower_error, g')).
Proof.
  intros subjects teachers classrooms time_slots g. split.
  - intro Hteach.
    destruct (heuristic_schedule_spec subjects teachers classrooms time_slots Hteach g)
      as (sched & g' & Hrun & Hdays & Hes).
    exists sched, g'. split; [exact Hrun|]. split; [exact Hdays|].
    intros d es Hin. destruct (Hes d es Hin) as (_ & H). exact H.
  - intros Hs Hnull. exact (heuristic_schedule_raises subjects teachers classrooms time_slots Hs Hnull g).
Qed.

Lemma heuristic_schedule_shape_witness :
  (exists sched g',
     generate_nep_compliant_schedule heuristic_sample_subjects heuristic_sample_teachers [] []
       heuristic_sample_rng = (Ok sched, g') /\
     map fst sched = days /\
     forall d es, In (d, es) sched -> 3 <= List.length es <= 6) /\
  (exists g',
     generate_nep_compliant_schedule heuristic_sample_subjects
       (heuristic_sample_teachers ++ [mkTeacher (Some "Dr. B") Null]) [] [] heuristic_sample_rng =
       (Raise none_lower_error, g')).
Proof.
  split.
  - destruct (proj1 (heuristic_schedule_shape heuristic_sample_subjects heuristic_sample_teachers
                       [] [] heuristic_sample_rng))
      as (sched & g' & E & Hd & Hes); [intros t [<-|[]]; discriminate|].
    exists sched, g'. split; [exact E|]. split; [exact Hd|].
    intros d es Hin. destruct (Hes d es Hin) as (H1 & _ & H3).
    split; [apply H3; discriminate | exact H1].
  - apply (proj2 (heuristic_schedule_shape heuristic_sample_subjects
                    (heuristic_sample_teachers ++ [mkTeacher (Some "Dr. B") Null]) [] []
                    heuristic_sample_rng)); [discriminate|].
    exists (mkTeacher (Some "Dr. B") Null). split; [right; left; reflexivity | reflexivity].
Defined.

(** X8: when no teacher's specialization is NULL, whatever the random
    draws, every field of every heuristic entry comes from the inputs: its
    time is one of the seven periods, its subject fields come from one
    input subject (with the source's defaults), its teacher is the name of
    an input teacher, or 'TBA' when there is none, and its classroom
    likewise. *)
Theorem heuristic_entry_sources : forall subjects teachers classrooms time_slots g,
  (forall t, In t teachers -> t_specialization t <> Null) ->
  exists sched g',
    generate_nep_compliant_schedule subjects teachers classrooms time_slots g = (Ok sched, g') /\
    forall d es e, In (d, es) sched -> In e es ->
      (exists pr, In pr time_periods /\ d_time e = String.append (fst pr) (String.append "-" (snd pr))) /\
      (exists sj, In sj subjects /\
         d_subject_name e = get (sj_name sj) "Unknown" /\ d_subject_code e = get (sj_code sj) "" /\
         d_nep_category e = get (sj_nep_category sj) "MAJOR" /\ d_credits e = get (sj_credits sj) 0%Z /\
         d_is_skill_based e = get (sj_is_skill_based sj) false /\
         d_is_lab e = contains "lab" (lower (get (sj_name sj) ""))) /\
      (teachers = [] -> d_teacher e = "TBA") /\
      (teachers <> [] -> exists t, In t teachers /\ d_teacher e = get (t_name t) "TBA") /\
      (classrooms = [] -> d_classroom e = "TBA") /\
      (classrooms <> [] -> exists c, In c classrooms /\ d_classroom e = get (cr_name c) "TBA").
Proof.
  intros subjects teachers classrooms time_slots g Hteach.
  destruct (heuristic_schedule_spec subjects teachers classrooms time_slots Hteach g)
    as (sched & g' & Hrun & Hdays & Hes).
  exists sched, g'. split; [exact Hrun|].
  intros d es e Hin He. destruct (Hes d es Hin) as (H & _). exact (H e He).
Qed.

Lemma heuristic_entry_sources_witness :
  exists sched g',
    generate_nep_compliant_schedule heuristic_sample_subjects heuristic_sample_teachers [] []
      heuristic_sample_rng = (Ok sched, g') /\
    forall d es e, In (d, es) sched -> In e es ->
      d_subject_name e = "Data Structures" /\ d_teacher e = "Dr. A" /\ d_classroom e = "TBA".
Proof.
  destruct (heuristic_entry_sources heuristic_sample_subjects heuristic_sample_teachers [] []
              heuristic_sample_rng) as (sched & g' & E & H); [intros t [<-|[]]; discriminate|].
  exists sched, g'. split; [exact E|]. intros d es e Hin He.
  destruct (H d es e Hin He) as (_ & (sj & [<-|[]] & Hn & _) & _ & Ht & Hc & _).
  split; [exact Hn|]. split.
  - destruct Ht as (t & [<-|[]] & Ht); [discriminate | exact Ht].
  - apply Hc. reflexivity.
Defined.

(** X9: [assign_classroom_by_type] returns [None] exactly when there are no
    classrooms, and otherwise one of them; a lab subject gets, when some
    room has a LAB type, a room of its code's department or of a LAB
    type. *)
Theorem assign_classroom_by_type_spec : forall sj classrooms,
  let subject_name := lower (get (sj_name sj) "") in
  let subject_code := get (sj_code sj) "" in
  let subject_dept :=
    if Nat.leb 2 (String.length subject_code) then upper (String.substring 0 2 subject_code) else "" in
  (assign_classroom_by_type sj classrooms = None <-> classrooms = []) /\
  (forall c, assign_classroom_by_type sj classrooms = Some c -> In c classrooms) /\
  ((get (sj_is_skill_based sj) false || contains "lab" subject_name) = true ->
   (exists c, In c classrooms /\ contains "LAB" (get (cr_type c) "") = true) ->
   exists c, assign_classroom_by_type sj classrooms = Some c /\
     (get (cr_department c) "" = subject_dept \/ contains "LAB" (get (cr_type c) "") = true)).
Proof.
  intros sj classrooms subject_name subject_code subject_dept.
  split; [|split; [apply assign_classroom_by_type_in|]].
  - split.
    + intro H. destruct classrooms as [|c cs]; [reflexivity|].
      destruct (assign_classroom_by_type_some sj (c :: cs)) as [x Hx]; [discriminate|]. congruence.
    + intros ->. unfold assign_classroom_by_type. simpl.
      repeat match goal with |- context [if ?b then _ else _] => destruct b end; reflexivity.
  - intros Hlab Hex. unfold assign_classroom_by_type. cbv zeta. fold subject_name subject_code subject_dept.
    rewrite Hlab.
    destruct (find (fun c => String.eqb (get (cr_department c) "") subject_dept ||
                             (contains "LAB" (get (cr_type c) "") &&
                              contains subject_dept (get (cr_name c) ""))) classrooms) as [c|] eqn:E1.
    + exists c. split; [reflexivity|]. apply find_some in E1 as [_ E1].
      apply orb_true_iff in E1 as [E1|E1]; [left; apply String.eqb_eq, E1|].
      right. apply andb_true_iff in E1 as [E1 _]. exact E1.
    + destruct (find_exists (fun c => contains "LAB" (get (cr_type c) "")) classrooms Hex) as [c [Hc Ht]].
      rewrite Hc. exists c. split; [reflexivity | right; exact Ht].
Qed.

(** X10: [assign_teacher_by_expertise] returns [None] exactly when there
    are no teachers, and otherwise one of them; when some teacher's
    department equals the department read off the subject code, it returns
    a teacher of that department (a NULL department never matches); it
    returns without raising when no teacher's specialization is NULL, and
    raises AttributeError when no department matches and the first
    teacher's specialization is NULL; and every code starting with EC
    (such as ECE301) is read as department ECO. *)
Theorem assign_teacher_by_expertise_spec : forall sj teachers,
  let dept := expertise_dept (get (sj_code sj) "") in
  (assign_teacher_by_expertise sj teachers = Ok None <-> teachers = []) /\
  (forall t, assign_teacher_by_expertise sj teachers = Ok (Some t) -> In t teachers) /\
  ((exists t, In t teachers /\ get_nullable (st_department t) "" = Some dept) ->
   exists t, assign_teacher_by_expertise sj teachers = Ok (Some t) /\
             get_nullable (st_department t) "" = Some dept) /\
  ((forall t, In t teachers -> st_specialization t <> Null) ->
   exists r, assign_teacher_by_expertise sj teachers = Ok r) /\
  (forall t0 rest, teachers = t0 :: rest ->
   (forall t, In t teachers -> get_nullable (st_department t) "" <> Some dept) ->
   st_specialization t0 = Null ->
   assign_teacher_by_expertise sj teachers = Raise none_lower_error) /\
  (forall rest, expertise_dept (String.append "EC" rest) = "ECO" /\
                expertise_dept (String.append "ec" rest) = "ECO").
Proof.
  intros sj teachers dept. unfold assign_teacher_by_expertise. fold dept.
  set (fd := fun t => match get_nullable (st_department t) "" with
                      | Some teacher_dept => String.eqb teacher_dept dept
                      | None => false
                      end).
  set (fs := fun t => match py_lower (get_nullable (st_specialization t) "") with
                      | Raise e => Raise e
                      | Ok specialization => Ok (expertise_match (lower (get (sj_name sj) "")) specialization)
                      end).
  assert (Hfd : forall t, fd t = true <-> get_nullable (st_department t) "" = Some dept).
  { intro t. unfold fd. destruct (get_nullable (st_department t) "") as [d|];
      [rewrite String.eqb_eq; split; congruence | split; discriminate]. }
  split; [|split; [|split; [|split; [|split]]]].
  - split.
    + destruct (find fd teachers) eqn:E; [discriminate|].
      destruct (ofind fs teachers) as [[t|]|e]; [discriminate | | discriminate].
      destruct teachers; [reflexivity | discriminate].
    + intros ->. reflexivity.
  - intros t H. destruct (find fd teachers) eqn:E; [injection H as <-; apply (find_some _ _ E)|].
    destruct (ofind fs teachers) as [[t'|]|e] eqn:Eo; [injection H as <-; apply (ofind_in _ _ _ Eo) | | discriminate].
    destruct teachers; simpl in H; [discriminate|]. injection H as <-. left. reflexivity.
  - intros Hex. destruct (find_exists fd teachers) as [t [Ht Hd]].
    { destruct Hex as [t [Ht Hd]]. exists t. split; [exact Ht | apply Hfd, Hd]. }
    rewrite Ht. exists t. split; [reflexivity | apply Hfd, Hd].
  - intros Hs. destruct (find fd teachers); [eexists; reflexivity|].
    destruct (ofind_ok fs teachers) as [r Er].
    { intros t Ht. unfold fs. specialize (Hs t Ht).
      destruct (st_specialization t); simpl; [eexists; reflexivity | congruence | eexists; reflexivity]. }
    rewrite Er. destruct r; eexists; reflexivity.
  - intros t0 rest -> Hnd Hn.
    assert (find fd (t0 :: rest) = None) as E.
    { destruct (find fd (t0 :: rest)) as [t|] eqn:E; [|reflexivity].
      apply find_some in E as [Ht Hd]. apply Hfd in Hd. exfalso. exact (Hnd t Ht Hd). }
    rewrite E. simpl. unfold fs at 1. rewrite Hn. reflexivity.
  - intro rest. destruct rest; split; reflexivity.
Qed.

Lemma assign_teacher_by_expertise_spec_witness :
  assign_teacher_by_expertise
    (mkSubject (Some "Digital Circuits") (Some "ECE301") None None None)
    [mkStaff (Some "Dr. C") (Present "ECE") (Present "Electronics");
     mkStaff (Some "Dr. D") (Present "ECO") Null] =
    Ok (Some (mkStaff (Some "Dr. D") (Present "ECO") Null)) /\
  assign_teacher_by_expertise
    (mkSubject (Some "Digital Circuits") (Some "CS301") None None None)
    [mkStaff (Some "Dr. D") (Present "ECO") Null;
     mkStaff (Some "Dr. C") (Present "ECE") (Present "Electronics")] =
    Raise none_lower_error.
Proof.
  split.
  - destruct (proj1 (proj2 (proj2 (assign_teacher_by_expertise_spec
        (mkSubject (Some "Digital Circuits") (Some "ECE301") None None None)
        [mkStaff (Some "Dr. C") (Present "ECE") (Present "Electronics");
         mkStaff (Some "Dr. D") (Present "ECO") Null]))))
      as [t [Ht _]].
    + exists (mkStaff (Some "Dr. D") (Present "ECO") Null). split; [right; left; reflexivity | reflexivity].
    + rewrite Ht. vm_compute in Ht. symmetry. exact Ht.
  - apply (proj1 (proj2 (proj2 (proj2 (proj2 (assign_teacher_by_expertise_spec
        (mkSubject (Some "Digital Circuits") (Some "CS301") None None None)
        [mkStaff (Some "Dr. D") (Present "ECO") Null;
         mkStaff (Some "Dr. C") (Present "ECE") (Present "Electronics")])))))
        (mkStaff (Some "Dr. D") (Present "ECO") Null)
        [mkStaff (Some "Dr. C") (Present "ECE") (Present "Electronics")]); [reflexivity | | reflexivity].
    intros t [<-|[<-|[]]]; vm_compute; discriminate.
Defined.

(** X11: in [calculate_nep_compliance], total_credits is the sum of the
    subjects' credits; the distribution has one key per category that
    occurs, its value for a category is the sum of that category's credits,
    and its values add up to total_credits; has_multidisciplinary holds
    exactly when the MDC credits add up to more than 0. *)
Theorem calculate_nep_compliance_distribution : forall subjects,
  let r := calculate_nep_compliance subjects in
  cm_total_credits r = fold_right Z.add 0%Z (map (fun s => get (sj_credits s) 0%Z) subjects) /\
  NoDup (map fst (cm_distribution r)) /\
  (forall c,
     get (dict_get String.eqb c (cm_distribution r)) 0%Z =
       fold_right Z.add 0%Z (map (fun s => get (sj_credits s) 0%Z)
         (filter (fun s => String.eqb (get (sj_nep_category s) "MAJOR") c) subjects)) /\
     (dict_get String.eqb c (cm_distribution r) = None <->
      forall s, In s subjects -> get (sj_nep_category s) "MAJOR" <> c)) /\
  fold_right Z.add 0%Z (map snd (cm_distribution r)) = cm_total_credits r /\
  (cm_has_multidisciplinary r = true <->
   (0 < fold_right Z.add 0%Z (map (fun s => get (sj_credits s) 0%Z)
          (filter (fun s => String.eqb (get (sj_nep_category s) "MAJOR") "MDC") subjects)))%Z).
Proof.
  intros subjects r. subst r. unfold calculate_nep_compliance. rewrite compliance_fold_pair.
  destruct (acc_fold_spec (fun x => get (sj_nep_category x) "MAJOR") (fun x => get (sj_credits x) 0%Z)
              subjects []) as (H1 & H2 & H3).
  cbn [cm_total_credits cm_distribution cm_has_multidisciplinary].
  split; [reflexivity|]. split; [apply H3; constructor|].
  split; [|split].
  - intro c. destruct (H1 c) as [Ha Hb]. simpl in Ha, Hb. split; [exact Ha|]. rewrite Hb. tauto.
  - rewrite H2. simpl. lia.
  - destruct (H1 "MDC") as [Ha _]. simpl in Ha. rewrite Ha. apply Z.ltb_lt.
Qed.

(** X12: [calculate_nep_compliance] always gives three recommendations; the
    credit one says the load is optimal exactly when the total is within
    18..22, the MDC warning appears exactly when has_multidisciplinary is
    false and the SEC warning exactly when no subject is skill-based. *)
Theorem calculate_nep_compliance_recommendations : forall subjects,
  let r := calculate_nep_compliance subjects in
  List.length (cm_recommendations r) = 3 /\
  (cm_is_compliant r = true <-> (18 <= cm_total_credits r <= 22)%Z) /\
  (In msg_credits_ok (cm_recommendations r) <-> cm_is_compliant r = true) /\
  (In msg_add_mdc (cm_recommendations r) <-> cm_has_multidisciplinary r = false) /\
  (In msg_add_sec (cm_recommendations r) <-> cm_has_skill_component r = false) /\
  (cm_has_skill_component r = true <-> exists s, In s subjects /\ sj_is_skill_based s = Some true).
Proof.
  intros subjects r. subst r. unfold calculate_nep_compliance. rewrite compliance_fold_pair.
  set (t := fold_right Z.add 0%Z (map (fun x => get (sj_credits x) 0%Z) subjects)).
  set (mdc := Z.ltb 0 _). set (sk := existsb _ subjects).
  cbn [cm_recommendations cm_is_compliant cm_total_credits cm_has_multidisciplinary cm_has_skill_component].
  split; [reflexivity|].
  split; [rewrite andb_true_iff, !Z.leb_le; reflexivity|].
  split; [|split; [|split]].
  - destruct (Z.ltb t 18) eqn:E1; [|destruct (Z.ltb 22 t) eqn:E2];
      [apply Z.ltb_lt in E1 | apply Z.ltb_ge in E1; apply Z.ltb_lt in E2 | apply Z.ltb_ge in E1; apply Z.ltb_ge in E2];
      destruct mdc, sk; simpl;
      rewrite andb_true_iff, !Z.leb_le;
      (split; [intros [H|[H|[H|[]]]]; try discriminate H; lia | intros; lia]) ||
      (split; [intros _; lia | intros _; left; reflexivity]).
  - destruct (Z.ltb t 18), (Z.ltb 22 t), mdc, sk; simpl;
      split; first [intros [H|[H|[H|[]]]]; discriminate H | intros [H|[H|[H|[]]]]; reflexivity
                   | intro H; discriminate H | intros _; right; left; reflexivity].
  - destruct (Z.ltb t 18), (Z.ltb 22 t), mdc, sk; simpl;
      split; first [intros [H|[H|[H|[]]]]; discriminate H | intros [H|[H|[H|[]]]]; reflexivity
                   | intro H; discriminate H | intros _; right; right; left; reflexivity].
  - apply (existsb_some sj_is_skill_based).
Qed.

(** X13: in the curriculum of [get_nep_compliant_curriculum], the credit
    distribution has one key per category that occurs, its value for a
    category is the sum of that category's credits, and its values add up
    to the total_credits of the compliance check, the sum of all
    credits. *)
Theorem curriculum_credit_distribution : forall rows semester,
  let cu := get_nep_compliant_curriculum rows semester in
  NoDup (map fst (cu_credit_distribution cu)) /\
  (forall c,
     get (dict_get String.eqb c (cu_credit_distribution cu)) 0%Z =
       fold_right Z.add 0%Z (map (fun s => get (nc_credits s) 0%Z)
         (filter (fun s => String.eqb (get (nc_nep_category s) "MAJOR") c) rows)) /\
     (dict_get String.eqb c (cu_credit_distribution cu) = None <->
      forall s, In s rows -> get (nc_nep_category s) "MAJOR" <> c)) /\
  fold_right Z.add 0%Z (map snd (cu_credit_distribution cu)) = ck_total_credits (cu_nep_compliance cu) /\
  ck_total_credits (cu_nep_compliance cu) =
    fold_right Z.add 0%Z (map (fun s => get (nc_credits s) 0%Z) rows).
Proof.
  intros rows semester cu. subst cu. simpl. rewrite credit_distribution_fold.
  destruct (acc_fold_spec (fun x => get (nc_nep_category x) "MAJOR") (fun x => get (nc_credits x) 0%Z)
              rows []) as (H1 & H2 & H3).
  rewrite (fold_left_add (fun s => get (nc_credits s) 0%Z)).
  split; [apply H3; constructor|]. split; [|rewrite H2; simpl; lia].
  intro c. destruct (H1 c) as [Ha Hb]. simpl in Ha, Hb. split; [exact Ha|].
  rewrite Hb. tauto.
Qed.

(** X14: the compliance report of a curriculum reports the sum of the
    credits, overall compliance exactly when it is within 18..22,
    multidisciplinary courses when some course has category MDC,
    skill-based learning when some course is skill-based, and a research
    component only from semester 7 on and when some course is a research
    component. *)
Theorem compliance_report_flags : forall rows semester,
  let rp := generate_compliance_report (get_nep_compliant_curriculum rows semester) in
  let total := fold_right Z.add 0%Z (map (fun s => get (nc_credits s) 0%Z) rows) in
  rp_total_credits rp = total /\
  (rp_overall_compliance rp = true <-> (18 <= total <= 22)%Z) /\
  (rp_multidisciplinary_courses rp = true <-> exists s, In s rows /\ nc_nep_category s = Some "MDC") /\
  (rp_skill_based_learning rp = true <-> exists s, In s rows /\ nc_is_skill_based s = Some true) /\
  (rp_research_component rp = true <->
   (7 <= semester)%Z /\ exists s, In s rows /\ nc_is_research_component s = Some true).
Proof.
  intros rows semester rp total.
  assert (ck_total_credits (check_nep_compliance rows semester) = total) as Ht by apply total_credits_eq.
  subst rp. unfold generate_compliance_report, get_nep_compliant_curriculum. cbn [cu_nep_compliance cu_credit_distribution].
  split; [exact Ht|]. split; [|split; [|split]].
  - cbn [rp_overall_compliance]. unfold check_nep_compliance in *. cbn [ck_is_compliant ck_total_credits] in *.
    rewrite Ht, andb_true_iff, Z.leb_le, Z.leb_le. reflexivity.
  - apply mdc_exists.
  - apply (existsb_some nc_is_skill_based).
  - cbn [rp_research_component]. unfold check_nep_compliance. cbn [ck_has_research_component].
    destruct (Z.leb 7 semester) eqn:E; simpl.
    + apply Z.leb_le in E. rewrite (existsb_some nc_is_research_component). tauto.
    + apply Z.leb_gt in E. split; [discriminate | lia].
Qed.

(** X15: the report gives at most four recommendations, and none exactly
    when the credits are within 18..22, some course is MDC, some course is
    skill-based and the MAJOR courses carry at least 8 credits. *)
Theorem compliance_report_recommendations : forall rows semester,
  let rp := generate_compliance_report (get_nep_compliant_curriculum rows semester) in
  let total := fold_right Z.add 0%Z (map (fun s => get (nc_credits s) 0%Z) rows) in
  List.length (rp_recommendations rp) <= 4 /\
  (rp_recommendations rp = [] <->
   (18 <= total <= 22)%Z /\
   (exists s, In s rows /\ nc_nep_category s = Some "MDC") /\
   (exists s, In s rows /\ nc_is_skill_based s = Some true) /\
   (8 <= fold_right Z.add 0%Z (map (fun s => get (nc_credits s) 0%Z)
           (filter (fun s => String.eqb (get (nc_nep_category s) "MAJOR") "MAJOR") rows)))%Z).
Proof.
  intros rows semester rp total.
  assert (ck_total_credits (check_nep_compliance rows semester) = total) as Ht by apply total_credits_eq.
  destruct (acc_fold_spec (fun x => get (nc_nep_category x) "MAJOR") (fun x => get (nc_credits x) 0%Z)
              rows []) as (Hd & _).
  destruct (Hd "MAJOR") as [Hmaj _]. simpl in Hmaj. rewrite <- credit_distribution_fold in Hmaj.
  subst rp. unfold generate_compliance_report, get_nep_compliant_curriculum in *.
  cbn [cu_nep_compliance cu_credit_distribution rp_recommendations] in *.
  unfold get_recommendations. rewrite Hmaj, Ht.
  rewrite <- mdc_exists, <- (existsb_some nc_is_skill_based).
  unfold check_nep_compliance. cbn [ck_has_multidisciplinary ck_has_skill_component].
  destruct (Z.ltb total 18) eqn:E1; destruct (Z.ltb 22 total) eqn:E2;
    [apply Z.ltb_lt in E1; apply Z.ltb_lt in E2; lia | | |];
  destruct (existsb _ rows); destruct (existsb _ rows);
  destruct (Z.ltb _ 8) eqn:E3; simpl;
    try (split; [lia | split; [discriminate | intros (H & _); first [discriminate H | lia]]]);
    try (split; [lia | split; [discriminate | intros (_ & H & _); discriminate H]]);
    try (split; [lia | split; [discriminate | intros (_ & _ & H & _); discriminate H]]);
    try (split; [lia | split; [discriminate | intros (_ & _ & _ & H); apply Z.ltb_lt in E3; lia]]);
    try (split; [lia | split; [intros _; apply Z.ltb_ge in E1; apply Z.ltb_ge in E2; apply Z.ltb_ge in E3; repeat split; lia | reflexivity]]).
Qed.



(** X17: a balanced schedule lists Monday to Friday in this order; the
    courses are sorted by the priority of their category; day [d] holds the
    first [n] sorted courses, where [n] is the number of that day's slots
    (at most 6), at the times of those slots, each with the teacher that
    [_assign_teacher] returns and the classroom of [_assign_classroom]. *)
Theorem create_balanced_schedule_shape : forall courses teachers classrooms time_slots semester sched,
  create_balanced_schedule courses teachers classrooms time_slots semester = Ok sched ->
  exists sorted_courses,
    Permutation sorted_courses courses /\
    StronglySorted (fun a b => exists ka kb,
        index_of (get (nc_nep_category a) "MAJOR") priority_order = Some ka /\
        index_of (get (nc_nep_category b) "MAJOR") priority_order = Some kb /\ ka <= kb)
      sorted_courses /\
    map fst sched = days /\
    forall d day_name es, nth_error sched d = Some (day_name, es) ->
      let slots := firstn 6 (filter (fun slot => Nat.eqb (ns_day_of_week slot) d) time_slots) in
      map ne_course es = firstn (List.length slots) sorted_courses /\
      map ne_time_slot es = map entry_time (firstn (List.length sorted_courses) slots) /\
      forall e, In e es ->
        assign_teacher (ne_course e) teachers = Ok (ne_teacher e) /\
        ne_classroom e = assign_classroom (ne_course e) classrooms /\
        ne_nep_category e = get (nc_nep_category (ne_course e)) "MAJOR" /\
        ne_is_skill_based e = get (nc_is_skill_based (ne_course e)) false.
Proof.
  intros courses teachers classrooms time_slots semester sched H.
  unfold create_balanced_schedule in H.
  destruct (course_keys courses) as [keyed|e] eqn:Ek; [|discriminate].
  destruct (course_keys_ok _ _ Ek) as [Hk Hi].
  set (sorted := sort_by (fun a b : nat * nep_course => Nat.leb (fst a) (fst b)) keyed) in H |- *.
  exists (map snd sorted). split; [|split; [|split]].
  - rewrite <- Hk. apply Permutation_map, sort_by_perm.
  - apply (strongly_sorted_map (fun a b : nat * nep_course => fst a <= fst b)).
    + apply (sort_by_sorted fst).
    + intros [ka a] [kb b] Ha Hb Hab. exists ka, kb. simpl in Hab.
      apply (Permutation_in _ (sort_by_perm _ keyed)) in Ha, Hb.
      split; [apply Hi, Ha|]. split; [apply Hi, Hb | exact Hab].
  - transitivity (map (fun day => nth day days "") (seq 0 5)); [|reflexivity].
    refine (omapM_fst _ _ _ _ _ H).
    intros day y Hy. cbv beta in Hy. destruct (balanced_entries _ _ _ _ _); [|discriminate].
    injection Hy as <-. reflexivity.
  - intros d day_name es Hd slots.
    destruct (proj2 (omapM_nth _ _ _ H) d (day_name, es) Hd) as [x [Hx Hf]].
    apply nth_error_seq_some in Hx. simpl in Hx. subst x.
    cbv beta in Hf. destruct (balanced_entries _ _ _ _ _) as [es'|err] eqn:Eb; [|discriminate].
    injection Hf as _ <-.
    destruct (balanced_entries_spec _ _ _ _ _ _ Eb) as (H1 & H2 & H3).
    rewrite Nat.sub_0_r in H2. exact (conj H1 (conj H2 H3)).
Qed.

Lemma create_balanced_schedule_shape_witness :
  exists sched,
    create_balanced_schedule nep_sample_courses nep_sample_teachers nep_sample_classrooms
      nep_sample_slots 3%Z = Ok sched /\
    exists sorted_courses,
      Permutation sorted_courses nep_sample_courses /\
      StronglySorted (fun a b => exists ka kb,
          index_of (get (nc_nep_category a) "MAJOR") priority_order = Some ka /\
          index_of (get (nc_nep_category b) "MAJOR") priority_order = Some kb /\ ka <= kb)
        sorted_courses /\
      map fst sched = days /\
      forall d day_name es, nth_error sched d = Some (day_name, es) ->
        let slots := firstn 6 (filter (fun slot => Nat.eqb (ns_day_of_week slot) d) nep_sample_slots) in
        map ne_course es = firstn (List.length slots) sorted_courses /\
        map ne_time_slot es = map entry_time (firstn (List.length sorted_courses) slots) /\
        forall e, In e es ->
          assign_teacher (ne_course e) nep_sample_teachers = Ok (ne_teacher e) /\
          ne_classroom e = assign_classroom (ne_course e) nep_sample_classrooms /\
          ne_nep_category e = get (nc_nep_category (ne_course e)) "MAJOR" /\
          ne_is_skill_based e = get (nc_is_skill_based (ne_course e)) false.
Proof.
  eexists. split; [cbv; reflexivity|].
  apply (create_balanced_schedule_shape nep_sample_courses nep_sample_teachers nep_sample_classrooms
           nep_sample_slots 3%Z). vm_compute. reflexivity.
Defined.

(** X18: [_assign_teacher] returns [None] exactly when there are no
    teachers, and otherwise one of them; it returns without raising when no
    teacher has a NULL department or specialization. Its first teacher is
    tested first: a NULL department raises AttributeError; an empty or
    missing department, or (department not NULL) a course without a code
    and a specialization that is not NULL, gives the first teacher; a
    department that the course name does not contain followed by a NULL
    specialization raises TypeError. *)
Theorem assign_teacher_spec : forall course teachers,
  (assign_teacher course teachers = Ok None <-> teachers = []) /\
  (forall t, assign_teacher course teachers = Ok (Some t) -> In t teachers) /\
  ((forall t, In t teachers -> nt_department t <> Null /\ nt_specialization t <> Null) ->
   exists r, assign_teacher course teachers = Ok r) /\
  (forall t0 rest, teachers = t0 :: rest -> nt_department t0 = Null ->
   assign_teacher course teachers = Raise none_lower_error) /\
  (forall t0 rest, teachers = t0 :: rest -> get_nullable (nt_department t0) "" = Some "" ->
   assign_teacher course teachers = Ok (Some t0)) /\
  (forall t0 rest, teachers = t0 :: rest -> nt_department t0 <> Null ->
   get (nc_code course) "" = "" -> nt_specialization t0 <> Null ->
   assign_teacher course teachers = Ok (Some t0)) /\
  (forall t0 rest dept, teachers = t0 :: rest -> get_nullable (nt_department t0) "" = Some dept ->
   contains (lower dept) (lower (get (nc_name course) "")) = false ->
   nt_specialization t0 = Null ->
   assign_teacher course teachers = Raise none_in_error).
Proof.
  intros course teachers. unfold assign_teacher.
  split; [|split; [|split; [|split; [|split; [|split]]]]].
  - split.
    + destruct (ofind (assign_teacher_test course) teachers) as [[t|]|e]; try discriminate.
      destruct teachers; [reflexivity | discriminate].
    + intros ->. reflexivity.
  - intros t H. destruct (ofind (assign_teacher_test course) teachers) as [[t'|]|e] eqn:Eo; try discriminate.
    + injection H as <-. apply (ofind_in _ _ _ Eo).
    + destruct teachers; simpl in H; [discriminate|]. injection H as <-. left. reflexivity.
  - intro H. destruct (ofind_ok (assign_teacher_test course) teachers) as [r Er].
    { intros t Ht. destruct (H t Ht). apply assign_teacher_test_ok; assumption. }
    rewrite Er. destruct r; eexists; reflexivity.
  - intros t0 rest -> Hn. simpl. unfold assign_teacher_test at 1. rewrite Hn. reflexivity.
  - intros t0 rest -> Hd. simpl. unfold assign_teacher_test at 1. rewrite Hd. simpl.
    rewrite contains_empty. reflexivity.
  - intros t0 rest -> Hd Hc Hs. simpl. unfold assign_teacher_test at 1. rewrite Hc. simpl.
    destruct (nt_department t0) as [| |d]; [|congruence|]; simpl;
      (destruct (contains _ _); [reflexivity|]);
      (destruct (nt_specialization t0) as [| |sp]; [|congruence|]; simpl; rewrite ?contains_empty; reflexivity).
  - intros t0 rest dept -> Hd Hc Hs. simpl. unfold assign_teacher_test at 1. rewrite Hd. simpl.
    rewrite Hc, Hs. reflexivity.
Qed.

Lemma assign_teacher_spec_witness :
  assign_teacher (mkNepCourse (Some "Data Structures") (Some "CS201") None None None None)
    [mkNepTeacher Null (Present "Computer Science"); mkNepTeacher (Present "CS") (Present "Computer Science")] =
    Raise none_lower_error /\
  assign_teacher (mkNepCourse (Some "Data Structures") (Some "CS201") None None None None)
    [mkNepTeacher (Present "Physics") Null; mkNepTeacher (Present "CS") (Present "Computer Science")] =
    Raise none_in_error /\
  assign_teacher (mkNepCourse (Some "Data Structures") None None None None None)
    [mkNepTeacher (Present "Physics") Absent; mkNepTeacher (Present "CS") (Present "Computer Science")] =
    Ok (Some (mkNepTeacher (Present "Physics") Absent)).
Proof.
  split; [|split].
  - apply (proj1 (proj2 (proj2 (proj2 (assign_teacher_spec
      (mkNepCourse (Some "Data Structures") (Some "CS201") None None None None)
      [mkNepTeacher Null (Present "Computer Science"); mkNepTeacher (Present "CS") (Present "Computer Science")]))))
      (mkNepTeacher Null (Present "Computer Science"))
      [mkNepTeacher (Present "CS") (Present "Computer Science")]); reflexivity.
  - apply (proj2 (proj2 (proj2 (proj2 (proj2 (proj2 (assign_teacher_spec
      (mkNepCourse (Some "Data Structures") (Some "CS201") None None None None)
      [mkNepTeacher (Present "Physics") Null; mkNepTeacher (Present "CS") (Present "Computer Science")]))))))
      (mkNepTeacher (Present "Physics") Null)
      [mkNepTeacher (Present "CS") (Present "Computer Science")] "Physics");
      [reflexivity | reflexivity | vm_compute; reflexivity | reflexivity].
  - apply (proj1 (proj2 (proj2 (proj2 (proj2 (proj2 (assign_teacher_spec
      (mkNepCourse (Some "Data Structures") None None None None None)
      [mkNepTeacher (Present "Physics") Absent; mkNepTeacher (Present "CS") (Present "Computer Science")]))))))
      (mkNepTeacher (Present "Physics") Absent)
      [mkNepTeacher (Present "CS") (Present "Computer Science")]);
      [reflexivity | discriminate | reflexivity | discriminate].
Defined.

(** X19: [_assign_classroom] returns [None] exactly when there are no
    classrooms, and otherwise one of them; a lab or practical course gets a
    lab room when there is one; any other course, or a lab course when no
    lab room exists, gets a lecture room when there is one. *)
Theorem assign_classroom_spec : forall course classrooms,
  let is_lab_course := contains "lab" (lower (get (nc_name course) "")) ||
                       contains "practical" (lower (get (nc_name course) "")) in
  (assign_classroom course classrooms = None <-> classrooms = []) /\
  (forall c, assign_classroom course classrooms = Some c -> In c classrooms) /\
  (is_lab_course = true -> (exists c, In c classrooms /\ nr_room_type c = Some "lab") ->
   exists c, assign_classroom course classrooms = Some c /\ nr_room_type c = Some "lab") /\
  ((is_lab_course = false \/ forall c, In c classrooms -> nr_room_type c <> Some "lab") ->
   (exists c, In c classrooms /\ nr_room_type c = Some "lecture") ->
   exists c, assign_classroom course classrooms = Some c /\ nr_room_type c = Some "lecture").
Proof.
  intros course classrooms is_lab_course. unfold assign_classroom. fold is_lab_course.
  split; [|split; [|split]].
  - destruct is_lab_course; [destruct (find _ classrooms) eqn:E|]; try apply find_hd_none.
    split; [discriminate|]. intros ->. discriminate.
  - intros c H. destruct is_lab_course; [destruct (find _ classrooms) eqn:E|];
      try (apply find_hd_in in H; exact H).
    inversion H; subst. apply (find_some _ _ E).
  - intros Hl Hex. rewrite Hl.
    destruct (find_exists (fun c => room_type_is c "lab") classrooms) as [c [Hc Ht]].
    { destruct Hex as [c [Hc Ht]]. exists c. split; [exact Hc | apply room_type_is_spec, Ht]. }
    rewrite Hc. exists c. split; [reflexivity | apply room_type_is_spec, Ht].
  - intros Hl Hex.
    destruct (find_exists (fun c => room_type_is c "lecture") classrooms) as [c [Hc Ht]].
    { destruct Hex as [c [Hc Ht]]. exists c. split; [exact Hc | apply room_type_is_spec, Ht]. }
    assert ((if is_lab_course then find (fun c => room_type_is c "lab") classrooms else None) = None) as Hn.
    { destruct is_lab_course; [|reflexivity]. destruct Hl as [Hl|Hl]; [discriminate|].
      destruct (find (fun c => room_type_is c "lab") classrooms) eqn:E; [|reflexivity].
      apply find_some in E as [E1 E2]. apply room_type_is_spec in E2. exfalso. apply (Hl _ E1 E2). }
    rewrite Hn, Hc. exists c. split; [reflexivity | apply room_type_is_spec, Ht].
Qed.
